(** * Recipe / nutrition retrieval pipeline: a shallow embedding

    The development follows the Python sources module by module:

    - [Py]                 the Python built-ins the code relies on
                           (strings, slices, stable sorts, insertion-ordered
                           dictionaries, exceptions, numpy scalars);
    - [Float64]            binary64 rounding and the float operations that
                           meet a threshold;
    - [DietaryAnalyzer]    src/dietary_analyzer.py;
    - [SubstitutionEngine] src/substitution_engine.py;
    - [SimpleVectorStore]  src/simple_vector_store.py;
    - [RAGPipeline]        src/rag_pipeline.py together with the metadata
                           builder of src/data_processor.py;
    - [Spec]               the predicates the properties are stated with;
    - [Samples]            concrete guidelines, recipes, stores and pipelines.

    The properties follow, one module per component.

    Scores are Python floats in the source.  They are embedded as
    rationals ([Q]); comparisons written [==] in Python are [Qeq_bool], and
    statements about numeric equality use [Qeq].  The bands and the
    trigger of the nutrition optimisation and the nutritional similarity
    of two ingredients meet a threshold with a computed float; these
    computations are rounded as binary64 arithmetic rounds them
    ([Float64]).  A numpy division by zero gives a non-finite number, the
    outcome [NonFinite] of a run.  Text is ASCII. *)

From Stdlib Require Import QArith Qabs Qminmax Qpower Lia Lqa ZArith String
  Ascii List Permutation Sorted.
From stdpp Require Import base option gmap strings list.
Import ListNotations.

Local Open Scope string_scope.
Local Open Scope Q_scope.

(** List concatenation where [++] is read as string concatenation. *)
Local Infix "+++" := (@app _) (at level 60, right associativity).

(* ===================================================================== *)
(** * Python built-ins                                                    *)
(* ===================================================================== *)

Module Py.

(** ** Exceptions and non-finite numbers *)

Inductive py_error : Type :=
| IndexError
| TypeError
| ValueError.

(** A numpy [float64] scalar as far as it is followed here: a number, nan,
    or an infinity (its sign depends on the sign of a zero, which the
    rationals do not have). *)
Inductive np_float : Type :=
| Finite (q : Q)
| NaN
| Infinite.

(** The outcome of a computation.  [Raise e]: the exception [e] is raised.
    [NonFinite v]: nothing is raised; a numpy operation has produced [v],
    nan or an infinity, where this development holds a rational score.
    Python goes on with that value (numpy emits a RuntimeWarning and the
    value is stored, compared and returned like any float); the run is not
    followed further here. *)
Inductive result (A : Type) : Type :=
| Ok (a : A)
| Raise (e : py_error)
| NonFinite (v : np_float).
Arguments Ok {A} a.
Arguments Raise {A} e.
Arguments NonFinite {A} v.

(** Sequencing: an exception raised by [m] skips the rest, and so does the
    end of what is followed. *)
Definition bind {A B : Type} (m : result A) (k : A -> result B) : result B :=
  match m with
  | Ok a => k a
  | Raise e => Raise e
  | NonFinite v => NonFinite v
  end.

Notation "'do' x <- m ; k" := (bind m (fun x => k))
  (at level 10, x name, m at level 100, k at level 200,
   format "'[v' 'do'  x  <-  m ; '/' k ']'").

(** A [for] loop whose body may raise: the accumulator is threaded from
    left to right and the first exception aborts the loop. *)
Fixpoint for_each {A S : Type} (body : S -> A -> result S) (l : list A)
    (s : S) : result S :=
  match l with
  | [] => Ok s
  | x :: l' => do s' <- body s x; for_each body l' s'
  end.

(** ** Numbers *)

(** [a / b] on numpy [float64] scalars.  Nothing is raised on a zero
    divisor: [0.0 / 0.0] is nan and [x / 0.0] is an infinity, each with a
    RuntimeWarning. *)
Definition np_div (a b : Q) : np_float :=
  if Qeq_bool b 0 then (if Qeq_bool a 0 then NaN else Infinite)
  else Finite (a / b).

(** An arithmetic operation with finite operands besides [x]: nan and the
    infinities go through. *)
Definition np_map (f : Q -> Q) (x : np_float) : np_float :=
  match x with
  | Finite q => Finite (f q)
  | NaN => NaN
  | Infinite => Infinite
  end.

Definition Qlt_bool (a b : Q) : bool := negb (Qle_bool b a).

(** [sum(xs)] *)
Definition sum (xs : list Q) : Q := fold_left Qplus xs 0.

(** [max(xs)]: the first maximal element; [ValueError] on an empty
    list. *)
Definition max_from (x : Q) (xs : list Q) : Q :=
  fold_left (fun m y => if Qlt_bool m y then y else m) xs x.
Definition max (xs : list Q) : result Q :=
  match xs with
  | [] => Raise ValueError
  | x :: xs' => Ok (max_from x xs')
  end.

(** [l[i]] for an index [i >= 0] *)
Definition index {A : Type} (l : list A) (i : nat) : result A :=
  match l !! i with
  | Some x => Ok x
  | None => Raise IndexError
  end.

(** [[f(x) for x in l]] when [f] may raise *)
Fixpoint map_r {A B : Type} (f : A -> result B) (l : list A) : result (list B) :=
  match l with
  | [] => Ok []
  | x :: l' => do y <- f x; do ys <- map_r f l'; Ok (y :: ys)
  end.

(** [int(b)] when a bool is used in arithmetic *)
Definition of_bool (b : bool) : Q := if b then 1 else 0.

(** ** Strings *)

Definition lower_ascii (c : ascii) : ascii :=
  let n := nat_of_ascii c in
  if ((65 <=? n)%nat && (n <=? 90)%nat)%bool then ascii_of_nat (n + 32) else c.

(** [s.lower()] *)
Fixpoint lower (s : string) : string :=
  match s with
  | EmptyString => EmptyString
  | String c s' => String (lower_ascii c) (lower s')
  end.

(** White space as [str.split()], [str.strip()] and the regex class [\s]
    see it on ASCII text. *)
Definition is_space (c : ascii) : bool :=
  let n := nat_of_ascii c in
  (((9 <=? n)%nat && (n <=? 13)%nat) || ((28 <=? n)%nat && (n <=? 32)%nat))%bool.

Definition is_digit (c : ascii) : bool :=
  let n := nat_of_ascii c in ((48 <=? n)%nat && (n <=? 57)%nat)%bool.

(** [needle in hay] for two strings *)
Fixpoint contains (needle hay : string) : bool :=
  (String.prefix needle hay ||
   match hay with
   | EmptyString => false
   | String _ hay' => contains needle hay'
   end)%bool.

(** [s.split()]: maximal runs of non-space characters. *)
Fixpoint split_go (cur : string) (s : string) : list string :=
  match s with
  | EmptyString =>
      match cur with EmptyString => [] | _ => [String.rev cur] end
  | String c s' =>
      if is_space c
      then match cur with
           | EmptyString => split_go EmptyString s'
           | _ => String.rev cur :: split_go EmptyString s'
           end
      else split_go (String c cur) s'
  end.
Definition split (s : string) : list string := split_go EmptyString s.

Fixpoint lstrip (s : string) : string :=
  match s with
  | EmptyString => EmptyString
  | String c s' => if is_space c then lstrip s' else s
  end.

(** [s.strip()] *)
Definition strip (s : string) : string :=
  String.rev (lstrip (String.rev (lstrip s))).

(** [s.replace(old, '')] for a non-empty [old]: occurrences are removed
    from left to right without overlap.  [skip] counts the characters of
    the current occurrence still to be dropped. *)
Fixpoint remove_go (old : string) (skip : nat) (s : string) : string :=
  match s with
  | EmptyString => EmptyString
  | String c s' =>
      match skip with
      | S k => remove_go old k s'
      | O =>
          if String.prefix old s
          then remove_go old (String.length old - 1) s'
          else String c (remove_go old 0 s')
      end
  end.
Definition remove (old s : string) : string := remove_go old 0 s.

(** [sep.join(parts)] *)
Fixpoint join (sep : string) (parts : list string) : string :=
  match parts with
  | [] => EmptyString
  | [p] => p
  | p :: ps => p ++ sep ++ join sep ps
  end.

(** [s.split(sep)[0]]: the text before the first occurrence of [sep]
    (the whole string when there is none). *)
Fixpoint before_first (sep s : string) : string :=
  match s with
  | EmptyString => EmptyString
  | String c s' =>
      if String.prefix sep s then EmptyString
      else String c (before_first sep s')
  end.

(** [s[n:]] for [n >= 0] *)
Fixpoint drop_chars (n : nat) (s : string) : string :=
  match n, s with
  | O, _ => s
  | S k, EmptyString => EmptyString
  | S k, String _ s' => drop_chars k s'
  end.

(** ** Lists *)

(** [l[:n]], also for a negative bound. *)
Definition slice_to {A : Type} (n : Z) (l : list A) : list A :=
  if (0 <=? n)%Z then take (Z.to_nat n) l
  else take (length l - Z.to_nat (- n)) l.

(** [l.sort(key=key, reverse=True)]: the sort is stable, so among equal
    keys the earlier element stays first, also in reverse order. *)
Section Sort.
Context {A : Type} (key : A -> Q).

Fixpoint insert_desc (x : A) (l : list A) : list A :=
  match l with
  | [] => [x]
  | y :: l' =>
      if Qle_bool (key y) (key x) then x :: y :: l'
      else y :: insert_desc x l'
  end.

Definition sort_desc (l : list A) : list A := foldr insert_desc [] l.
End Sort.

(** [desc key a b]: [a] may stand before [b] in a list sorted by descending
    [key]. *)
Definition desc {A : Type} (key : A -> Q) (a b : A) : Prop := key b <= key a.

(** ** Dictionaries that are iterated: association lists in insertion
    order, keys unique. *)
Section Dict.
Context {V : Type}.

(** [d.get(k)] *)
Fixpoint dict_get (k : string) (d : list (string * V)) : option V :=
  match d with
  | [] => None
  | (k', v) :: d' => if String.eqb k k' then Some v else dict_get k d'
  end.

(** [d[k] = v]: overwrites in place, else appends. *)
Fixpoint dict_set (k : string) (v : V) (d : list (string * V))
    : list (string * V) :=
  match d with
  | [] => [(k, v)]
  | (k', v') :: d' =>
      if String.eqb k k' then (k, v) :: d' else (k', v') :: dict_set k v d'
  end.

Definition dict_values (d : list (string * V)) : list V := map snd d.
End Dict.

(** [x in l] for a list of strings *)
Definition mem (x : string) (l : list string) : bool :=
  existsb (String.eqb x) l.

(** [s.split(sep)] for a non-empty separator: the parts between the
    occurrences of [sep], found from left to right without overlap.  [cur]
    is the current part, reversed; [skip] counts the characters of the
    current occurrence still to be passed. *)
Fixpoint split_on_go (sep : string) (skip : nat) (cur : string) (s : string)
    : list string :=
  match s with
  | EmptyString => [String.rev cur]
  | String c s' =>
      match skip with
      | S k => split_on_go sep k cur s'
      | O =>
          if String.prefix sep s
          then String.rev cur :: split_on_go sep (String.length sep - 1) EmptyString s'
          else split_on_go sep 0 (String c cur) s'
      end
  end.
Definition split_on (sep s : string) : list string :=
  split_on_go sep 0 EmptyString s.

(** [l.index(x)] on a list of strings: the first position of [x];
    [ValueError] when there is none. *)
Fixpoint index_of (x : string) (l : list string) : result nat :=
  match l with
  | [] => Raise ValueError
  | y :: l' => if String.eqb y x then Ok O else do i <- index_of x l'; Ok (S i)
  end.

End Py.

Import Py.

(* ===================================================================== *)
(** * Python floats at a threshold                                        *)
(* ===================================================================== *)

(** Python floats are binary64 numbers.  A number of the JSON documents or
    of the source text is written here as a rational and stands for the
    float nearest to it, [round64] of that rational (Python converts a
    decimal literal, and an integer that meets a float, in this way).
    The operations below are used for the bands and the trigger of the
    nutrition optimisation and for the nutritional similarity of two
    ingredients, so that their comparisons with a threshold come out as in
    Python: [3 * 0.8] is 2.4000000000000004 and lies above 2.4,
    [45.1 - 45] is 0.10000000000000142 and lies above 0.1, and [1 - 7 / 10]
    is 0.30000000000000004 and lies above 0.3.  Magnitudes stay below
    2^1024; no overflow to an infinity is followed. *)
Module Float64.

(** The integer nearest to [y], ties to the even one. *)
Definition round_half_even (y : Q) : Z :=
  let n := Qnum y in
  let d := Zpos (Qden y) in
  let q := (n / d)%Z in
  match (2 * (n mod d) ?= d)%Z with
  | Lt => q
  | Gt => (q + 1)%Z
  | Eq => if Z.even q then q else (q + 1)%Z
  end.

(** [floor (log2 x)] for [x > 0]. *)
Definition binade (x : Q) : Z :=
  let k := (Z.log2 (Qnum x) - Z.log2 (Zpos (Qden x)))%Z in
  if Qle_bool (2 ^ k) x then k else (k - 1)%Z.

(** The float nearest to [x > 0]: 53 significant bits, and multiples of
    2^-1074 below 2^-1022. *)
Definition round_pos (x : Q) : Q :=
  let s := Z.max (binade x - 52) (-1074) in
  inject_Z (round_half_even (x / 2 ^ s)) * 2 ^ s.

(** [float(q)] *)
Definition round64 (q : Q) : Q :=
  let r := Qred q in
  match Qnum r with
  | Z0 => 0
  | Zpos _ => round_pos r
  | Zneg _ => - round_pos (- r)
  end.

(** The binary64 numbers: an integer of at most 53 bits times a power of
    two that is at least 2^-1074. *)
Definition representable (f : Q) : Prop :=
  exists m s : Z,
    (Z.abs m <= 2 ^ 53)%Z /\ (-1074 <= s)%Z /\ f == inject_Z m * 2 ^ s.

(** [a + b], [a - b], [a * b] on floats, and [a / b] for [b] other than
    0. *)
Definition add (a b : Q) : Q := round64 (round64 a + round64 b).
Definition sub (a b : Q) : Q := round64 (round64 a - round64 b).
Definition mul (a b : Q) : Q := round64 (round64 a * round64 b).
Definition div (a b : Q) : Q := round64 (round64 a / round64 b).

(** [sum(l)] for a list of floats: the partial sums from the left, each
    one rounded.  (CPython from 3.12 on carries the rounding errors of the
    partial sums along and adds them at the end, which can change the last
    bit of a sum of three or more terms.) *)
Definition sum (l : list Q) : Q := fold_left add l 0.

(** [a <= b] and [a < b] on floats *)
Definition leb (a b : Q) : bool := Qle_bool (round64 a) (round64 b).
Definition ltb (a b : Q) : bool := Qlt_bool (round64 a) (round64 b).

End Float64.

(* ===================================================================== *)
(** * The JSON documents the pipeline is loaded with                      *)
(* ===================================================================== *)

Module Data.

(** An entry of a recipe's ['ingredients'] list.  Only ['name'] is read by
    the code under study ([ing['name']]). *)
Record Ingredient : Type := { name : string }.

(** A recipe dictionary.  Keys read with [.get(key, default)] are fields
    holding the default when the key is absent; ['id'] and
    ['cuisine_type'] are read with and without a default and stay
    optional. *)
Record Recipe : Type := {
  recipe_id : option string;
  title : string;
  cuisine_type : option string;
  dietary_tags : list string;
  health_benefits : list string;
  ingredients : list Ingredient;
  nutritional_info : gmap string Q
}.

(** dietary_guidelines['dietary_restrictions'][r] *)
Record RestrictionInfo : Type := { excluded_ingredients : list string }.

(** dietary_guidelines['allergies'][a]; a missing
    ['incompatible_ingredients'] key reads as the empty list in every
    reader. *)
Record AllergyInfo : Type := { incompatible_ingredients : list string }.

(** dietary_guidelines['health_conditions'][c] *)
Record HealthInfo : Type := {
  recommended_benefits : list string;
  avoid_nutrients : list string;
  recommended_nutrients : list string
}.

(** An element of dietary_guidelines['ingredient_substitutions'][i]
    ['substitutes'], defaults of [.get] applied. *)
Record SubstituteInfo : Type := {
  sub_name : string;
  sub_ratio : string;
  sub_notes : string
}.

Record DietaryGuidelines : Type := {
  dietary_restrictions : gmap string RestrictionInfo;
  health_conditions : gmap string HealthInfo;
  allergies : gmap string AllergyInfo;
  ingredient_substitutions : gmap string (list SubstituteInfo)
}.

(** An entry of nutritional_data['ingredients'].  The code reads three
    things from it: the ['dietary_tags'] list, the ['nutrition']
    dictionary, and numeric keys at the top level of the entry. *)
Record IngredientData : Type := {
  ing_dietary_tags : option (list string);
  ing_nutrition : option (gmap string Q);
  ing_top : gmap string Q
}.

(** Truth value of the entry as a dictionary: it has at least one key. *)
Definition ing_truthy (d : IngredientData) : bool :=
  (bool_decide (is_Some (ing_dietary_tags d))
   || bool_decide (is_Some (ing_nutrition d))
   || negb (bool_decide (ing_top d = ∅)))%bool.

(** The [{}] default of [self.ingredients.get(x, {})]. *)
Definition ing_empty : IngredientData :=
  {| ing_dietary_tags := None; ing_nutrition := None; ing_top := ∅ |}.

End Data.

Import Data.

(* ===================================================================== *)
(** * src/dietary_analyzer.py                                             *)
(* ===================================================================== *)

Module DietaryAnalyzer.

Record t : Type := {
  restrictions : gmap string RestrictionInfo;
  health_conditions : gmap string HealthInfo;
  allergies : gmap string AllergyInfo
}.

(** [DietaryAnalyzer.__init__] *)
Definition init (g : DietaryGuidelines) : t :=
  {| restrictions := Data.dietary_restrictions g;
     health_conditions := Data.health_conditions g;
     allergies := Data.allergies g |}.

(** [_ingredient_matches] *)
Definition _ingredient_matches (pattern ingredient : string) : bool :=
  if String.eqb pattern ingredient then true
  else if contains pattern ingredient then true
  else if contains ingredient pattern then true
  else
    existsb (fun pattern_word =>
      existsb (fun ingredient_word =>
        (contains pattern_word ingredient_word
         || contains ingredient_word pattern_word)%bool)
        (split ingredient))
      (split pattern).

(** The doubly nested loop shared by the restriction and allergy checks:
    an ingredient is appended once per listed pattern it matches. *)
Definition conflicting (patterns recipe_ingredients : list string)
    : list string :=
  flat_map (fun ingredient =>
    flat_map (fun p =>
      if _ingredient_matches (lower p) ingredient then [ingredient] else [])
      patterns)
    recipe_ingredients.

Definition recipe_ingredient_names (recipe : Recipe) : list string :=
  map (fun ing => lower (name ing)) (ingredients recipe).

(** One dimension of the analysis: the aggregate and the per-key
    dictionary (['restriction_results'], ['allergy_results'],
    ['health_results']). *)
Record Dimension (R : Type) : Type := {
  dim_compatible : bool;
  compatibility_score : Q;
  dim_results : list (string * R)
}.
Arguments dim_compatible {R} _.
Arguments compatibility_score {R} _.
Arguments dim_results {R} _.

(** [sum(result['score'] for result in d.values()) / len(d) if d else 1.0] *)
Definition mean_score {R : Type} (score : R -> Q) (d : list (string * R)) : Q :=
  match d with
  | [] => 1
  | _ => sum (map score (dict_values d)) / inject_Z (Z.of_nat (length d))
  end.

Record RestrictionResult : Type := {
  r_compatible : bool;
  r_score : Q;
  r_has_restriction_tag : bool;
  r_conflicting_ingredients : list string;
  r_excluded_ingredients : list string
}.

Definition check_restriction (a : t) (recipe : Recipe) (restriction : string)
    : RestrictionResult :=
  let excluded :=
    from_option excluded_ingredients [] (restrictions a !! restriction) in
  let has_restriction_tag := mem restriction (dietary_tags recipe) in
  let conflicting_ingredients :=
    conflicting excluded (recipe_ingredient_names recipe) in
  let is_compatible :=
    (has_restriction_tag && (length conflicting_ingredients =? 0)%nat)%bool in
  let score0 : Q := if is_compatible then 1 else 0 in
  let score :=
    match conflicting_ingredients with
    | _ :: _ => 0
    | [] => if negb has_restriction_tag then 0.5 else score0
    end in
  {| r_compatible := is_compatible;
     r_score := score;
     r_has_restriction_tag := has_restriction_tag;
     r_conflicting_ingredients := conflicting_ingredients;
     r_excluded_ingredients := excluded |}.

(** [_check_dietary_restrictions] *)
Definition _check_dietary_restrictions (a : t) (recipe : Recipe)
    (user_restrictions : list string) : Dimension RestrictionResult :=
  match user_restrictions with
  | [] => {| dim_compatible := true; compatibility_score := 1;
             dim_results := [] |}
  | _ =>
      let results :=
        fold_left (fun d restriction =>
                     dict_set restriction (check_restriction a recipe restriction) d)
                  user_restrictions [] in
      let overall := mean_score r_score results in
      {| dim_compatible := Qle_bool 0.7 overall;
         compatibility_score := overall;
         dim_results := results |}
  end.

Record AllergyResult : Type := {
  a_compatible : bool;
  a_score : Q;
  a_conflicting_ingredients : list string;
  a_incompatible_ingredients : list string
}.

Definition check_allergy (a : t) (recipe : Recipe) (allergy : string)
    : AllergyResult :=
  let incompatible :=
    from_option incompatible_ingredients [] (allergies a !! allergy) in
  let conflicting_ingredients :=
    conflicting incompatible (recipe_ingredient_names recipe) in
  let is_compatible := (length conflicting_ingredients =? 0)%nat in
  {| a_compatible := is_compatible;
     a_score := if is_compatible then 1 else 0;
     a_conflicting_ingredients := conflicting_ingredients;
     a_incompatible_ingredients := incompatible |}.

(** [_check_allergies] *)
Definition _check_allergies (a : t) (recipe : Recipe)
    (user_allergies : list string) : Dimension AllergyResult :=
  match user_allergies with
  | [] => {| dim_compatible := true; compatibility_score := 1;
             dim_results := [] |}
  | _ =>
      let results :=
        fold_left (fun d allergy =>
                     dict_set allergy (check_allergy a recipe allergy) d)
                  user_allergies [] in
      let overall := mean_score a_score results in
      {| dim_compatible := Qle_bool 0.7 overall;
         compatibility_score := overall;
         dim_results := results |}
  end.

(** [_analyze_nutritional_content] *)
Definition _analyze_nutritional_content (info : gmap string Q)
    (recommended avoid : list string) : Q :=
  let present nutrient :=
    match info !! nutrient with
    | Some value => Qlt_bool 0 value
    | None => false
    end in
  let score1 :=
    fold_left (fun score nutrient =>
                 if present nutrient then score - 0.2 else score) avoid 1 in
  let score2 :=
    fold_left (fun score nutrient =>
                 if present nutrient then score + 0.1 else score)
              recommended score1 in
  Qmax 0 (Qmin 1 score2).

Record HealthResult : Type := {
  h_compatible : bool;
  h_score : Q;
  h_has_recommended_benefits : bool;
  h_nutritional_score : Q;
  h_recommended_benefits : list string;
  h_avoid_nutrients : list string;
  h_recommended_nutrients : list string
}.

Definition check_condition (a : t) (recipe : Recipe) (condition : string)
    : HealthResult :=
  let info := health_conditions a !! condition in
  let benefits := from_option recommended_benefits [] info in
  let avoid := from_option avoid_nutrients [] info in
  let recommended := from_option recommended_nutrients [] info in
  let has_recommended_benefits :=
    existsb (fun benefit => mem benefit (health_benefits recipe)) benefits in
  let nutritional_score :=
    _analyze_nutritional_content (nutritional_info recipe) recommended avoid in
  let overall_condition_score :=
    of_bool has_recommended_benefits * 0.6 + nutritional_score * 0.4 in
  {| h_compatible := Qle_bool 0.6 overall_condition_score;
     h_score := overall_condition_score;
     h_has_recommended_benefits := has_recommended_benefits;
     h_nutritional_score := nutritional_score;
     h_recommended_benefits := benefits;
     h_avoid_nutrients := avoid;
     h_recommended_nutrients := recommended |}.

(** [_check_health_conditions] *)
Definition _check_health_conditions (a : t) (recipe : Recipe)
    (user_health_conditions : list string) : Dimension HealthResult :=
  match user_health_conditions with
  | [] => {| dim_compatible := true; compatibility_score := 1;
             dim_results := [] |}
  | _ =>
      let results :=
        fold_left (fun d condition =>
                     dict_set condition (check_condition a recipe condition) d)
                  user_health_conditions [] in
      let overall := mean_score h_score results in
      {| dim_compatible := Qle_bool 0.6 overall;
         compatibility_score := overall;
         dim_results := results |}
  end.

(** [_calculate_compatibility_score] *)
Definition _calculate_compatibility_score
    (restriction_compatibility : Dimension RestrictionResult)
    (allergy_compatibility : Dimension AllergyResult)
    (health_compatibility : Dimension HealthResult) : Q :=
  let restriction_score := compatibility_score restriction_compatibility in
  let allergy_score := compatibility_score allergy_compatibility in
  let health_score := compatibility_score health_compatibility in
  if Qeq_bool allergy_score 0 then 0
  else if Qeq_bool restriction_score 0 then 0
  else restriction_score * 0.4 + allergy_score * 0.4 + health_score * 0.2.

(** [_identify_issues] *)
Definition _identify_issues
    (restriction_compatibility : Dimension RestrictionResult)
    (allergy_compatibility : Dimension AllergyResult)
    (health_compatibility : Dimension HealthResult) : list string :=
  flat_map (fun '(restriction, result) =>
    if r_compatible result then []
    else match r_conflicting_ingredients result with
         | _ :: _ =>
             ["Contains ingredients incompatible with " ++ restriction ++ ": "
              ++ join ", " (r_conflicting_ingredients result)]
         | [] =>
             if negb (r_has_restriction_tag result)
             then ["Not tagged as " ++ restriction] else []
         end) (dim_results restriction_compatibility)
  +++ flat_map (fun '(allergy, result) =>
    if a_compatible result then []
    else match a_conflicting_ingredients result with
         | _ :: _ =>
             ["Contains ingredients that may cause " ++ allergy
              ++ " reaction: " ++ join ", " (a_conflicting_ingredients result)]
         | [] => []
         end) (dim_results allergy_compatibility)
  +++ flat_map (fun '(condition, result) =>
    if h_compatible result then []
    else (if negb (h_has_recommended_benefits result)
          then ["Not optimized for " ++ condition] else [])
         +++ (if Qlt_bool (h_nutritional_score result) 0.5
             then ["Nutritional content not ideal for " ++ condition] else []))
    (dim_results health_compatibility).

(** [_generate_suggestions] *)
Definition _generate_suggestions (recipe : Recipe)
    (restriction_compatibility : Dimension RestrictionResult)
    (allergy_compatibility : Dimension AllergyResult)
    (health_compatibility : Dimension HealthResult) : list string :=
  flat_map (fun '(restriction, result) =>
    if r_compatible result then []
    else match r_conflicting_ingredients result with
         | _ :: _ =>
             ["Consider substituting "
              ++ join ", " (r_conflicting_ingredients result)
              ++ " for " ++ restriction ++ "-friendly alternatives"]
         | [] =>
             if negb (r_has_restriction_tag result)
             then ["Recipe may be compatible with " ++ restriction
                   ++ " but not explicitly tagged"] else []
         end) (dim_results restriction_compatibility)
  +++ flat_map (fun '(allergy, result) =>
    if a_compatible result then []
    else match a_conflicting_ingredients result with
         | _ :: _ =>
             ["Substitute " ++ join ", " (a_conflicting_ingredients result)
              ++ " to avoid " ++ allergy ++ " triggers"]
         | [] => []
         end) (dim_results allergy_compatibility)
  +++ flat_map (fun '(condition, result) =>
    if h_compatible result then []
    else (if negb (h_has_recommended_benefits result)
          then ["Consider adding ingredients beneficial for " ++ condition]
          else [])
         +++ (if Qlt_bool (h_nutritional_score result) 0.5
             then ["Adjust portion size or ingredients for better "
                   ++ condition ++ " management"] else []))
    (dim_results health_compatibility).

Record Compatibility : Type := {
  overall_compatible : bool;
  overall_score : Q;
  restriction_compatibility : Dimension RestrictionResult;
  allergy_compatibility : Dimension AllergyResult;
  health_compatibility : Dimension HealthResult;
  issues : list string;
  suggestions : list string
}.

(** [analyze_recipe_compatibility]; a [None] argument reads as [[]]. *)
Definition analyze_recipe_compatibility (a : t) (recipe : Recipe)
    (user_restrictions user_allergies user_health_conditions : list string)
    : Compatibility :=
  let rc := _check_dietary_restrictions a recipe user_restrictions in
  let ac := _check_allergies a recipe user_allergies in
  let hc := _check_health_conditions a recipe user_health_conditions in
  let score := _calculate_compatibility_score rc ac hc in
  {| overall_compatible := Qle_bool 0.7 score;
     overall_score := score;
     restriction_compatibility := rc;
     allergy_compatibility := ac;
     health_compatibility := hc;
     issues := _identify_issues rc ac hc;
     suggestions := _generate_suggestions recipe rc ac hc |}.

Record CompatibleRecipe : Type := {
  cr_recipe : Recipe;
  cr_compatibility : Compatibility
}.

(** [get_compatible_recipes] *)
Definition get_compatible_recipes (a : t) (recipes : list Recipe)
    (user_restrictions user_allergies user_health_conditions : list string)
    (min_score : Q) : list CompatibleRecipe :=
  let compatible_recipes :=
    flat_map (fun recipe =>
      let compat :=
        analyze_recipe_compatibility a recipe user_restrictions user_allergies
          user_health_conditions in
      if Qle_bool min_score (overall_score compat)
      then [ {| cr_recipe := recipe; cr_compatibility := compat |} ]
      else []) recipes in
  sort_desc (fun x => overall_score (cr_compatibility x)) compatible_recipes.

End DietaryAnalyzer.

(* ===================================================================== *)
(** * src/substitution_engine.py                                          *)
(* ===================================================================== *)

Module SubstitutionEngine.

Record t : Type := {
  dietary_guidelines : DietaryGuidelines;
  (** nutritional_data['ingredients'], iterated in insertion order *)
  ingredients : list (string * IngredientData)
}.

(** [self.substitutions] *)
Definition substitutions (e : t) : gmap string (list SubstituteInfo) :=
  ingredient_substitutions (dietary_guidelines e).

(** [self.ingredients.get(x, {})] *)
Definition ingredient_entry (e : t) (x : string) : IngredientData :=
  from_option (fun d => d) ing_empty (dict_get x (ingredients e)).

(** ** [_normalize_ingredient_name] *)

Fixpoint count_while (p : ascii -> bool) (s : string) : nat :=
  match s with
  | EmptyString => O
  | String c s' => if p c then S (count_while p s') else O
  end.

(** Length of the match of the pattern [\d+\s*unit] at the start of [s],
    if there is one.  The three parts use disjoint character classes, so
    the greedy match is the only candidate. *)
Definition quantity_match (unit s : string) : option nat :=
  let d := count_while is_digit s in
  let s1 := drop_chars d s in
  let w := count_while is_space s1 in
  let s2 := drop_chars w s1 in
  if ((0 <? d)%nat && String.prefix unit s2)%bool
  then Some (d + w + String.length unit)%nat
  else None.

(** [re.sub(rf'\d+\s*{unit}', '', s)] *)
Fixpoint sub_quantity_go (unit : string) (skip : nat) (s : string) : string :=
  match s with
  | EmptyString => EmptyString
  | String c s' =>
      match skip with
      | S k => sub_quantity_go unit k s'
      | O =>
          match quantity_match unit s with
          | Some (S k) => sub_quantity_go unit k s'
          | _ => String c (sub_quantity_go unit 0 s')
          end
      end
  end.
Definition sub_quantity (unit s : string) : string := sub_quantity_go unit 0 s.

Definition modifiers : list string :=
  ["fresh"; "dried"; "frozen"; "canned"; "organic"; "raw"; "cooked"].
Definition units : list string :=
  ["cup"; "tbsp"; "tsp"; "oz"; "lb"; "g"; "kg"; "ml"; "l"].

Definition _normalize_ingredient_name (ingredient : string) : string :=
  let normalized := strip (lower ingredient) in
  let normalized :=
    fold_left (fun n modifier => strip (remove modifier n)) modifiers normalized in
  fold_left (fun n unit => strip (sub_quantity unit n)) units normalized.

(** ** Scores *)

(** [_calculate_substitution_compatibility] *)
Definition _calculate_substitution_compatibility (e : t) (substitute : string)
    (restrictions allergies : list string) : Q :=
  match restrictions, allergies with
  | [], [] => 1
  | _, _ =>
      let substitute_tags :=
        from_option (fun l => l) [] (ing_dietary_tags (ingredient_entry e substitute)) in
      let score :=
        fold_left (fun score restriction =>
          let excluded :=
            from_option excluded_ingredients []
              (dietary_restrictions (dietary_guidelines e) !! restriction) in
          if mem (lower substitute) (map lower excluded) then score - 0.5
          else if mem restriction substitute_tags then score + 0.2
          else score) restrictions 1 in
      let hit allergy :=
        let incompatible :=
          from_option incompatible_ingredients []
            (Data.allergies (dietary_guidelines e) !! allergy) in
        mem (lower substitute) (map lower incompatible) in
      let score := if existsb hit allergies then 0 else score in
      Qmax 0 (Qmin 1 score)
  end.

Definition nutrients : list string :=
  ["calories"; "protein"; "carbohydrates"; "fat"; "fiber"].

(** [max(a, b)] *)
Definition max2 (a b : Q) : Q := if Qlt_bool a b then b else a.

(** [_calculate_nutritional_similarity].  The result meets the threshold
    0.3 of [_find_ingredient_based_substitutions], so the subtraction, the
    division, the sum and the mean are the float operations of the
    source.  (On integer values below 2^53, which are floats, they give
    what Python's integer subtraction followed by true division gives.) *)
Definition _calculate_nutritional_similarity (nutrition1 nutrition2 : IngredientData)
    : Q :=
  if (negb (ing_truthy nutrition1) || negb (ing_truthy nutrition2))%bool then 0
  else
    let similarities :=
      flat_map (fun nutrient =>
        let val1 := from_option (fun v => v) 0 (ing_top nutrition1 !! nutrient) in
        let val2 := from_option (fun v => v) 0 (ing_top nutrition2 !! nutrient) in
        if (Float64.ltb 0 val1 && Float64.ltb 0 val2)%bool
        then [Float64.sub 1
                (Float64.div (Qabs (Float64.sub val1 val2)) (max2 val1 val2))]
        else []) nutrients in
    match similarities with
    | [] => 0
    | _ =>
        Float64.div (Float64.sum similarities)
          (inject_Z (Z.of_nat (length similarities)))
    end.

Record SubstitutionOption : Type := {
  original_ingredient : string;
  substitute_name : string;
  ratio : string;
  notes : string;
  compatibility_score : Q;
  nutritional_similarity : Q;
  overall_score : Q
}.

(** [_create_substitution_option]; the dictionary it returns is never
    empty, so the caller's [if option:] always holds. *)
Definition _create_substitution_option (e : t) (original : string)
    (substitute_info : SubstituteInfo) (restrictions allergies : list string)
    : SubstitutionOption :=
  let compatibility :=
    _calculate_substitution_compatibility e (sub_name substitute_info)
      restrictions allergies in
  let similarity :=
    _calculate_nutritional_similarity (ingredient_entry e original)
      (ingredient_entry e (sub_name substitute_info)) in
  {| original_ingredient := original;
     substitute_name := sub_name substitute_info;
     ratio := sub_ratio substitute_info;
     notes := sub_notes substitute_info;
     compatibility_score := compatibility;
     nutritional_similarity := similarity;
     overall_score := compatibility * 0.7 + similarity * 0.3 |}.

(** [_find_ingredient_based_substitutions] *)
Definition _find_ingredient_based_substitutions (e : t) (ingredient : string)
    (restrictions allergies : list string) : list SubstitutionOption :=
  flat_map (fun '(substitute, substitute_data) =>
    if String.eqb substitute ingredient then []
    else
      let compatibility :=
        _calculate_substitution_compatibility e substitute restrictions allergies in
      if Qlt_bool 0.5 compatibility then
        let similarity :=
          _calculate_nutritional_similarity (ingredient_entry e ingredient)
            substitute_data in
        if Float64.ltb 0.3 similarity then
          [{| original_ingredient := ingredient;
              substitute_name := substitute;
              ratio := "1:1";
              notes := "Nutritionally similar alternative";
              compatibility_score := compatibility;
              nutritional_similarity := similarity;
              overall_score := compatibility * 0.7 + similarity * 0.3 |}]
        else []
      else []) (ingredients e).

(** [find_substitutions] *)
Definition find_substitutions (e : t) (ingredient : string)
    (restrictions allergies : list string) : list SubstitutionOption :=
  let normalized_ingredient := _normalize_ingredient_name ingredient in
  let direct_substitutions :=
    from_option (fun l => l) [] (substitutions e !! normalized_ingredient) in
  let substitution_options :=
    map (fun substitute =>
           _create_substitution_option e ingredient substitute restrictions allergies)
        direct_substitutions in
  let substitution_options :=
    substitution_options
    +++ _find_ingredient_based_substitutions e normalized_ingredient
          restrictions allergies in
  sort_desc compatibility_score substitution_options.

(** ** Nutrition optimisation *)

Inductive Suggestion : Type :=
| add_ingredient (ingredient nutrient : string) (nutrient_value : Q)
    (compatibility : Q) (suggestion : string)
| substitute_ingredient (original substitute nutrient : string)
    (reduction : Q) (compatibility : Q) (suggestion : string).

Definition nutrient_value_of (s : Suggestion) : Q :=
  match s with
  | add_ingredient _ _ v _ _ => v
  | substitute_ingredient _ _ _ _ _ _ => 0
  end.

Definition reduction_of (s : Suggestion) : Q :=
  match s with
  | add_ingredient _ _ _ _ _ => 0
  | substitute_ingredient _ _ _ r _ _ => r
  end.

(** [data.get('nutrition', {}).get(nutrient, 0)] *)
Definition nutrition_value (data : IngredientData) (nutrient : string) : Q :=
  match ing_nutrition data with
  | Some nutrition => from_option (fun v => v) 0 (nutrition !! nutrient)
  | None => 0
  end.

(** [_find_nutrient_boost_suggestions] *)
Definition _find_nutrient_boost_suggestions (e : t) (recipe : Recipe)
    (nutrient : string) (deficit : Q) (restrictions allergies : list string)
    : list Suggestion :=
  let suggestions :=
    flat_map (fun '(ingredient_name, ingredient_data) =>
      let value := nutrition_value ingredient_data nutrient in
      if Qlt_bool 0 value then
        let compatibility :=
          _calculate_substitution_compatibility e ingredient_name
            restrictions allergies in
        if Qlt_bool 0.7 compatibility then
          [add_ingredient ingredient_name nutrient value compatibility
             ("Add " ++ ingredient_name ++ " to boost " ++ nutrient)]
        else []
      else []) (ingredients e) in
  slice_to 3 (sort_desc nutrient_value_of suggestions).

(** [_find_nutrient_reduction_suggestions] *)
Definition _find_nutrient_reduction_suggestions (e : t) (recipe : Recipe)
    (nutrient : string) (excess : Q) (restrictions allergies : list string)
    : list Suggestion :=
  let suggestions :=
    flat_map (fun ingredient =>
      let ingredient_name := name ingredient in
      let value := nutrition_value (ingredient_entry e ingredient_name) nutrient in
      if Qlt_bool 0 value then
        flat_map (fun substitution =>
          let substitute_value :=
            nutrition_value (ingredient_entry e (substitute_name substitution))
              nutrient in
          if Qlt_bool substitute_value value then
            [substitute_ingredient ingredient_name (substitute_name substitution)
               nutrient (value - substitute_value)
               (compatibility_score substitution)
               ("Substitute " ++ ingredient_name ++ " with "
                ++ substitute_name substitution ++ " to reduce " ++ nutrient)]
          else [])
          (slice_to 2 (find_substitutions e ingredient_name restrictions allergies))
      else []) (Data.ingredients recipe) in
  slice_to 3 (sort_desc reduction_of suggestions).

(** [_calculate_optimization_score]: the loop appends one band per target
    with a positive value.  The thresholds [target_value * 0.8] and
    [target_value * 0.5] are float products. *)
Definition _calculate_optimization_score (current_nutrition : gmap string Q)
    (target_nutrition : list (string * Q)) : Q :=
  match target_nutrition with
  | [] => 1
  | _ =>
      let scores :=
        fold_left (fun scores '(nutrient, target_value) =>
          let current_value :=
            from_option (fun v => v) 0 (current_nutrition !! nutrient) in
          if Float64.ltb 0 target_value then
            if Float64.leb (Float64.mul target_value 0.8) current_value
            then scores +++ [1]
            else if Float64.leb (Float64.mul target_value 0.5) current_value
                 then scores +++ [0.7]
                 else scores +++ [0.3]
          else scores) target_nutrition [] in
      match scores with
      | [] => 1
      | _ => sum scores / inject_Z (Z.of_nat (length scores))
      end
  end.

Record NutrientAnalysis : Type := {
  na_current : Q;
  na_target : Q;
  na_difference : Q;
  na_suggestions_count : nat
}.

Record Optimization : Type := {
  optimization_score : Q;
  suggestions : list Suggestion;
  nutrient_analysis : list (string * NutrientAnalysis);
  current_nutrition : gmap string Q;
  target_nutrition : list (string * Q)
}.

(** One iteration of the loop of [optimize_recipe_nutrition] over
    [target_nutrients.items()]; [difference] is a float difference. *)
Definition optimize_step (e : t) (recipe : Recipe)
    (restrictions allergies : list string)
    (acc : list Suggestion * list (string * NutrientAnalysis))
    (item : string * Q) : list Suggestion * list (string * NutrientAnalysis) :=
  let '(optimization_suggestions, analysis) := acc in
  let '(nutrient, target_value) := item in
  let current_value :=
    from_option (fun v => v) 0 (nutritional_info recipe !! nutrient) in
  let difference := Float64.sub target_value current_value in
  if Float64.ltb 0.1 (Qabs difference) then
    let found :=
      if Float64.ltb 0 difference
      then _find_nutrient_boost_suggestions e recipe nutrient difference
             restrictions allergies
      else _find_nutrient_reduction_suggestions e recipe nutrient
             (Qabs difference) restrictions allergies in
    (optimization_suggestions +++ found,
     dict_set nutrient
       {| na_current := current_value; na_target := target_value;
          na_difference := difference;
          na_suggestions_count := length found |} analysis)
  else acc.

(** [optimize_recipe_nutrition] *)
Definition optimize_recipe_nutrition (e : t) (recipe : Recipe)
    (target_nutrients : list (string * Q))
    (restrictions allergies : list string) : Optimization :=
  let '(optimization_suggestions, analysis) :=
    fold_left (optimize_step e recipe restrictions allergies)
              target_nutrients ([], []) in
  {| optimization_score :=
       _calculate_optimization_score (nutritional_info recipe) target_nutrients;
     suggestions := optimization_suggestions;
     nutrient_analysis := analysis;
     current_nutrition := nutritional_info recipe;
     target_nutrition := target_nutrients |}.

End SubstitutionEngine.

(* ===================================================================== *)
(** * src/simple_vector_store.py                                          *)
(* ===================================================================== *)

Module SimpleVectorStore.

(** ** Metadata values and filters *)

Inductive scalar : Type :=
| SNone
| SStr (s : string)
| SNum (q : Q).

(** A metadata value is a list ([isinstance(v, list)]) or a scalar. *)
Inductive meta_value : Type :=
| MScalar (v : scalar)
| MList (l : list scalar).

(** The operand of [$in], [$contains] and [$not_contains]. *)
Inductive operand : Type :=
| OStr (s : string)
| OList (l : list scalar).

(** A filter value: a dictionary of operators, or a bare value. *)
Inductive constraint : Type :=
| Ops (d : gmap string operand)
| Bare (v : meta_value).

(** [a == b] *)
Definition scalar_eqb (a b : scalar) : bool :=
  match a, b with
  | SNone, SNone => true
  | SStr x, SStr y => String.eqb x y
  | SNum x, SNum y => Qeq_bool x y
  | _, _ => false
  end.

Fixpoint scalars_eqb (l1 l2 : list scalar) : bool :=
  match l1, l2 with
  | [], [] => true
  | x :: l1', y :: l2' => (scalar_eqb x y && scalars_eqb l1' l2')%bool
  | _, _ => false
  end.

Definition meta_eqb (a b : meta_value) : bool :=
  match a, b with
  | MScalar x, MScalar y => scalar_eqb x y
  | MList x, MList y => scalars_eqb x y
  | _, _ => false
  end.

(** [x in l] for a list [l] *)
Definition in_list (x : scalar) (l : list scalar) : bool :=
  existsb (scalar_eqb x) l.

(** The values a [for filter_val in operand] loop goes through: the items
    of a list, the one-character strings of a string. *)
Definition iterate (op : operand) : list scalar :=
  match op with
  | OList l => l
  | OStr s => map (fun c => SStr (String c EmptyString)) (list_ascii_of_string s)
  end.

(** [metadata_value in operand] for a scalar metadata value *)
Definition scalar_in_operand (v : scalar) (op : operand) : result bool :=
  match op with
  | OList l => Ok (in_list v l)
  | OStr hay =>
      match v with
      | SStr x => Ok (contains x hay)
      | _ => Raise TypeError
      end
  end.

(** [operand in metadata_value] for a scalar metadata value *)
Definition operand_in_scalar (op : operand) (v : scalar) : result bool :=
  match v with
  | SStr hay =>
      match op with
      | OStr x => Ok (contains x hay)
      | OList _ => Raise TypeError
      end
  | _ => Raise TypeError
  end.

(** The body of the inner loop of [_apply_filters] once the key is known
    to be present: [Ok false] is [matches = False; break]. *)
Definition constraint_holds (metadata_value : meta_value) (value : constraint)
    : result bool :=
  match value with
  | Ops d =>
      match d !! "$in" with
      | Some op =>
          match metadata_value with
          | MList l => Ok (existsb (fun filter_val => in_list filter_val l) (iterate op))
          | MScalar v => scalar_in_operand v op
          end
      | None =>
      match d !! "$contains" with
      | Some op =>
          match metadata_value with
          | MList l => Ok (existsb (fun filter_val => in_list filter_val l) (iterate op))
          | MScalar v => operand_in_scalar op v
          end
      | None =>
      match d !! "$not_contains" with
      | Some op =>
          match metadata_value with
          | MList l =>
              Ok (negb (existsb (fun filter_val => in_list filter_val l) (iterate op)))
          | MScalar v => do b <- operand_in_scalar op v; Ok (negb b)
          end
      | None =>
          (* [metadata_value != value]: a dictionary differs from every
             scalar and list *)
          Ok false
      end end end
  | Bare v => Ok (meta_eqb metadata_value v)
  end.

(** The inner loop of [_apply_filters] for one metadata dictionary. *)
Fixpoint entry_matches (metadata : gmap string meta_value)
    (filter_dict : list (string * constraint)) : result bool :=
  match filter_dict with
  | [] => Ok true
  | (key, value) :: rest =>
      match metadata !! key with
      | None => Ok false
      | Some metadata_value =>
          do b <- constraint_holds metadata_value value;
          if b then entry_matches metadata rest else Ok false
      end
  end.

(** ** The store *)

(** Embeddings are numpy vectors and their similarity involves square
    roots; both stay abstract.  [E] stands for the vectors of one
    dimension, that of the query embedding: on them [np.dot] is defined
    and [_cosine_similarity] returns.  A stored embedding of another
    dimension, which [add_recipes] accepts from its caller, makes [np.dot]
    raise a ValueError; that run is not followed, and what is stated of a
    search is stated of the runs that return. *)
Class Embedder (E : Type) : Type := {
  _text_to_simple_embedding : string -> E;
  _cosine_similarity : E -> E -> Q
}.

Record t (E : Type) : Type := {
  documents : list string;
  metadatas : list (gmap string meta_value);
  embeddings : list E;
  ids : list string
}.
Arguments documents {E} _.
Arguments metadatas {E} _.
Arguments embeddings {E} _.
Arguments ids {E} _.

Definition empty {E : Type} : t E :=
  {| documents := []; metadatas := []; embeddings := []; ids := [] |}.

(** [enumerate(l)] *)
Definition enumerate {A : Type} (l : list A) : list (nat * A) :=
  combine (seq 0 (length l)) l.

(** [_apply_filters] *)
Definition _apply_filters {E : Type} (store : t E)
    (filter_dict : list (string * constraint)) : result (list nat) :=
  for_each (fun matching_indices '(i, metadata) =>
              do b <- entry_matches metadata filter_dict;
              Ok (if b then matching_indices +++ [i] else matching_indices))
           (enumerate (metadatas store)) [].

(** [add_recipes]; [doc_ids] are the fresh uuids. *)
Definition add_recipes {E : Type} `{Embedder E} (store : t E)
    (recipe_texts : list string)
    (recipe_metadata : option (list (gmap string meta_value)))
    (new_embeddings : option (list E)) (doc_ids : list string) : t E :=
  let recipe_metadata :=
    match recipe_metadata with
    | Some m => m
    | None => map (fun text => {[ "text" := MScalar (SStr text) ]}) recipe_texts
    end in
  {| documents := documents store +++ recipe_texts;
     metadatas := metadatas store +++ recipe_metadata;
     ids := ids store +++ doc_ids;
     embeddings :=
       embeddings store +++
       match new_embeddings with
       | Some es => es
       | None => map _text_to_simple_embedding recipe_texts
       end |}.

Record SearchResults : Type := {
  res_ids : list string;
  res_documents : list string;
  res_metadatas : list (gmap string meta_value);
  res_distances : list Q
}.

(** [search_recipes]; [filter_dict = None] is Python's [None]. *)
Definition search_recipes {E : Type} `{Embedder E} (store : t E)
    (query : string) (n_results : Z)
    (filter_dict : option (list (string * constraint))) : result SearchResults :=
  let query_embedding := _text_to_simple_embedding query in
  let similarities :=
    map (fun '(i, doc_embedding) =>
           (i, _cosine_similarity query_embedding doc_embedding))
        (enumerate (embeddings store)) in
  let similarities := sort_desc snd similarities in
  do similarities <-
    match filter_dict with
    | Some (c :: cs) =>
        do filtered_indices <- _apply_filters store (c :: cs);
        Ok (List.filter (fun '(i, _) => bool_decide (i ∈ filtered_indices)) similarities)
    | _ => Ok similarities
    end;
  let top := slice_to n_results similarities in
  let top_indices := map fst top in
  do r_ids <- map_r (index (ids store)) top_indices;
  do r_documents <- map_r (index (documents store)) top_indices;
  do r_metadatas <- map_r (index (metadatas store)) top_indices;
  Ok {| res_ids := r_ids;
        res_documents := r_documents;
        res_metadatas := r_metadatas;
        res_distances := map (fun '(_, sim) => 1 - sim) top |}.

(** [filter_by_dietary_restriction] *)
Definition filter_by_dietary_restriction {E : Type} `{Embedder E} (store : t E)
    (restriction : string) (n_results : Z) : result SearchResults :=
  search_recipes store "" n_results
    (Some [("dietary_tags", Ops {[ "$in" := OList [SStr restriction] ]})]).

(** [filter_by_health_condition] *)
Definition filter_by_health_condition {E : Type} `{Embedder E} (store : t E)
    (condition : string) (n_results : Z) : result SearchResults :=
  search_recipes store "" n_results
    (Some [("health_benefits", Ops {[ "$in" := OList [SStr condition] ]})]).

Record StoredRecipe : Type := {
  sr_id : string;
  sr_document : string;
  sr_metadata : gmap string meta_value
}.

(** [get_recipe_by_id]: only the [ValueError] of [ids.index] is caught. *)
Definition get_recipe_by_id {E : Type} (store : t E) (doc_id : string)
    : result (option StoredRecipe) :=
  match index_of doc_id (ids store) with
  | Raise ValueError => Ok None
  | Raise e => Raise e
  | NonFinite v => NonFinite v
  | Ok i =>
      do found_id <- index (ids store) i;
      do document <- index (documents store) i;
      do found_metadata <- index (metadatas store) i;
      Ok (Some {| sr_id := found_id; sr_document := document;
                  sr_metadata := found_metadata |})
  end.

(** [get_collection_stats]['total_documents'] *)
Definition total_documents {E : Type} (store : t E) : nat :=
  length (documents store).

(** [delete_collection] (and [reset_collection], which calls it) *)
Definition delete_collection {E : Type} (store : t E) : t E := empty.

End SimpleVectorStore.

(* ===================================================================== *)
(** * src/rag_pipeline.py (with the metadata of src/data_processor.py)    *)
(* ===================================================================== *)

Module RAGPipeline.

Import SimpleVectorStore.

(** ** src/data_processor.py *)

Record DataProcessor : Type := {
  recipes : list Recipe;
  dietary_guidelines : DietaryGuidelines
}.

(** [recipe.get('nutritional_info', {}).get(key, 0)] *)
Definition nutrition_field (recipe : Recipe) (key : string) : meta_value :=
  MScalar (SNum (from_option (fun v => v) 0 (nutritional_info recipe !! key))).

Definition opt_str (o : option string) : meta_value :=
  MScalar (match o with Some s => SStr s | None => SNone end).

(** The dictionary [get_recipe_metadata] builds for one recipe. *)
Definition recipe_metadata (recipe : Recipe) : gmap string meta_value :=
  <[ "id" := opt_str (recipe_id recipe) ]>
  (<[ "title" := MScalar (SStr (title recipe)) ]>
  (<[ "cuisine_type" := opt_str (cuisine_type recipe) ]>
  (<[ "dietary_tags" := MList (map SStr (dietary_tags recipe)) ]>
  (<[ "health_benefits" := MList (map SStr (health_benefits recipe)) ]>
  (<[ "calories" := nutrition_field recipe "calories" ]>
  (<[ "protein" := nutrition_field recipe "protein" ]>
  (<[ "carbohydrates" := nutrition_field recipe "carbohydrates" ]>
  (<[ "fat" := nutrition_field recipe "fat" ]>
  (<[ "fiber" := nutrition_field recipe "fiber" ]> ∅))))))))).

(** [DataProcessor.get_recipe_metadata] *)
Definition get_recipe_metadata (dp : DataProcessor)
    : list (gmap string meta_value) :=
  map recipe_metadata (recipes dp).

(** [DataProcessor.get_allergy_info] *)
Definition get_allergy_info (dp : DataProcessor) (allergy : string)
    : option AllergyInfo :=
  Data.allergies (dietary_guidelines dp) !! allergy.

(** ** The pipeline *)

(** [RecipeIntegrator.generate_recipes] draws from [random]; the function
    stands for the outcome of one call. *)
Class RecipeIntegrator : Type := {
  generate_recipes :
    string -> list string -> list string -> list string -> Z -> list Recipe
}.

Record t (E : Type) : Type := {
  data_processor : DataProcessor;
  vector_store : SimpleVectorStore.t E;
  dietary_analyzer : DietaryAnalyzer.t;
  substitution_engine : SubstitutionEngine.t
}.
Arguments data_processor {E} _.
Arguments vector_store {E} _.
Arguments dietary_analyzer {E} _.
Arguments substitution_engine {E} _.

Record SearchResult : Type := {
  recipe : Recipe;
  compatibility : DietaryAnalyzer.Compatibility;
  search_score : Q;
  overall_score : Q;
  distance : Q;
  metadata : gmap string meta_value
}.

Record SearchResponse : Type := {
  results : list SearchResult;
  total_found : nat;
  query_echo : string;
  filters_applied : list string * list string * list string;
  dynamic_recipes_included : bool
}.

Definition health_benefits_mapping : list (string * list string) :=
  [ ("diabetes", ["diabetes_friendly"; "blood_sugar_control"]);
    ("heart_disease", ["heart_healthy"; "cholesterol_lowering"]);
    ("hypertension", ["blood_pressure_control"; "heart_healthy"]);
    ("celiac_disease", ["celiac_safe"; "gluten_free"]);
    ("lactose_intolerance", ["lactose_intolerance_safe"; "dairy_free"]);
    ("obesity", ["weight_management"; "low_carb"]) ].

(** The list [_build_filter_dict] collects from the allergy guidelines. *)
Definition allergy_exclusions (dp : DataProcessor) (allergies : list string)
    : list string :=
  flat_map (fun allergy =>
              match get_allergy_info dp allergy with
              | Some info => incompatible_ingredients info
              | None => []
              end) allergies.

(** [_build_filter_dict]; the keys are inserted in this order. *)
Definition _build_filter_dict (dp : DataProcessor)
    (dietary_restrictions allergies health_conditions : list string)
    : option (list (string * constraint)) :=
  let filters :=
    (match dietary_restrictions with
     | [] => []
     | _ => [("dietary_tags", Ops {[ "$in" := OList (map SStr dietary_restrictions) ]})]
     end)
    +++ (match allergy_exclusions dp allergies with
         | [] => []
         | incompatible =>
             [("ingredients", Ops {[ "$not_contains" := OList (map SStr incompatible) ]})]
         end)
    +++ (match flat_map (fun condition =>
                 from_option (fun l => l) []
                   (dict_get condition health_benefits_mapping))
               health_conditions with
         | [] => []
         | relevant_benefits =>
             [("health_benefits", Ops {[ "$in" := OList (map SStr relevant_benefits) ]})]
         end) in
  match filters with
  | [] => None
  | _ => Some filters
  end.

(** [_find_recipe_by_text] *)
Definition _find_recipe_by_text (dp : DataProcessor) (text : string)
    : option Recipe :=
  if negb (contains " | " text) then None
  else
    let title_part := before_first " | " text in
    if String.prefix "Title: " title_part then
      let wanted := drop_chars 7 title_part in
      find (fun recipe => String.eqb (title recipe) wanted) (recipes dp)
    else None.

(** [_calculate_overall_score] *)
Definition _calculate_overall_score (search_score compatibility_score : Q) : Q :=
  search_score * 0.6 + compatibility_score * 0.4.

(** [DataProcessor.get_recipes_by_dietary_restriction] *)
Definition get_recipes_by_dietary_restriction (dp : DataProcessor)
    (restriction : string) : list Recipe :=
  List.filter (fun recipe => mem restriction (dietary_tags recipe)) (recipes dp).

(** [DataProcessor.get_recipes_by_health_condition] *)
Definition get_recipes_by_health_condition (dp : DataProcessor)
    (condition : string) : list Recipe :=
  List.filter (fun recipe => mem condition (health_benefits recipe)) (recipes dp).

(** [DataProcessor.get_recipes_by_ingredient] *)
Definition get_recipes_by_ingredient (dp : DataProcessor) (ingredient : string)
    : list Recipe :=
  List.filter (fun recipe =>
                 mem (lower ingredient)
                     (map (fun ing => lower (name ing)) (ingredients recipe)))
              (recipes dp).

(** The body of the loop of [DataProcessor.create_recipe_chunks] for one
    recipe text: the loop over the sections, then the final append. *)
Definition chunk_step (chunk_size : nat) (acc : list string * string)
    (section : string) : list string * string :=
  let '(chunks, current_chunk) := acc in
  if (chunk_size <? String.length (current_chunk ++ section))%nat then
    (match current_chunk with
     | EmptyString => chunks
     | _ => chunks +++ [strip current_chunk]
     end, section)
  else
    (chunks,
     match current_chunk with
     | EmptyString => section
     | _ => current_chunk ++ " | " ++ section
     end).

Definition chunks_of_text (chunk_size : nat) (recipe_text : string) : list string :=
  if (chunk_size <? String.length recipe_text)%nat then
    let '(chunks, current_chunk) :=
      fold_left (chunk_step chunk_size) (split_on " | " recipe_text)
                ([], EmptyString) in
    match current_chunk with
    | EmptyString => chunks
    | _ => chunks +++ [strip current_chunk]
    end
  else [recipe_text].

(** [_build_search_query]; a goal is set when its value is truthy. *)
Definition goal_set (nutritional_goals : list (string * Q)) (goal : string) : bool :=
  match dict_get goal nutritional_goals with
  | Some v => negb (Qeq_bool v 0)
  | None => false
  end.

Definition _build_search_query (preferences : list string)
    (nutritional_goals : list (string * Q)) : string :=
  let query_parts :=
    preferences
    +++ (if goal_set nutritional_goals "high_protein" then ["high protein"] else [])
    +++ (if goal_set nutritional_goals "low_carb" then ["low carb"] else [])
    +++ (if goal_set nutritional_goals "low_fat" then ["low fat"] else [])
    +++ (if goal_set nutritional_goals "high_fiber" then ["high fiber"] else []) in
  match query_parts with
  | [] => "healthy recipe"
  | _ => join " " query_parts
  end.

(** [_extract_ingredients_from_issue] *)
Definition _extract_ingredients_from_issue (issue : string) : list string :=
  if contains "contains" (lower issue) then
    match split_on "contains" issue with
    | _ :: part :: _ => map strip (split_on "," (strip part))
    | _ => []
    end
  else [].

Record SubstitutionResponse : Type := {
  sub_original_ingredient : string;
  sub_substitutions : list SubstitutionEngine.SubstitutionOption;
  sub_total_options : nat
}.

(** [get_ingredient_substitutions] *)
Definition get_ingredient_substitutions {E : Type} (p : t E) (ingredient : string)
    (dietary_restrictions allergies : list string) : SubstitutionResponse :=
  let substitutions :=
    SubstitutionEngine.find_substitutions (substitution_engine p) ingredient
      dietary_restrictions allergies in
  {| sub_original_ingredient := ingredient;
     sub_substitutions := substitutions;
     sub_total_options := length substitutions |}.

Record UserProfile : Type := {
  profile_restrictions : list string;
  profile_allergies : list string;
  profile_health_conditions : list string;
  profile_preferences : list string;
  profile_nutritional_goals : list (string * Q)
}.

(** A search result with the ['nutrition_optimization'] key that
    [get_personalized_recommendations] adds when there are goals. *)
Record Recommendation : Type := {
  rec_result : SearchResult;
  rec_nutrition_optimization : option SubstitutionEngine.Optimization
}.

Record Recommendations : Type := {
  recommendations : list Recommendation;
  rec_user_profile : UserProfile;
  rec_search_query : string;
  rec_dynamic_recipes_included : bool
}.

Section Search.
Context {E : Type} `{Embedder E} `{RecipeIntegrator}.

(** [_get_dynamic_recipes] *)
Definition _get_dynamic_recipes (query : string)
    (dietary_restrictions allergies health_conditions : list string)
    (n_results : Z) : list Recipe :=
  slice_to n_results
    (generate_recipes query dietary_restrictions allergies health_conditions
       n_results).

(** The body of the first loop of [search_recipes] for one hit:
    [Ok None] when the text resolves to no recipe.  The distances are numpy
    scalars, so [distance / max(distances)] raises nothing when the largest
    distance is 0: the quotient is nan (or an infinity), and so are the
    search score and the overall score of the entry the loop appends.  The
    scores of an entry are rationals here; the sort that follows in the
    source compares nan keys and is not followed. *)
Definition static_result (p : t E)
    (dietary_restrictions allergies health_conditions : list string)
    (distances : list Q)
    (hit : string * string * gmap string meta_value * Q)
    : result (option SearchResult) :=
  let '(doc_id, document, hit_metadata, hit_distance) := hit in
  match _find_recipe_by_text (data_processor p) document with
  | None => Ok None
  | Some found =>
      let compat :=
        DietaryAnalyzer.analyze_recipe_compatibility (dietary_analyzer p)
          found dietary_restrictions allergies health_conditions in
      do largest <- max distances;
      match np_map (fun quotient => 1 - quotient) (np_div hit_distance largest) with
      | Finite score =>
          Ok (Some {| recipe := found;
                      compatibility := compat;
                      search_score := score;
                      overall_score :=
                        _calculate_overall_score score
                          (DietaryAnalyzer.overall_score compat);
                      distance := hit_distance;
                      metadata := hit_metadata |})
      | score => NonFinite score
      end
  end.

(** [zip(ids, documents, metadatas, distances)] *)
Definition hits_of (sr : SearchResults)
    : list (string * string * gmap string meta_value * Q) :=
  combine (combine (combine (res_ids sr) (res_documents sr))
                   (res_metadatas sr)) (res_distances sr).

Definition static_results (p : t E)
    (dietary_restrictions allergies health_conditions : list string)
    (sr : SearchResults) : result (list SearchResult) :=
  for_each (fun analyzed_results hit =>
              do entry <- static_result p dietary_restrictions allergies
                            health_conditions (res_distances sr) hit;
              Ok (match entry with
                  | Some e => analyzed_results +++ [e]
                  | None => analyzed_results
                  end))
           (hits_of sr) [].

(** The entry appended for one generated recipe. *)
Definition dynamic_result (p : t E)
    (dietary_restrictions allergies health_conditions : list string)
    (dynamic_recipe : Recipe) : SearchResult :=
  let compat :=
    DietaryAnalyzer.analyze_recipe_compatibility (dietary_analyzer p)
      dynamic_recipe dietary_restrictions allergies health_conditions in
  {| recipe := dynamic_recipe;
     compatibility := compat;
     search_score := 0.8;
     overall_score := DietaryAnalyzer.overall_score compat * 0.8;
     distance := 0.2;
     metadata :=
       <[ "title" := MScalar (SStr (title dynamic_recipe)) ]>
       (<[ "cuisine_type" :=
             MScalar (SStr (from_option (fun s => s) "Dynamic"
                              (cuisine_type dynamic_recipe))) ]>
       (<[ "dietary_tags" := MList (map SStr (dietary_tags dynamic_recipe)) ]>
       (<[ "health_benefits" :=
             MList (map SStr (health_benefits dynamic_recipe)) ]>
       (<[ "calories" := nutrition_field dynamic_recipe "calories" ]>
       (<[ "protein" := nutrition_field dynamic_recipe "protein" ]>
       (<[ "carbohydrates" := nutrition_field dynamic_recipe "carbohydrates" ]>
       (<[ "fat" := nutrition_field dynamic_recipe "fat" ]>
       (<[ "fiber" := nutrition_field dynamic_recipe "fiber" ]> ∅)))))))) |}.

Definition dynamic_results (p : t E) (query : string)
    (dietary_restrictions allergies health_conditions : list string)
    (n_results : Z) (include_dynamic : bool) : list SearchResult :=
  if include_dynamic then
    map (dynamic_result p dietary_restrictions allergies health_conditions)
        (_get_dynamic_recipes query dietary_restrictions allergies
           health_conditions n_results)
  else [].

(** The de-duplication loop: [unique_results] and [seen_titles] are the
    loop state. *)
Fixpoint unique_loop (analyzed_results unique_results : list SearchResult)
    (seen_titles : gset string) : list SearchResult :=
  match analyzed_results with
  | [] => unique_results
  | r :: rest =>
      let t := title (recipe r) in
      if bool_decide (t ∈ seen_titles)
      then unique_loop rest unique_results seen_titles
      else unique_loop rest (unique_results +++ [r]) ({[ t ]} ∪ seen_titles)
  end.

(** The merged candidate list before it is sorted. *)
Definition analyzed_results (p : t E) (query : string)
    (dietary_restrictions allergies health_conditions : list string)
    (n_results : Z) (include_dynamic : bool) : result (list SearchResult) :=
  let filter_dict :=
    _build_filter_dict (data_processor p) dietary_restrictions allergies
      health_conditions in
  do search_results <-
    SimpleVectorStore.search_recipes (vector_store p) query (n_results * 2)
      filter_dict;
  do static <-
    static_results p dietary_restrictions allergies health_conditions
      search_results;
  Ok (static +++ dynamic_results p query dietary_restrictions allergies
                   health_conditions n_results include_dynamic).

(** [search_recipes] *)
Definition search_recipes (p : t E) (query : string)
    (dietary_restrictions allergies health_conditions : list string)
    (n_results : Z) (include_dynamic : bool) : result SearchResponse :=
  do analyzed <-
    analyzed_results p query dietary_restrictions allergies
      health_conditions n_results include_dynamic;
  let sorted := sort_desc overall_score analyzed in
  let unique_results := unique_loop sorted [] ∅ in
  Ok {| results := slice_to n_results unique_results;
        total_found := length unique_results;
        query_echo := query;
        filters_applied :=
          (dietary_restrictions, allergies, health_conditions);
        dynamic_recipes_included := include_dynamic |}.

(** [get_personalized_recommendations] *)
Definition get_personalized_recommendations (p : t E) (user_profile : UserProfile)
    (n_recommendations : Z) (include_dynamic : bool) : result Recommendations :=
  let nutritional_goals := profile_nutritional_goals user_profile in
  let search_query :=
    _build_search_query (profile_preferences user_profile) nutritional_goals in
  do search_results <-
    search_recipes p search_query (profile_restrictions user_profile)
      (profile_allergies user_profile) (profile_health_conditions user_profile)
      (n_recommendations * 2) include_dynamic;
  let optimized_results :=
    map (fun r =>
      {| rec_result := r;
         rec_nutrition_optimization :=
           match nutritional_goals with
           | [] => None
           | _ =>
               Some (SubstitutionEngine.optimize_recipe_nutrition
                       (substitution_engine p) (recipe r) nutritional_goals
                       (profile_restrictions user_profile)
                       (profile_allergies user_profile))
           end |}) (results search_results) in
  Ok {| recommendations := slice_to n_recommendations optimized_results;
        rec_user_profile := user_profile;
        rec_search_query := search_query;
        rec_dynamic_recipes_included := include_dynamic |}.
End Search.

End RAGPipeline.

(* ===================================================================== *)
(** * The properties, in the words of the specification                   *)
(* ===================================================================== *)

Module Spec.

(** ** Substitution ranking *)

(** The fused score of a substitution option. *)
Definition fused (o : SubstitutionEngine.SubstitutionOption) : Prop :=
  SubstitutionEngine.overall_score o
  == SubstitutionEngine.compatibility_score o * 0.7
     + SubstitutionEngine.nutritional_similarity o * 0.3.

(** The options in the order in which [find_substitutions] collects them,
    before it sorts them: one per substitute the guidelines list for the
    normalised ingredient, then the candidates drawn from the nutrient
    database. *)
Definition substitution_options (e : SubstitutionEngine.t) (ingredient : string)
    (restrictions allergies : list string)
    : list SubstitutionEngine.SubstitutionOption :=
  map (fun substitute =>
         SubstitutionEngine._create_substitution_option e ingredient substitute
           restrictions allergies)
      (from_option (fun l => l) []
         (SubstitutionEngine.substitutions e
            !! SubstitutionEngine._normalize_ingredient_name ingredient))
  +++ SubstitutionEngine._find_ingredient_based_substitutions e
        (SubstitutionEngine._normalize_ingredient_name ingredient)
        restrictions allergies.

(** The elements of a list whose key has the given value, in their
    order. *)
Definition with_key {A : Type} (key : A -> Q) (value : Q) (l : list A) : list A :=
  List.filter (fun x => Qeq_bool (key x) value) l.

(** ** Nutrition optimisation *)

(** The current value of a nutrient, 0 when the recipe does not list it. *)
Definition current_of (recipe : Recipe) (nutrient : string) : Q :=
  from_option (fun v => v) 0 (nutritional_info recipe !! nutrient).

(** The band of one nutrient; [0.8 x target] and [0.5 x target] are float
    products. *)
Definition spec_band (current target : Q) : Q :=
  if Float64.leb (Float64.mul 0.8 target) current then 1
  else if Float64.leb (Float64.mul 0.5 target) current then 0.7
  else 0.3.

(** The mean of the bands over the targets with a positive value, 1 when
    there is none. *)
Definition spec_optimization_score (recipe : Recipe) (targets : list (string * Q)) : Q :=
  let bands :=
    map (fun '(nutrient, target) => spec_band (current_of recipe nutrient) target)
        (List.filter (fun '(_, target) => Float64.ltb 0 target) targets) in
  match bands with
  | [] => 1
  | _ => sum bands / inject_Z (Z.of_nat (length bands))
  end.

(** The gap between target and current value, a float difference. *)
Definition gap (recipe : Recipe) (nutrient : string) (target : Q) : Q :=
  Float64.sub target (current_of recipe nutrient).

(** The search for suggestions is triggered by an absolute gap above 0.1. *)
Definition triggered (recipe : Recipe) (nutrient : string) (target : Q) : Prop :=
  Float64.ltb 0.1 (Qabs (gap recipe nutrient target)) = true.

(** The suggestions of one target: a boost search for a deficit, a
    reduction search for an excess, nothing when the gap is at most 0.1. *)
Definition spec_suggestions_for (e : SubstitutionEngine.t) (recipe : Recipe)
    (restrictions allergies : list string) (item : string * Q)
    : list SubstitutionEngine.Suggestion :=
  let '(nutrient, target) := item in
  let difference := gap recipe nutrient target in
  if Float64.ltb 0.1 (Qabs difference) then
    if Float64.ltb 0 difference
    then SubstitutionEngine._find_nutrient_boost_suggestions e recipe nutrient
           difference restrictions allergies
    else SubstitutionEngine._find_nutrient_reduction_suggestions e recipe nutrient
           (Qabs difference) restrictions allergies
  else [].

(** An ingredient name that the guidelines list, up to case, as
    incompatible with one of the user's allergies. *)
Definition is_allergen (e : SubstitutionEngine.t) (allergies : list string)
    (ingredient_name : string) : Prop :=
  exists allergy,
    In allergy allergies
    /\ mem (lower ingredient_name)
         (map lower
            (from_option incompatible_ingredients []
               (Data.allergies (SubstitutionEngine.dietary_guidelines e) !! allergy)))
       = true.

(** The ingredient a suggestion brings into the recipe. *)
Definition suggested_ingredient (s : SubstitutionEngine.Suggestion) : string :=
  match s with
  | SubstitutionEngine.add_ingredient ingredient _ _ _ _ => ingredient
  | SubstitutionEngine.substitute_ingredient _ substitute _ _ _ _ => substitute
  end.

(** ** The vector store *)

(** The four parallel lists of a store have one length.  [add_recipes]
    keeps this as long as it is given as many metadata dictionaries (and
    embeddings) as texts. *)
Definition aligned {E : Type} (store : SimpleVectorStore.t E) : Prop :=
  length (SimpleVectorStore.ids store)
  = length (SimpleVectorStore.documents store)
  /\ length (SimpleVectorStore.metadatas store)
     = length (SimpleVectorStore.documents store)
  /\ length (SimpleVectorStore.embeddings store)
     = length (SimpleVectorStore.documents store).

(** A metadata dictionary whose field [key] holds [value]: as an element
    when the field is a list, as the field itself otherwise. *)
Definition tagged (key value : string)
    (metadata : gmap string SimpleVectorStore.meta_value) : bool :=
  match metadata !! key with
  | Some (SimpleVectorStore.MList l) =>
      SimpleVectorStore.in_list (SimpleVectorStore.SStr value) l
  | Some (SimpleVectorStore.MScalar v) =>
      SimpleVectorStore.scalar_eqb v (SimpleVectorStore.SStr value)
  | None => false
  end.

(** ** Search results *)

(** The key of the de-duplication. *)
Definition title_of (e : RAGPipeline.SearchResult) : string :=
  title (RAGPipeline.recipe e).

(** The document of a hit (id, document, metadata, distance) resolves to a
    recipe of the corpus. *)
Definition resolves (dp : RAGPipeline.DataProcessor)
    (hit : string * string * gmap string SimpleVectorStore.meta_value * Q) : Prop :=
  is_Some (RAGPipeline._find_recipe_by_text dp (snd (fst (fst hit)))).

(** The scores of an entry returned for a statically indexed hit, given
    the distances of the vector search. *)
Definition static_entry (distances : list Q) (e : RAGPipeline.SearchResult) : Prop :=
  exists largest,
    max distances = Ok largest
    /\ ~ largest == 0
    /\ In (RAGPipeline.distance e) distances
    /\ RAGPipeline.search_score e == 1 - RAGPipeline.distance e / largest
    /\ RAGPipeline.overall_score e
       == RAGPipeline.search_score e * 0.6
          + DietaryAnalyzer.overall_score (RAGPipeline.compatibility e) * 0.4.

(** The scores of an entry returned for a generated recipe. *)
Definition synthetic_entry {integrator : RAGPipeline.RecipeIntegrator}
    (query : string)
    (dietary_restrictions allergies health_conditions : list string)
    (n_results : Z) (e : RAGPipeline.SearchResult) : Prop :=
  In (RAGPipeline.recipe e)
     (RAGPipeline._get_dynamic_recipes query dietary_restrictions allergies
        health_conditions n_results)
  /\ RAGPipeline.search_score e == 0.8
  /\ RAGPipeline.overall_score e
     == DietaryAnalyzer.overall_score (RAGPipeline.compatibility e) * 0.8.

End Spec.

(* ===================================================================== *)
(** * Sample data                                                         *)
(* ===================================================================== *)

Module Samples.

Import SimpleVectorStore RAGPipeline.

(** ** Guidelines and recipes *)

Definition guidelines : DietaryGuidelines :=
  {| dietary_restrictions :=
       {[ "vegetarian" := {| excluded_ingredients := ["beef"; "chicken"] |} ]};
     Data.health_conditions := ∅;
     Data.allergies :=
       {[ "soy" := {| incompatible_ingredients := ["soy"; "tofu"] |};
          "peanut" := {| incompatible_ingredients := ["peanut"; "peanut butter"] |} ]};
     ingredient_substitutions := ∅ |}.

Definition sample_analyzer : DietaryAnalyzer.t := DietaryAnalyzer.init guidelines.

(** The scenario of the specification: tofu, soy sauce and rice. *)
Definition tofu_bowl : Recipe :=
  {| recipe_id := Some "r1";
     title := "Tofu Rice Bowl";
     cuisine_type := Some "asian";
     dietary_tags := ["vegetarian"; "vegan"];
     health_benefits := [];
     ingredients := [ {| name := "tofu" |}; {| name := "soy sauce" |};
                      {| name := "rice" |} ];
     nutritional_info := ∅ |}.

Definition lentil_soup : Recipe :=
  {| recipe_id := Some "r2";
     title := "Lentil Soup";
     cuisine_type := Some "mediterranean";
     dietary_tags := ["vegetarian"];
     health_benefits := ["heart_healthy"];
     ingredients := [ {| name := "lentils" |}; {| name := "carrot" |} ];
     nutritional_info := {[ "calories" := 300; "protein" := 18 ]} |}.

(** A recipe with 45 g of protein. *)
Definition protein_recipe : Recipe :=
  {| recipe_id := Some "r7"; title := "Bean Stew"; cuisine_type := None;
     dietary_tags := []; health_benefits := [];
     ingredients := [ {| name := "beans" |} ];
     nutritional_info := {[ "protein" := 45 ]} |}.

(** ** Substitution engines *)

(** An engine whose guidelines list two direct substitutes for milk; only
    the second one has an entry in the nutrient database. *)
Definition milk_engine : SubstitutionEngine.t :=
  {| SubstitutionEngine.dietary_guidelines :=
       {| dietary_restrictions := ∅;
          Data.health_conditions := ∅;
          Data.allergies := ∅;
          ingredient_substitutions :=
            {[ "milk" :=
                 [ {| sub_name := "oat milk"; sub_ratio := "1:1"; sub_notes := "" |};
                   {| sub_name := "soy milk"; sub_ratio := "1:1"; sub_notes := "" |} ] ]} |};
     SubstitutionEngine.ingredients :=
       [ ("milk",
          {| ing_dietary_tags := None; ing_nutrition := None;
             ing_top := {[ "calories" := 60; "protein" := 3 ]} |});
         ("soy milk",
          {| ing_dietary_tags := Some ["vegan"]; ing_nutrition := None;
             ing_top := {[ "calories" := 60; "protein" := 3 ]} |}) ] |}.

(** A database whose two entries share one nutrient, 10 against 3: their
    similarity is the float [1 - 7 / 10]. *)
Definition threshold_engine : SubstitutionEngine.t :=
  {| SubstitutionEngine.dietary_guidelines :=
       {| dietary_restrictions := ∅; Data.health_conditions := ∅;
          Data.allergies := ∅; ingredient_substitutions := ∅ |};
     SubstitutionEngine.ingredients :=
       [ ("rice",
          {| ing_dietary_tags := None; ing_nutrition := None;
             ing_top := {[ "calories" := 10 ]} |});
         ("oats",
          {| ing_dietary_tags := None; ing_nutrition := None;
             ing_top := {[ "calories" := 3 ]} |}) ] |}.

Definition lentils_data : IngredientData :=
  {| ing_dietary_tags := Some ["vegan"];
     ing_nutrition := Some {[ "protein" := 9; "fiber" := 8 ]};
     ing_top := ∅ |}.

(** A database with one protein-bearing ingredient. *)
Definition protein_engine : SubstitutionEngine.t :=
  {| SubstitutionEngine.dietary_guidelines :=
       {| dietary_restrictions := ∅; Data.health_conditions := ∅;
          Data.allergies := ∅; ingredient_substitutions := ∅ |};
     SubstitutionEngine.ingredients := [ ("lentils", lentils_data) ] |}.

(** An engine for a user allergic to soy: the guidelines list tofu as
    incompatible and offer it as a direct substitute for chicken. *)
Definition soy_engine : SubstitutionEngine.t :=
  {| SubstitutionEngine.dietary_guidelines :=
       {| dietary_restrictions := ∅;
          Data.health_conditions := ∅;
          Data.allergies :=
            {[ "soy" := {| incompatible_ingredients := ["soy"; "Tofu"] |} ]};
          ingredient_substitutions :=
            {[ "chicken" :=
                 [ {| sub_name := "tofu"; sub_ratio := "1:1";
                      sub_notes := "press first" |} ] ]} |};
     SubstitutionEngine.ingredients :=
       [ ("chicken",
          {| ing_dietary_tags := None;
             ing_nutrition := Some {[ "protein" := 27 ]};
             ing_top := {[ "calories" := 165; "protein" := 27 ]} |});
         ("tofu",
          {| ing_dietary_tags := Some ["vegan"];
             ing_nutrition := Some {[ "protein" := 8 ]};
             ing_top := {[ "calories" := 76; "protein" := 8 ]} |});
         ("lentils", lentils_data) ] |}.

(** A recipe with chicken, for the reduction search. *)
Definition chicken_plate : Recipe :=
  {| recipe_id := Some "r9"; title := "Chicken Plate"; cuisine_type := None;
     dietary_tags := []; health_benefits := [];
     ingredients := [ {| name := "chicken" |}; {| name := "rice" |} ];
     nutritional_info := {[ "protein" := 60 ]} |}.

(** ** Vector stores *)

(** The stored "embedding" of a document is taken to be its cosine
    similarity with the query. *)
Definition similarity_embedder : Embedder Q :=
  {| _text_to_simple_embedding := fun _ => 1;
     _cosine_similarity := fun _ stored => stored |}.

Definition vegan_store : SimpleVectorStore.t Q :=
  {| documents := ["Title: Lentil Soup | Description: hearty"];
     metadatas := [ {[ "title" := MScalar (SStr "Lentil Soup");
                       "dietary_tags" := MList [SStr "vegan"; SStr "gluten-free"] ]} ];
     embeddings := [1];
     ids := ["doc-1"] |}.

Definition processor : DataProcessor :=
  {| recipes := [tofu_bowl; lentil_soup];
     RAGPipeline.dietary_guidelines := guidelines |}.

(** The index built from the two recipes, similarities 0.8 and 0.5. *)
Definition indexed : SimpleVectorStore.t Q :=
  add_recipes (H := similarity_embedder) SimpleVectorStore.empty
    [ "Title: Tofu Rice Bowl | Description: quick bowl";
      "Title: Lentil Soup | Description: hearty soup" ]
    (Some (get_recipe_metadata processor))
    (Some [0.8; 0.5]) ["uuid-1"; "uuid-2"].

(** The index after the corpus was added twice (the store is persistent and
    every construction of the pipeline adds the corpus again), for a query
    whose embedding coincides with that of the first document:
    similarities 1 and 0.5. *)
Definition exact_match : SimpleVectorStore.t Q :=
  add_recipes (H := similarity_embedder)
    (add_recipes (H := similarity_embedder) SimpleVectorStore.empty
       [ "Title: Tofu Rice Bowl | Description: quick bowl";
         "Title: Lentil Soup | Description: hearty soup" ]
       (Some (get_recipe_metadata processor))
       (Some [1; 0.5]) ["uuid-1"; "uuid-2"])
    [ "Title: Tofu Rice Bowl | Description: quick bowl";
      "Title: Lentil Soup | Description: hearty soup" ]
    (Some (get_recipe_metadata processor))
    (Some [1; 0.5]) ["uuid-3"; "uuid-4"].

(** ** Pipelines *)

Definition generated (name cuisine : string) (tags : list string) : Recipe :=
  {| recipe_id := Some "dynamic_recipe";
     title := name;
     cuisine_type := Some cuisine;
     dietary_tags := tags;
     health_benefits := ["plant_based"];
     ingredients := [ {| name := "rice" |}; {| name := "vegetables" |} ];
     nutritional_info := {[ "calories" := 400; "protein" := 10 ]} |}.

(** One outcome of the random generator: three recipes, two of them with
    the same title. *)
Definition fixed_integrator : RecipeIntegrator :=
  {| generate_recipes := fun _ restrictions _ _ n =>
       slice_to n
         [ generated "Dinner Tofu Thai Style" "thai" ["keto"];
           generated "Lunch Tofu Indian Style" "indian" restrictions;
           generated "Dinner Tofu Thai Style" "thai" restrictions ] |}.

Definition pipeline_with (store : SimpleVectorStore.t Q) : RAGPipeline.t Q :=
  {| data_processor := processor;
     vector_store := store;
     dietary_analyzer := DietaryAnalyzer.init guidelines;
     substitution_engine :=
       {| SubstitutionEngine.dietary_guidelines := guidelines;
          SubstitutionEngine.ingredients := [] |} |}.

Definition run_search (store : SimpleVectorStore.t Q) (query : string)
    (restrictions allergies conditions : list string) (n : Z) (dynamic : bool)
    : result SearchResponse :=
  search_recipes (H := similarity_embedder) (H0 := fixed_integrator)
    (pipeline_with store) query restrictions allergies conditions n dynamic.

(** A vegetarian user who likes soup and aims at 20 g of protein. *)
Definition soup_lover : UserProfile :=
  {| profile_restrictions := ["vegetarian"];
     profile_allergies := [];
     profile_health_conditions := [];
     profile_preferences := ["soup"];
     profile_nutritional_goals := [("protein", 20)] |}.

(** What the caller sees of an entry. *)
Definition summary (e : SearchResult) : string * Q * Q :=
  (Spec.title_of e, Qred (search_score e), Qred (overall_score e)).

End Samples.

(* ===================================================================== *)
(** * Properties                                                          *)
(* ===================================================================== *)

(** ** Facts about the Python built-ins *)

Module PyFacts.

Lemma Qle_bool_false (a b : Q) : Qle_bool a b = false -> b < a.
Proof.
  intros Hf. apply Qnot_le_lt. intros Hle.
  apply Qle_bool_iff in Hle. congruence.
Qed.

Lemma Qlt_bool_iff (a b : Q) : Qlt_bool a b = true <-> a < b.
Proof.
  unfold Qlt_bool. rewrite negb_true_iff. split.
  - apply Qle_bool_false.
  - intros Hlt. destruct (Qle_bool b a) eqn:Hb; [|reflexivity].
    apply Qle_bool_iff in Hb. exfalso. lra.
Qed.

Section SortFacts.
Context {A : Type} (key : A -> Q).

Lemma insert_desc_perm (x : A) (l : list A) :
  Permutation (insert_desc key x l) (x :: l).
Proof.
  induction l as [|y l IH]; simpl; [reflexivity|].
  destruct (Qle_bool (key y) (key x)); [reflexivity|].
  rewrite IH. apply perm_swap.
Qed.

Lemma sort_desc_perm (l : list A) : Permutation (sort_desc key l) l.
Proof.
  induction l as [|x l IH]; simpl; [reflexivity|].
  rewrite insert_desc_perm. now apply perm_skip.
Qed.

Lemma insert_desc_sorted (x : A) (l : list A) :
  StronglySorted (desc key) l -> StronglySorted (desc key) (insert_desc key x l).
Proof.
  induction l as [|y l IH]; intros Hs; simpl.
  - repeat constructor.
  - inversion Hs as [|? ? Hs' Hall]; subst.
    destruct (Qle_bool (key y) (key x)) eqn:Hle.
    + apply Qle_bool_iff in Hle.
      constructor; [assumption|].
      constructor; [exact Hle|].
      eapply Forall_impl; [exact Hall|].
      intros z Hz. unfold desc in *. lra.
    + apply Qle_bool_false in Hle.
      constructor; [now apply IH|].
      rewrite (insert_desc_perm x l).
      constructor; [unfold desc; lra | exact Hall].
Qed.

Lemma sort_desc_sorted (l : list A) :
  StronglySorted (desc key) (sort_desc key l).
Proof.
  induction l as [|x l IH]; simpl; [constructor|].
  now apply insert_desc_sorted.
Qed.

(** The sort is stable: elements with equal keys keep their order. *)
Lemma insert_desc_with_key (x : A) (l : list A) (value : Q) :
  List.filter (fun y => Qeq_bool (key y) value) (insert_desc key x l)
  = List.filter (fun y => Qeq_bool (key y) value) (x :: l).
Proof.
  induction l as [|y l IH]; [reflexivity|].
  cbn [insert_desc]. destruct (Qle_bool (key y) (key x)) eqn:Hle; [reflexivity|].
  cbn [List.filter] in *. rewrite IH.
  destruct (Qeq_bool (key x) value) eqn:Hx, (Qeq_bool (key y) value) eqn:Hy;
    try reflexivity.
  apply Qeq_bool_iff in Hx, Hy. apply Qle_bool_false in Hle. exfalso.
  rewrite Hx, Hy in Hle. now apply (Qlt_irrefl value).
Qed.

Lemma sort_desc_stable (l : list A) (value : Q) :
  List.filter (fun y => Qeq_bool (key y) value) (sort_desc key l)
  = List.filter (fun y => Qeq_bool (key y) value) l.
Proof.
  induction l as [|x l IH]; [reflexivity|].
  cbn [sort_desc foldr]. rewrite insert_desc_with_key.
  cbn [List.filter]. fold (sort_desc key l). now rewrite IH.
Qed.

Lemma sort_desc_length (l : list A) : length (sort_desc key l) = length l.
Proof. apply Permutation_length, sort_desc_perm. Qed.
End SortFacts.

Lemma slice_to_length {A : Type} (n : Z) (l : list A) :
  (0 <= n)%Z -> (Z.of_nat (length (slice_to n l)) <= n)%Z.
Proof.
  intros Hn. unfold slice_to.
  destruct (0 <=? n)%Z eqn:Hb; [|apply Z.leb_gt in Hb; lia].
  rewrite length_take. lia.
Qed.

Lemma slice_to_length_le {A : Type} (n : Z) (l : list A) :
  (length (slice_to n l) <= length l)%nat.
Proof.
  unfold slice_to. destruct (0 <=? n)%Z; rewrite length_take; lia.
Qed.

Lemma slice_to_incl {A : Type} (n : Z) (l : list A) (x : A) :
  In x (slice_to n l) -> In x l.
Proof.
  unfold slice_to. intros Hin.
  destruct (0 <=? n)%Z;
    apply list_elem_of_In in Hin; apply list_elem_of_In;
    eapply subseteq_take; exact Hin.
Qed.

Lemma nodup_map_take {A B : Type} (f : A -> B) (n : nat) (l : list A) :
  NoDup (map f l) -> NoDup (map f (take n l)).
Proof.
  revert n. induction l as [|x l IH]; intros [|n] Hnd; simpl;
    try apply NoDup_nil_2.
  simpl in Hnd. apply NoDup_cons in Hnd as [Hnotin Hnd].
  apply NoDup_cons. split; [|now apply IH].
  intros Hin. apply Hnotin.
  apply list_elem_of_In, in_map_iff in Hin as (y & Hy & Hin).
  apply list_elem_of_In, in_map_iff. exists y. split; [assumption|].
  apply list_elem_of_In. eapply subseteq_take. apply list_elem_of_In. exact Hin.
Qed.

Lemma slice_to_nonempty {A : Type} (n : Z) (l : list A) :
  (0 < n)%Z -> l <> [] -> slice_to n l <> [].
Proof.
  intros Hn Hl. unfold slice_to.
  destruct (0 <=? n)%Z eqn:Hb; [|apply Z.leb_gt in Hb; lia].
  destruct l as [|x l]; [congruence|].
  destruct (Z.to_nat n) eqn:Hz; [lia|]. simpl. discriminate.
Qed.

End PyFacts.

Import PyFacts.

(** ** The compatibility analyzer *)

Module AnalyzerFacts.

Import DietaryAnalyzer Samples.

(** With the soy allergy alone the veto applies. *)
Example tofu_bowl_soy_alone :
  let r := analyze_recipe_compatibility sample_analyzer tofu_bowl
             ["vegetarian"] ["soy"] [] in
  overall_compatible r = false /\ overall_score r == 0.
Proof. vm_compute. split; reflexivity. Qed.

(** C1 (code defect): the allergy "soy" matches the ingredient
    "soy sauce", yet with the additional, non-matching allergy "peanut"
    the allergy dimension is the mean 0.5, the veto on an allergy score of
    exactly 0 does not fire, and the recipe is reported compatible with
    overall score 0.8 while the issue list names the soy conflict. *)
Theorem allergy_conflict_diluted_by_second_allergy :
  let r := analyze_recipe_compatibility sample_analyzer tofu_bowl
             ["vegetarian"] ["soy"; "peanut"] [] in
  _ingredient_matches "soy" "soy sauce" = true
  /\ compatibility_score (allergy_compatibility r) == 0.5
  /\ overall_compatible r = true
  /\ overall_score r == 0.8
  /\ issues r =
       ["Contains ingredients that may cause soy reaction: tofu, soy sauce"].
Proof. vm_compute. repeat split; reflexivity. Qed.

(** *** When the allergy veto fires *)

Lemma dict_set_in {V : Type} (k : string) (v : V) (d : list (string * V))
    (k' : string) (v' : V) :
  In (k', v') (dict_set k v d) -> (k', v') = (k, v) \/ In (k', v') d.
Proof.
  induction d as [|[k0 v0] d IH]; simpl.
  - intros [Heq | []]. now left.
  - destruct (String.eqb k k0).
    + intros [Heq | Hin]; [now left | right; now right].
    + intros [Heq | Hin]; [right; now left|].
      destruct (IH Hin) as [Heq | Hin']; [now left | right; now right].
Qed.

Lemma dict_set_key {V : Type} (k : string) (v : V) (d : list (string * V)) :
  In (k, v) (dict_set k v d).
Proof.
  induction d as [|[k0 v0] d IH]; simpl; [now left|].
  destruct (String.eqb k k0); [now left | now right].
Qed.

Lemma dict_set_keeps {V : Type} (k : string) (v : V) (d : list (string * V))
    (k' : string) (v' : V) :
  In (k', v') d -> exists v'', In (k', v'') (dict_set k v d).
Proof.
  induction d as [|[k0 v0] d IH]; simpl; [contradiction|].
  intros [Heq | Hin].
  - inversion Heq; subst. destruct (String.eqb k k') eqn:Hk.
    + apply String.eqb_eq in Hk. subst k'. exists v. now left.
    + exists v'. now left.
  - destruct (String.eqb k k0).
    + exists v'. now right.
    + destruct (IH Hin) as (v'' & Hin'). exists v''. now right.
Qed.

(** The dictionary a check builds holds, for every listed key, the result
    of the per-key check, and nothing else. *)
Lemma results_dict {V : Type} (check : string -> V) (keys : list string)
    (d0 : list (string * V)) :
  let d := fold_left (fun d key => dict_set key (check key) d) keys d0 in
  (forall k v, In (k, v) d -> In (k, v) d0 \/ (In k keys /\ v = check k))
  /\ (forall k, In k keys -> exists v, In (k, v) d)
  /\ (forall k v, In (k, v) d0 -> exists v', In (k, v') d).
Proof.
  revert d0. induction keys as [|key keys IH]; intros d0; cbn zeta; simpl.
  - split; [|split].
    + intros k v Hin. now left.
    + intros k [].
    + intros k v Hin. now exists v.
  - destruct (IH (dict_set key (check key) d0)) as (Hfrom & Hkeys & Hkeep).
    split; [|split].
    + intros k v Hin. destruct (Hfrom k v Hin) as [Hin0 | [Hk Hv]].
      * apply dict_set_in in Hin0 as [Heq | Hin0]; [|now left].
        inversion Heq; subst. right. split; [now left | reflexivity].
      * right. split; [now right | assumption].
    + intros k [Heq | Hin]; [|now apply Hkeys].
      subst k. apply (Hkeep key (check key)). apply dict_set_key.
    + intros k v Hin. destruct (dict_set_keeps key (check key) d0 k v Hin)
        as (v' & Hin'). now apply (Hkeep k v').
Qed.

Lemma sum_from (xs : list Q) (acc : Q) :
  fold_left Qplus xs acc == acc + fold_right Qplus 0 xs.
Proof.
  revert acc. induction xs as [|x xs IH]; intros acc; simpl.
  - lra.
  - rewrite IH. lra.
Qed.

Lemma sum_zero_iff (xs : list Q) :
  Forall (fun x => 0 <= x) xs ->
  (sum xs == 0 <-> Forall (fun x => x == 0) xs).
Proof.
  intros Hpos. unfold sum. rewrite sum_from.
  induction Hpos as [|x xs Hx Hxs IH]; simpl.
  - split; [constructor | intros _; lra].
  - assert (Hrest : 0 <= fold_right Qplus 0 xs).
    { clear IH. induction Hxs as [|y ys Hy _ IHys]; simpl; lra. }
    split.
    + intros Hsum. constructor; [lra|]. apply IH. lra.
    + intros Hall. inversion Hall as [|? ? Hx0 Hxs0]; subst.
      apply IH in Hxs0. lra.
Qed.

Lemma mean_zero_iff {R : Type} (score : R -> Q) (d : list (string * R)) :
  d <> [] ->
  Forall (fun x => 0 <= x) (map score (dict_values d)) ->
  (mean_score score d == 0
   <-> Forall (fun x => x == 0) (map score (dict_values d))).
Proof.
  intros Hne Hpos. unfold mean_score. destruct d as [|item d]; [congruence|].
  set (n := inject_Z (Z.of_nat (length (item :: d)))).
  assert (Hn : ~ n == 0).
  { unfold n. simpl length. intros Heq.
    assert (Hlt : 0 < inject_Z (Z.of_nat (S (length d)))).
    { change 0 with (inject_Z 0). rewrite <- Zlt_Qlt. lia. }
    lra. }
  rewrite <- (sum_zero_iff _ Hpos). split.
  - intros Hmean.
    assert (Hx : sum (map score (dict_values (item :: d)))
                 == n * (sum (map score (dict_values (item :: d))) / n)).
    { symmetry. apply Qmult_div_r. exact Hn. }
    rewrite Hx, Hmean. lra.
  - intros Hsum. unfold Qdiv. rewrite Hsum. lra.
Qed.

(** The allergy dimension is exactly 0, and the veto fires, when every
    listed allergy conflicts with the recipe, and only then. *)
Lemma allergy_score_zero_iff (a : DietaryAnalyzer.t) (recipe : Recipe)
    (user_allergies : list string) :
  user_allergies <> [] ->
  (compatibility_score (_check_allergies a recipe user_allergies) == 0
   <-> forall allergy, In allergy user_allergies ->
         a_compatible (check_allergy a recipe allergy) = false).
Proof.
  intros Hne. unfold _check_allergies.
  destruct user_allergies as [|first others] eqn:Hlist; [congruence|].
  rewrite <- Hlist in *. clear Hlist first others.
  cbn [compatibility_score].
  destruct (results_dict (check_allergy a recipe) user_allergies [])
    as (Hfrom & Hkeys & _).
  set (d := fold_left _ user_allergies []) in *.
  assert (Hscore : forall k v, In (k, v) d ->
            In k user_allergies /\ v = check_allergy a recipe k).
  { intros k v Hin. destruct (Hfrom k v Hin) as [[] | Hkv]. exact Hkv. }
  assert (Hd : d <> []).
  { destruct user_allergies as [|k ks]; [congruence|].
    destruct (Hkeys k) as (v & Hin); [now left|].
    intros Hnil. rewrite Hnil in Hin. contradiction. }
  assert (Hpos : Forall (fun x => 0 <= x) (map a_score (dict_values d))).
  { apply Forall_forall. intros x Hx.
    apply list_elem_of_In, in_map_iff in Hx as (v & <- & Hv).
    apply in_map_iff in Hv as ([k v'] & Heq & Hin). simpl in Heq. subst v'.
    destruct (Hscore k v Hin) as [_ ->]. unfold check_allergy; simpl.
    destruct (length _ =? 0)%nat; lra. }
  rewrite (mean_zero_iff a_score d Hd Hpos). split.
  - intros Hall allergy Hin. destruct (Hkeys allergy Hin) as (v & Hv).
    destruct (Hscore allergy v Hv) as [_ Heq].
    rewrite Forall_forall in Hall.
    assert (Hzero : a_score v == 0).
    { apply Hall. apply list_elem_of_In, in_map_iff. exists v.
      split; [reflexivity|]. apply in_map_iff. now exists (allergy, v). }
    rewrite Heq in Hzero. unfold check_allergy in *; simpl in *.
    destruct (length _ =? 0)%nat; [|reflexivity]. exfalso. lra.
  - intros Hall. apply Forall_forall. intros x Hx.
    apply list_elem_of_In, in_map_iff in Hx as (v & <- & Hv).
    apply in_map_iff in Hv as ([k v'] & Heq & Hin). simpl in Heq. subst v'.
    destruct (Hscore k v Hin) as [Hk ->]. specialize (Hall k Hk).
    unfold check_allergy in *; simpl in *.
    destruct (length _ =? 0)%nat; [discriminate | lra].
Qed.

(** When every listed allergy conflicts, the recipe is vetoed. *)
Lemma veto_when_every_allergy_conflicts (a : DietaryAnalyzer.t) (recipe : Recipe)
    (user_restrictions user_allergies user_health_conditions : list string) :
  user_allergies <> [] ->
  (forall allergy, In allergy user_allergies ->
     a_compatible (check_allergy a recipe allergy) = false) ->
  let r := analyze_recipe_compatibility a recipe user_restrictions
             user_allergies user_health_conditions in
  overall_score r == 0 /\ overall_compatible r = false.
Proof.
  intros Hne Hall. cbn zeta.
  apply (allergy_score_zero_iff a recipe user_allergies Hne) in Hall.
  unfold analyze_recipe_compatibility, _calculate_compatibility_score.
  cbn [overall_score overall_compatible].
  apply Qeq_bool_iff in Hall. rewrite Hall. split; reflexivity.
Qed.

(** C2: the overall score is the weighted sum 0.4/0.4/0.2 of the three
    dimension scores, replaced by 0 when the allergy or the restriction
    score is exactly 0, and the compatible flag is the test
    [overall_score >= 0.7]. *)
Theorem fusion_rule (a : DietaryAnalyzer.t) (recipe : Recipe)
    (user_restrictions user_allergies user_health_conditions : list string) :
  let r := analyze_recipe_compatibility a recipe user_restrictions
             user_allergies user_health_conditions in
  let restriction_score := compatibility_score (restriction_compatibility r) in
  let allergy_score := compatibility_score (allergy_compatibility r) in
  let health_score := compatibility_score (health_compatibility r) in
  (if (Qeq_bool restriction_score 0 || Qeq_bool allergy_score 0)%bool
   then overall_score r == 0
   else overall_score r ==
          restriction_score * 0.4 + allergy_score * 0.4 + health_score * 0.2)
  /\ (overall_compatible r = true <-> 0.7 <= overall_score r).
Proof.
  cbn zeta. unfold analyze_recipe_compatibility; cbn [overall_score
    overall_compatible restriction_compatibility allergy_compatibility
    health_compatibility].
  split.
  - unfold _calculate_compatibility_score.
    destruct (Qeq_bool (compatibility_score (_check_allergies _ _ _)) 0);
      destruct (Qeq_bool (compatibility_score (_check_dietary_restrictions _ _ _)) 0);
      reflexivity.
  - apply Qle_bool_iff.
Qed.

End AnalyzerFacts.

(** ** The substitution engine *)

Module Float64Facts.

Import Float64.

Lemma Qabs_cases (x : Q) : (0 <= x /\ Qabs x == x) \/ (x <= 0 /\ Qabs x == - x).
Proof.
  destruct (Qlt_le_dec x 0) as [H|H].
  - right. split; [lra|]. apply Qabs_neg. lra.
  - left. split; [assumption|]. now apply Qabs_pos.
Qed.

Ltac qabs x :=
  let H := fresh "Habs" in
  destruct (Qabs_cases x) as [[? H]|[? H]]; rewrite ?H in *.

Lemma sub_inject (n : Z) (d : positive) (k : Z) :
  (n # d) - inject_Z k == (n - k * Zpos d) # d.
Proof. unfold Qeq, Qminus, Qplus, Qopp, inject_Z. cbn. lia. Qed.

Lemma round_half_even_nearest (y : Q) (M : Z) :
  Qabs (y - inject_Z (round_half_even y)) <= Qabs (y - inject_Z M).
Proof.
  destruct y as [n d]. rewrite !sub_inject. unfold round_half_even.
  cbn [Qnum Qden Qabs]. unfold Qle. cbn [Qnum Qden].
  apply Z.mul_le_mono_nonneg_r; [lia|].
  pose proof (Z.div_mod n (Zpos d) ltac:(lia)) as Hdiv.
  pose proof (Z.mod_pos_bound n (Zpos d) ltac:(lia)) as Hmod.
  set (q := (n / Zpos d)%Z) in *. set (r := (n mod Zpos d)%Z) in *.
  assert (Hcases : (M <= q \/ q + 1 <= M)%Z) by lia.
  destruct (Z.compare_spec (2 * r) (Zpos d)) as [He|Hl|Hg];
    [destruct (Z.even q)|..]; destruct Hcases; nia.
Qed.

Lemma round_half_even_le (y : Q) (M : Z) :
  y <= inject_Z M -> (round_half_even y <= M)%Z.
Proof.
  intros Hy. destruct (Z_le_gt_dec (round_half_even y) M) as [|Hgt]; [assumption|].
  exfalso. pose proof (round_half_even_nearest y M) as Hnear.
  assert (Hk : inject_Z M + 1 <= inject_Z (round_half_even y)).
  { change 1 with (inject_Z 1). rewrite <- inject_Z_plus. rewrite <- Zle_Qle. lia. }
  qabs (y - inject_Z (round_half_even y)); qabs (y - inject_Z M); lra.
Qed.

Lemma round_half_even_ge (y : Q) (M : Z) :
  inject_Z M <= y -> (M <= round_half_even y)%Z.
Proof.
  intros Hy. destruct (Z_le_gt_dec M (round_half_even y)) as [|Hgt]; [assumption|].
  exfalso. pose proof (round_half_even_nearest y M) as Hnear.
  assert (Hk : inject_Z (round_half_even y) + 1 <= inject_Z M).
  { change 1 with (inject_Z 1). rewrite <- inject_Z_plus. rewrite <- Zle_Qle. lia. }
  qabs (y - inject_Z (round_half_even y)); qabs (y - inject_Z M); lra.
Qed.

Lemma pow2_pos (s : Z) : 0 < 2 ^ s.
Proof. now apply Qpower_0_lt. Qed.

Lemma pow2_plus (a b : Z) : 2 ^ (a + b) == 2 ^ a * 2 ^ b.
Proof. apply Qpower_plus. discriminate. Qed.

Lemma pow2_succ (a : Z) : 2 ^ (a + 1) == 2 * 2 ^ a.
Proof. rewrite pow2_plus. change (2 ^ 1) with 2. ring. Qed.

Lemma pow2_inject (a : Z) : (0 <= a)%Z -> inject_Z (2 ^ a) == 2 ^ a.
Proof. intros Ha. now rewrite Zpower_Qpower. Qed.

Lemma pow2_le (a b : Z) : (a <= b)%Z -> 2 ^ a <= 2 ^ b.
Proof. intros Hab. apply Qpower_le_compat_l; [assumption|lra]. Qed.

Lemma binade_spec (x : Q) :
  0 < x -> 2 ^ binade x <= x /\ x < 2 ^ (binade x + 1).
Proof.
  intros Hx. unfold binade.
  destruct x as [n d]. cbn [Qnum Qden].
  assert (Hn : (0 < n)%Z) by (unfold Qlt in Hx; cbn in Hx; lia).
  pose proof (Z.log2_spec n Hn) as [Hn1 Hn2].
  pose proof (Z.log2_spec (Zpos d) ltac:(lia)) as [Hd1 Hd2].
  pose proof (Z.log2_nonneg n) as Hln. pose proof (Z.log2_nonneg (Zpos d)) as Hld.
  set (ln := Z.log2 n) in *. set (ld := Z.log2 (Zpos d)) in *.
  rewrite Zle_Qle, pow2_inject in Hn1, Hd1 by assumption.
  rewrite Zlt_Qlt, pow2_inject, <- Z.add_1_r, pow2_succ in Hn2, Hd2 by lia.
  assert (Hk : 2 ^ (ln - ld) * 2 ^ ld == 2 ^ ln).
  { rewrite <- pow2_plus. now replace (ln - ld + ld)%Z with ln by lia. }
  assert (Hk' : 2 ^ (ln - ld - 1 + 1) == 2 ^ (ln - ld)).
  { now replace (ln - ld - 1 + 1)%Z with (ln - ld)%Z by lia. }
  pose proof (pow2_pos (ln - ld)) as Hp. pose proof (pow2_pos ld) as Hpd.
  pose proof (pow2_pos (ln - ld - 1)) as Hp1.
  pose proof (pow2_succ (ln - ld)) as Hs. pose proof (pow2_succ (ln - ld - 1)) as Hs1.
  rewrite Hk' in Hs1.
  assert (Hxd : (n # d) * inject_Z (Zpos d) == inject_Z n).
  { unfold Qeq, Qmult, inject_Z. cbn. lia. }
  set (x := n # d) in *. set (N := inject_Z n) in *. set (D := inject_Z (Zpos d)) in *.
  set (P := 2 ^ (ln - ld)) in *. set (B := 2 ^ ld) in *. set (A := 2 ^ ln) in *.
  destruct (Qle_bool P x) eqn:Hle.
  - apply Qle_bool_iff in Hle. split; [assumption|]. rewrite Hs.
    clearbody x N D P B A. nra.
  - assert (Hlt : x < P).
    { apply Qnot_le_lt. intros Hc. apply Qle_bool_iff in Hc. congruence. }
    rewrite Hk'. split; [|assumption].
    set (P1 := 2 ^ (ln - ld - 1)) in *. clearbody x N D P B A P1. nra.
Qed.

Lemma representable_opp (f : Q) : representable f -> representable (- f).
Proof.
  intros (m & s & Hm & Hs & Hf). exists (- m)%Z, s.
  split; [lia|]. split; [assumption|]. rewrite Hf, inject_Z_opp. ring.
Qed.

Lemma representable_proper (f g : Q) : f == g -> representable f -> representable g.
Proof.
  intros Hfg (m & s & Hm & Hs & Hf). exists m, s. now rewrite <- Hfg.
Qed.

Section RoundPos.

Variable x : Q.
Hypothesis x_pos : 0 < x.

Let s := Z.max (binade x - 52) (-1074).
Let y := x / 2 ^ s.

Lemma scaled_value : x == y * 2 ^ s.
Proof. subst y. field. pose proof (pow2_pos s). lra. Qed.

Lemma scaled_pos : 0 < y.
Proof.
  pose proof scaled_value as Hx. pose proof (pow2_pos s) as Hp.
  destruct (Qlt_le_dec 0 y) as [|Hle]; [assumption|]. exfalso.
  pose proof x_pos as Hpos.
  assert (Hprod : 0 <= (- y) * 2 ^ s) by (apply Qmult_le_0_compat; lra).
  set (P := 2 ^ s) in *. clearbody y P. clear - Hx Hpos Hprod. lra.
Qed.

Lemma scaled_below : y <= inject_Z (2 ^ 53).
Proof.
  destruct (binade_spec x x_pos) as [_ Hhi].
  pose proof scaled_value as Hx. pose proof (pow2_pos s) as Hp.
  assert (Hle : 2 ^ (binade x + 1) <= 2 ^ 53 * 2 ^ s)
    by (rewrite <- pow2_plus; apply pow2_le; lia).
  rewrite pow2_inject by lia.
  set (P := 2 ^ s) in *. set (T := 2 ^ 53) in *.
  set (U := 2 ^ (binade x + 1)) in *.
  destruct (Qlt_le_dec T y) as [Hc|]; [exfalso|assumption].
  assert (Hprod : 0 <= (y - T) * P) by (apply Qmult_le_0_compat; lra).
  clearbody y P T U. lra.
Qed.

Lemma round_pos_representable : representable (round_pos x).
Proof.
  exists (round_half_even y), s. split; [|split; [lia|reflexivity]].
  pose proof (round_half_even_le y (2 ^ 53) scaled_below).
  pose proof (round_half_even_ge y 0 (Qlt_le_weak _ _ scaled_pos)). lia.
Qed.

Lemma round_pos_nonneg : 0 <= round_pos x.
Proof.
  pose proof (round_half_even_ge y 0 (Qlt_le_weak _ _ scaled_pos)) as Hk.
  unfold round_pos. fold s. fold y. rewrite Zle_Qle in Hk.
  apply Qmult_le_0_compat; [exact Hk | apply Qlt_le_weak, pow2_pos].
Qed.

Lemma round_pos_nearest (f : Q) :
  representable f -> Qabs (x - round_pos x) <= Qabs (x - f).
Proof.
  intros (m & t & Hm & Ht & Hf).
  pose proof scaled_value as Hx. pose proof (pow2_pos s) as Hp.
  unfold round_pos. fold s. fold y.
  assert (Hscale : forall g, Qabs (x - g * 2 ^ s) == Qabs (y - g) * 2 ^ s).
  { intros g. rewrite <- (Qabs_pos (2 ^ s)) at 2 by lra. rewrite <- Qabs_Qmult.
    apply Qabs_wd. rewrite Hx at 1. ring. }
  rewrite (Hscale (inject_Z (round_half_even y))).
  destruct (Z_le_gt_dec s t) as [Hst|Hst].
  - assert (Hg : f == inject_Z (m * 2 ^ (t - s)) * 2 ^ s).
    { rewrite Hf, inject_Z_mult, pow2_inject by lia. rewrite <- Qmult_assoc.
      rewrite <- pow2_plus. now replace (t - s + s)%Z with t by lia. }
    rewrite (Qabs_wd _ _ (Qplus_comp _ _ (Qeq_refl x) _ _ (Qopp_comp _ _ Hg))).
    rewrite (Hscale (inject_Z (m * 2 ^ (t - s)))).
    apply Qmult_le_compat_r; [|now apply Qlt_le_weak].
    apply round_half_even_nearest.
  - assert (Hs : s = (binade x - 52)%Z) by lia.
    destruct (binade_spec x x_pos) as [Hlo _].
    replace (binade x) with (52 + s)%Z in Hlo by lia. rewrite pow2_plus in Hlo.
    assert (Hg : f == (inject_Z m * 2 ^ (t - s)) * 2 ^ s).
    { rewrite Hf. rewrite <- Qmult_assoc.
      rewrite <- pow2_plus. now replace (t - s + s)%Z with t by lia. }
    rewrite (Qabs_wd _ _ (Qplus_comp _ _ (Qeq_refl x) _ _ (Qopp_comp _ _ Hg))).
    rewrite (Hscale (inject_Z m * 2 ^ (t - s))).
    apply Qmult_le_compat_r; [|now apply Qlt_le_weak].
    pose proof (round_half_even_nearest y (2 ^ 52)) as Hnear.
    rewrite pow2_inject in Hnear by lia.
    assert (Hc : 2 ^ (t - s) <= 2 ^ (-1)) by (apply pow2_le; lia).
    change (2 ^ (-1)) with (1 # 2) in Hc.
    pose proof (pow2_pos (t - s)) as Hc0.
    assert (Hm' : inject_Z m <= 2 * 2 ^ 52).
    { rewrite <- pow2_succ. change (52 + 1)%Z with 53%Z.
      rewrite <- pow2_inject by lia. rewrite <- Zle_Qle. lia. }
    pose proof (pow2_pos 52) as HT.
    set (P := 2 ^ s) in *. set (T := 2 ^ 52) in *. set (c := 2 ^ (t - s)) in *.
    set (k := inject_Z (round_half_even y)) in *. set (M := inject_Z m) in *.
    assert (Hy : T <= y) by (clearbody y P T; nra).
    assert (Hgy : M * c <= T).
    { destruct (Qlt_le_dec M 0); clearbody M c T; nra. }
    clearbody y P T c k M.
    qabs (y - k); qabs (y - T); qabs (y - M * c); lra.
Qed.

End RoundPos.

Lemma round64_proper (a b : Q) : a == b -> round64 a = round64 b.
Proof.
  intros Hab. unfold round64. now rewrite (Qred_complete a b Hab).
Qed.

Lemma representable_0 : representable 0.
Proof. exists 0%Z, 0%Z. split; [cbn; lia|]. split; [lia|reflexivity]. Qed.

Lemma round64_spec (q : Q) :
  representable (round64 q)
  /\ forall f, representable f -> Qabs (q - round64 q) <= Qabs (q - f).
Proof.
  unfold round64. pose proof (Qred_correct q) as Hr.
  destruct (Qred q) as [n d]. cbn [Qnum]. destruct n as [|n|n].
  - split; [apply representable_0|]. intros f _.
    assert (Hq : q - 0 == 0) by (rewrite <- Hr; reflexivity).
    rewrite (Qabs_wd _ _ Hq). apply Qabs_nonneg.
  - assert (Hpos : 0 < Zpos n # d) by reflexivity.
    split; [now apply round_pos_representable|]. intros f Hf.
    rewrite <- Hr. now apply round_pos_nearest.
  - assert (Hpos : 0 < - (Zneg n # d)) by reflexivity.
    split; [now apply representable_opp, round_pos_representable|].
    intros f Hf. rewrite <- Hr.
    pose proof (round_pos_nearest _ Hpos (- f) (representable_opp f Hf)) as Hnear.
    rewrite <- Qabs_opp, <- (Qabs_opp (_ - f)).
    set (x := Zneg n # d) in *. set (r := round_pos (- x)) in *.
    assert (H1 : - (x - - r) == - x - r) by ring.
    assert (H2 : - (x - f) == - x - - f) by ring.
    now rewrite (Qabs_wd _ _ H1), (Qabs_wd _ _ H2).
Qed.

Lemma round64_representable (q : Q) : representable (round64 q).
Proof. apply round64_spec. Qed.

Lemma round64_nearest (q f : Q) :
  representable f -> Qabs (q - round64 q) <= Qabs (q - f).
Proof. apply round64_spec. Qed.

Lemma round64_exact (f : Q) : representable f -> round64 f == f.
Proof.
  intros Hf. pose proof (round64_nearest f f Hf) as Hnear.
  assert (H0 : f - f == 0) by ring. rewrite (Qabs_wd _ _ H0) in Hnear.
  change (Qabs 0) with 0 in Hnear.
  qabs (f - round64 f); lra.
Qed.

Lemma round64_idempotent (q : Q) : round64 (round64 q) == round64 q.
Proof. apply round64_exact, round64_representable. Qed.

Lemma round64_monotone (a b : Q) : a <= b -> round64 a <= round64 b.
Proof.
  intros Hab. destruct (Qlt_le_dec (round64 b) (round64 a)) as [Hlt|]; [|assumption].
  exfalso.
  pose proof (round64_nearest a (round64 b) (round64_representable b)) as Ha.
  pose proof (round64_nearest b (round64 a) (round64_representable a)) as Hb.
  assert (Heq : a == b).
  { qabs (a - round64 a); qabs (a - round64 b); qabs (b - round64 b);
      qabs (b - round64 a); lra. }
  rewrite (round64_proper a b Heq) in Hlt. lra.
Qed.

Lemma round64_opp (q : Q) : round64 (- q) == - round64 q.
Proof.
  unfold round64. rewrite Qred_opp. destruct (Qred q) as [n d].
  destruct n as [|n|n].
  - reflexivity.
  - change (Qnum (- (Z.pos n # d))) with (Z.neg n). cbn iota.
    change (- - (Z.pos n # d)) with (Z.pos n # d). reflexivity.
  - change (Qnum (- (Z.neg n # d))) with (Z.pos n). cbn [Qnum]. cbn iota.
    now rewrite Qopp_involutive.
Qed.

Lemma round64_int (k : Z) : (Z.abs k <= 2 ^ 53)%Z -> round64 (inject_Z k) == inject_Z k.
Proof.
  intros Hk. apply round64_exact. exists k, 0%Z.
  split; [assumption|]. split; [lia|]. change (2 ^ 0) with 1. ring.
Qed.

Lemma round64_nonneg (q : Q) : 0 <= q -> 0 <= round64 q.
Proof.
  intros Hq. apply round64_monotone in Hq.
  now rewrite (round64_int 0) in Hq by (cbn; lia).
Qed.

#[export] Instance round64_wd : Proper (Qeq ==> Qeq) round64.
Proof. intros a b Hab. now rewrite (round64_proper a b Hab). Qed.

Lemma round64_1 : round64 1 == 1.
Proof. apply (round64_int 1). cbn. lia. Qed.

Lemma representable_inject (k : Z) : (Z.abs k <= 2 ^ 53)%Z -> representable (inject_Z k).
Proof.
  intros Hk. exists k, 0%Z. split; [assumption|]. split; [lia|].
  change (2 ^ 0) with 1. ring.
Qed.

Lemma representable_abs (f : Q) : representable f -> representable (Qabs f).
Proof.
  intros Hf. destruct (Qabs_cases f) as [[_ Heq]|[_ Heq]].
  - now apply (representable_proper f); [symmetry|].
  - apply (representable_proper (- f)); [now symmetry|]. now apply representable_opp.
Qed.

(** Rounding stays between two floats that enclose the number. *)
Lemma round64_between (lo hi q : Q) :
  representable lo -> representable hi -> lo <= q <= hi ->
  lo <= round64 q <= hi.
Proof.
  intros Hlo Hhi [H1 H2]. apply round64_monotone in H1, H2.
  rewrite (round64_exact lo Hlo) in H1. rewrite (round64_exact hi Hhi) in H2.
  now split.
Qed.

Lemma ltb_spec (a b : Q) : ltb a b = true -> round64 a < round64 b.
Proof. unfold ltb. apply Qlt_bool_iff. Qed.

(** A float that compares above a number is above it. *)
Lemma ltb_representable (a b : Q) : representable b -> ltb a b = true -> a < b.
Proof.
  intros Hb Hlt. apply ltb_spec in Hlt. rewrite (round64_exact b Hb) in Hlt.
  apply Qnot_le_lt. intros Hba. apply round64_monotone in Hba.
  rewrite (round64_exact b Hb) in Hba. lra.
Qed.

Lemma ltb_0 (a : Q) : ltb 0 a = true -> 0 < round64 a.
Proof. intros Hlt. now apply ltb_spec in Hlt. Qed.

Lemma add_range (acc x : Q) (k : Z) :
  (0 <= k)%Z -> (k + 1 <= 2 ^ 53)%Z ->
  0 <= acc <= inject_Z k -> 0 <= x <= 1 ->
  0 <= add acc x <= inject_Z (k + 1).
Proof.
  intros Hk0 Hk Hacc Hx. unfold add.
  assert (Hr0 : representable 0) by apply representable_0.
  assert (Hr1 : representable 1) by (apply (representable_inject 1); cbn; lia).
  assert (Hrk : representable (inject_Z k)) by (apply representable_inject; lia).
  assert (Hrk1 : representable (inject_Z (k + 1))) by (apply representable_inject; lia).
  pose proof (round64_between 0 (inject_Z k) acc Hr0 Hrk Hacc) as Ha.
  pose proof (round64_between 0 1 x Hr0 Hr1 Hx) as Hb.
  apply round64_between; try assumption.
  rewrite inject_Z_plus. change (inject_Z 1) with 1. lra.
Qed.

Lemma sum_from_range (l : list Q) (acc : Q) (k : Z) :
  (0 <= k)%Z -> (k + Z.of_nat (length l) <= 2 ^ 53)%Z ->
  0 <= acc <= inject_Z k -> Forall (fun x => 0 <= x <= 1) l ->
  0 <= fold_left add l acc <= inject_Z (k + Z.of_nat (length l)).
Proof.
  revert acc k. induction l as [|x l IH]; intros acc k Hk0 Hk Hacc Hall.
  - cbn. now rewrite Z.add_0_r.
  - inversion Hall as [|? ? Hx Hl]; subst. cbn [fold_left].
    change (length (x :: l)) with (S (length l)) in *.
    rewrite Nat2Z.inj_succ in *.
    replace (k + Z.succ (Z.of_nat (length l)))%Z
      with (k + 1 + Z.of_nat (length l))%Z in * by lia.
    apply IH; [lia|assumption| |assumption]. apply add_range; try assumption; lia.
Qed.

Lemma sum_range (l : list Q) :
  (Z.of_nat (length l) <= 2 ^ 53)%Z -> Forall (fun x => 0 <= x <= 1) l ->
  0 <= Float64.sum l <= inject_Z (Z.of_nat (length l)).
Proof.
  intros Hlen Hall. unfold Float64.sum.
  apply (sum_from_range l 0 0); try assumption; [lia|].
  change (inject_Z 0) with 0. lra.
Qed.

(** The mean of floats between 0 and 1 lies between 0 and 1. *)
Lemma mean_range (l : list Q) :
  l <> [] -> (Z.of_nat (length l) <= 2 ^ 53)%Z -> Forall (fun x => 0 <= x <= 1) l ->
  0 <= div (Float64.sum l) (inject_Z (Z.of_nat (length l))) <= 1.
Proof.
  intros Hne Hlen Hall. unfold div.
  assert (Hr0 : representable 0) by apply representable_0.
  assert (Hr1 : representable 1) by (apply (representable_inject 1); cbn; lia).
  assert (Hrn : representable (inject_Z (Z.of_nat (length l))))
    by (apply representable_inject; lia).
  pose proof (round64_between _ _ _ Hr0 Hrn (sum_range l Hlen Hall)) as Hs.
  rewrite (round64_exact _ Hrn).
  assert (Hn : 0 < inject_Z (Z.of_nat (length l))).
  { change 0 with (inject_Z 0). rewrite <- Zlt_Qlt. destruct l; [congruence|cbn; lia]. }
  apply round64_between; try assumption.
  set (S := round64 (Float64.sum l)) in *.
  set (n := inject_Z (Z.of_nat (length l))) in *.
  split; [apply Qle_shift_div_l | apply Qle_shift_div_r]; try assumption; lra.
Qed.

Lemma mul_comm (a b : Q) : mul a b = mul b a.
Proof. unfold mul. apply round64_proper. apply Qmult_comm. Qed.

(** The values the thresholds are met with: 0.8, 0.1 and 0.7 are not
    floats, their products, differences and quotients are rounded. *)
Example rounded_thresholds :
  round64 0.8 == 3602879701896397 # 4503599627370496
  /\ round64 0.1 == 3602879701896397 # 36028797018963968
  /\ mul 3 0.8 == 5404319552844596 # 2251799813685248
  /\ leb (mul 3 0.8) 2.4 = false
  /\ mul 50 0.8 == 40
  /\ sub 45.1 45 == 450359962737056 # 4503599627370496
  /\ ltb 0.1 (sub 45.1 45) = true
  /\ sub 50 45 == 5
  /\ sub 1 (div 7 10) == 5404319552844596 # 18014398509481984
  /\ ltb 0.3 (sub 1 (div 7 10)) = true.
Proof. vm_compute. repeat split; reflexivity. Qed.

End Float64Facts.

Module SimilarityFacts.

Import SubstitutionEngine Float64 Float64Facts.

Lemma Qlt_bool_false (a b : Q) : Qlt_bool a b = false -> b <= a.
Proof.
  intros H. apply Qnot_lt_le. intros Hc. apply Qlt_bool_iff in Hc. congruence.
Qed.

Lemma max2_sym (a b : Q) : max2 a b == max2 b a.
Proof.
  unfold max2. destruct (Qlt_bool a b) eqn:Hab, (Qlt_bool b a) eqn:Hba;
    try reflexivity.
  - apply Qlt_bool_iff in Hab, Hba. lra.
  - apply Qlt_bool_false in Hab, Hba. lra.
Qed.

(** The float of the larger value is the larger float. *)
Lemma round64_max2 (a b : Q) :
  round64 a <= round64 (max2 a b) /\ round64 b <= round64 (max2 a b).
Proof.
  unfold max2. destruct (Qlt_bool a b) eqn:Hab.
  - apply Qlt_bool_iff in Hab. split; [|lra]. apply round64_monotone. lra.
  - apply Qlt_bool_false in Hab. split; [lra|]. now apply round64_monotone.
Qed.

Lemma similarity_term_range (val1 val2 : Q) :
  ltb 0 val1 = true -> ltb 0 val2 = true ->
  0 <= Float64.sub 1 (Float64.div (Qabs (Float64.sub val1 val2)) (max2 val1 val2))
    <= 1.
Proof.
  intros H1 H2. apply ltb_0 in H1, H2.
  destruct (round64_max2 val1 val2) as [Ha Hb].
  assert (Hr0 : representable 0) by apply representable_0.
  assert (Hr1 : representable 1) by (apply (representable_inject 1); cbn; lia).
  pose proof (round64_representable (max2 val1 val2)) as HrM.
  unfold Float64.sub, Float64.div.
  set (a := round64 val1) in *. set (b := round64 val2) in *.
  set (M := round64 (max2 val1 val2)) in *.
  assert (Hd : - M <= round64 (a - b) <= M).
  { apply round64_between; [now apply representable_opp|assumption|]. split; lra. }
  pose proof (round64_representable (a - b)) as Hrd.
  set (d := round64 (a - b)) in *.
  assert (Habs : 0 <= Qabs d <= M).
  { split; [apply Qabs_nonneg|]. apply Qabs_Qle_condition. exact Hd. }
  rewrite (round64_exact (Qabs d)) by now apply representable_abs.
  assert (Hq : 0 <= round64 (Qabs d / M) <= 1).
  { apply round64_between; try assumption.
    split; [apply Qle_shift_div_l | apply Qle_shift_div_r]; lra. }
  pose proof (round64_representable (Qabs d / M)) as Hrq.
  set (quotient := round64 (Qabs d / M)) in *.
  rewrite round64_1, (round64_exact quotient Hrq).
  apply round64_between; try assumption. split; lra.
Qed.

Lemma similarity_term_sym (val1 val2 : Q) :
  Float64.sub 1 (Float64.div (Qabs (Float64.sub val1 val2)) (max2 val1 val2))
  = Float64.sub 1 (Float64.div (Qabs (Float64.sub val2 val1)) (max2 val2 val1)).
Proof.
  unfold Float64.sub, Float64.div.
  assert (Hd : Qabs (round64 (round64 val1 - round64 val2))
               == Qabs (round64 (round64 val2 - round64 val1))).
  { rewrite <- (Qabs_opp (round64 (round64 val2 - round64 val1))), <- round64_opp.
    apply Qabs_wd. apply round64_wd. ring. }
  rewrite (round64_proper _ _ Hd), (round64_proper _ _ (max2_sym val1 val2)).
  reflexivity.
Qed.

Lemma flat_map_length_le {A B : Type} (f : A -> list B) (l : list A) :
  (forall x, (length (f x) <= 1)%nat) -> (length (flat_map f l) <= length l)%nat.
Proof.
  intros Hf. induction l as [|x l IH]; [reflexivity|].
  cbn [flat_map]. rewrite length_app. specialize (Hf x). cbn [length]. lia.
Qed.

Lemma nutritional_similarity_representable (nutrition1 nutrition2 : IngredientData) :
  representable (_calculate_nutritional_similarity nutrition1 nutrition2).
Proof.
  unfold _calculate_nutritional_similarity.
  destruct (negb (ing_truthy nutrition1) || negb (ing_truthy nutrition2))%bool;
    [apply representable_0|].
  destruct (flat_map _ nutrients); [apply representable_0|].
  apply round64_representable.
Qed.

End SimilarityFacts.

Module EngineFacts.

Import SubstitutionEngine Spec Samples.

Lemma fold_left_extend {A B : Type} (f : A -> list B) (l : list A) (init : list B) :
  fold_left (fun acc x => acc +++ f x) l init = init +++ flat_map f l.
Proof.
  revert init. induction l as [|x l IH]; intros init; simpl.
  - now rewrite app_nil_r.
  - rewrite IH. now rewrite <- app_assoc.
Qed.

Lemma strongly_sorted_head {A : Type} (key : A -> Q) (a b : A) (l : list A) :
  StronglySorted (desc key) (a :: b :: l) -> key b <= key a.
Proof.
  intros Hs. inversion Hs as [|? ? _ Hall]; subst.
  inversion Hall; subst. assumption.
Qed.

(** *** Ranking of substitutions *)

Example milk_substitutions_scores :
  map (fun o => (substitute_name o, Qred (compatibility_score o), Qred (overall_score o)))
      (find_substitutions milk_engine "milk" [] [])
  = [("oat milk", 1, 0.7); ("soy milk", 1, 1); ("soy milk", 1, 1)].
Proof. vm_compute. reflexivity. Qed.

(** C4 (as stated it fails): the list returned for "milk" starts with an
    option of fused score 0.7 followed by one of fused score 1, so it is not
    non-increasing in the fused overall score. *)
Lemma find_substitutions_not_ranked_by_overall_score :
  ~ StronglySorted (desc overall_score)
      (find_substitutions milk_engine "milk" [] []).
Proof.
  intros Hs.
  assert (Hl : exists a b l,
             find_substitutions milk_engine "milk" [] [] = a :: b :: l
             /\ overall_score a == 0.7 /\ overall_score b == 1).
  { eexists _, _, _. split; [vm_compute; reflexivity|].
    split; vm_compute; reflexivity. }
  destruct Hl as (a & b & l & Heq & Ha & Hb).
  rewrite Heq in Hs. apply strongly_sorted_head in Hs. lra.
Qed.

Lemma ingredient_based_fused (e : SubstitutionEngine.t) (ingredient : string)
    (restrictions allergies : list string) :
  Forall fused (_find_ingredient_based_substitutions e ingredient restrictions allergies).
Proof.
  unfold _find_ingredient_based_substitutions.
  induction (ingredients e) as [|[substitute data] l IH]; simpl; [constructor|].
  apply Forall_app. split; [|exact IH].
  destruct (String.eqb substitute ingredient); [constructor|].
  destruct (Qlt_bool 0.5 _); [|constructor].
  destruct (Float64.ltb 0.3 _); [|constructor].
  constructor; [|constructor]. unfold fused; simpl. reflexivity.
Qed.

(** C4 (amended): the returned list is sorted non-increasing by the
    compatibility score of its options; options with the same compatibility
    score keep the order in which they were collected, the substitutes of
    the guidelines before the candidates of the nutrient database; and
    every option carries the fused score
    [compatibility_score * 0.7 + nutritional_similarity * 0.3] in its
    [overall_score] field, which is not the sort key. *)
Theorem find_substitutions_ranked_by_compatibility (e : SubstitutionEngine.t)
    (ingredient : string) (restrictions allergies : list string) :
  StronglySorted (desc compatibility_score)
    (find_substitutions e ingredient restrictions allergies)
  /\ (forall score,
        with_key compatibility_score score
          (find_substitutions e ingredient restrictions allergies)
        = with_key compatibility_score score
            (substitution_options e ingredient restrictions allergies))
  /\ Permutation (find_substitutions e ingredient restrictions allergies)
       (substitution_options e ingredient restrictions allergies)
  /\ Forall fused (find_substitutions e ingredient restrictions allergies).
Proof.
  unfold find_substitutions, substitution_options.
  split; [|split; [|split]].
  - apply sort_desc_sorted.
  - intros score. apply sort_desc_stable.
  - apply sort_desc_perm.
  - eapply Permutation_Forall.
    + symmetry. apply sort_desc_perm.
    + apply Forall_app. split.
      * apply Forall_map. apply Forall_forall. intros s _.
        unfold fused; simpl. reflexivity.
      * apply ingredient_based_fused.
Qed.

(** On the sample: without restrictions every option has compatibility 1,
    so the order is the order of collection: the two substitutes of the
    guidelines as listed, oat milk first although its fused score is the
    lowest, then the candidate of the nutrient database. *)
Example milk_substitutes_keep_their_order :
  map (fun option => (substitute_name option, notes option))
      (find_substitutions milk_engine "milk" [] [])
  = [ ("oat milk", EmptyString); ("soy milk", EmptyString);
      ("soy milk", "Nutritionally similar alternative") ]
  /\ with_key compatibility_score 1 (find_substitutions milk_engine "milk" [] [])
     = substitution_options milk_engine "milk" [] [].
Proof. vm_compute. split; reflexivity. Qed.

(** *** Nutrition optimisation *)

Lemma spec_band_eq (current target : Q) :
  (if Float64.leb (Float64.mul target 0.8) current then 1
   else if Float64.leb (Float64.mul target 0.5) current then 0.7 else 0.3)
  = spec_band current target.
Proof.
  unfold spec_band.
  now rewrite (Float64Facts.mul_comm target 0.8), (Float64Facts.mul_comm target 0.5).
Qed.

Lemma optimization_scores_loop (recipe : Recipe) (targets : list (string * Q))
    (init : list Q) :
  fold_left (fun scores '(nutrient, target_value) =>
      let current_value :=
        from_option (fun v => v) 0 (nutritional_info recipe !! nutrient) in
      if Float64.ltb 0 target_value then
        if Float64.leb (Float64.mul target_value 0.8) current_value
        then scores +++ [1]
        else if Float64.leb (Float64.mul target_value 0.5) current_value
             then scores +++ [0.7]
             else scores +++ [0.3]
      else scores) targets init
  = init +++
    map (fun '(nutrient, target) => spec_band (current_of recipe nutrient) target)
        (List.filter (fun '(_, target) => Float64.ltb 0 target) targets).
Proof.
  revert init. induction targets as [|[nutrient target] l IH]; intros init.
  - simpl. now rewrite app_nil_r.
  - cbn [fold_left List.filter]. rewrite IH. cbn zeta.
    destruct (Float64.ltb 0 target).
    + cbn [map]. fold (current_of recipe nutrient).
      rewrite <- spec_band_eq.
      destruct (Float64.leb (Float64.mul target 0.8) _);
        [|destruct (Float64.leb (Float64.mul target 0.5) _)];
        now rewrite <- app_assoc.
    + reflexivity.
Qed.

Lemma optimization_score_spec (recipe : Recipe) (targets : list (string * Q)) :
  _calculate_optimization_score (nutritional_info recipe) targets
  = spec_optimization_score recipe targets.
Proof.
  unfold _calculate_optimization_score, spec_optimization_score.
  destruct targets as [|item l]; [reflexivity|].
  rewrite optimization_scores_loop. reflexivity.
Qed.

Lemma dict_get_set {V : Type} (n k : string) (v : V) (d : list (string * V)) :
  dict_get n (dict_set k v d) = if String.eqb n k then Some v else dict_get n d.
Proof.
  induction d as [|[k' v'] d IH]; simpl.
  - reflexivity.
  - destruct (String.eqb k k') eqn:Hkk'; simpl.
    + apply String.eqb_eq in Hkk'. subst k'.
      destruct (String.eqb n k); reflexivity.
    + rewrite IH. destruct (String.eqb n k') eqn:Hnk'; [|reflexivity].
      apply String.eqb_eq in Hnk'. subst k'.
      destruct (String.eqb n k) eqn:Hnk; [|reflexivity].
      apply String.eqb_eq in Hnk. subst k.
      rewrite String.eqb_refl in Hkk'. discriminate.
Qed.

Lemma optimize_step_suggestions (e : SubstitutionEngine.t) (recipe : Recipe)
    (restrictions allergies : list string)
    (acc : list Suggestion * list (string * NutrientAnalysis)) (item : string * Q) :
  fst (optimize_step e recipe restrictions allergies acc item)
  = fst acc +++ spec_suggestions_for e recipe restrictions allergies item.
Proof.
  destruct acc as [found analysis], item as [nutrient target].
  unfold optimize_step, spec_suggestions_for, gap.
  fold (current_of recipe nutrient). cbn zeta.
  destruct (Float64.ltb 0.1 _); simpl; [reflexivity|].
  now rewrite app_nil_r.
Qed.

Lemma optimize_step_keys (e : SubstitutionEngine.t) (recipe : Recipe)
    (restrictions allergies : list string)
    (acc : list Suggestion * list (string * NutrientAnalysis))
    (nutrient : string) (target : Q) (n : string) :
  is_Some (dict_get n (snd (optimize_step e recipe restrictions allergies acc
                              (nutrient, target))))
  <-> is_Some (dict_get n (snd acc)) \/ (n = nutrient /\ triggered recipe nutrient target).
Proof.
  destruct acc as [found analysis].
  unfold optimize_step, triggered, gap. fold (current_of recipe nutrient).
  cbn zeta.
  destruct (Float64.ltb 0.1
              (Qabs (Float64.sub target (current_of recipe nutrient)))) eqn:Hgap;
    cbn [snd].
  - rewrite dict_get_set.
    destruct (String.eqb n nutrient) eqn:Hn.
    + apply String.eqb_eq in Hn. subst n. split; [|eauto]. intros _. now right.
    + apply String.eqb_neq in Hn. split; [now left|].
      intros [Hs | [Heq _]]; [assumption | contradiction].
  - split; [now left|]. intros [Hs | [_ Hlt]]; [assumption | discriminate].
Qed.

Lemma optimize_loop_suggestions (e : SubstitutionEngine.t) (recipe : Recipe)
    (restrictions allergies : list string) (targets : list (string * Q))
    (acc : list Suggestion * list (string * NutrientAnalysis)) :
  fst (fold_left (optimize_step e recipe restrictions allergies) targets acc)
  = fst acc +++ flat_map (spec_suggestions_for e recipe restrictions allergies) targets.
Proof.
  revert acc. induction targets as [|item l IH]; intros acc; simpl.
  - now rewrite app_nil_r.
  - rewrite IH, optimize_step_suggestions. now rewrite <- app_assoc.
Qed.

Lemma optimize_loop_keys (e : SubstitutionEngine.t) (recipe : Recipe)
    (restrictions allergies : list string) (targets : list (string * Q))
    (acc : list Suggestion * list (string * NutrientAnalysis)) (n : string) :
  is_Some (dict_get n
             (snd (fold_left (optimize_step e recipe restrictions allergies) targets acc)))
  <-> is_Some (dict_get n (snd acc))
      \/ exists target, In (n, target) targets /\ triggered recipe n target.
Proof.
  revert acc. induction targets as [|[nutrient target] l IH]; intros acc; simpl.
  - split; [now left|]. intros [Hs | (t & [] & _)]. assumption.
  - rewrite IH, optimize_step_keys. split.
    + intros [[Hs | [Heq Ht]] | (t & Hin & Ht)].
      * now left.
      * subst n. right. exists target. split; [now left | assumption].
      * right. exists t. split; [now right | assumption].
    + intros [Hs | (t & [Heq | Hin] & Ht)].
      * left. now left.
      * inversion Heq; subst. left. right. split; [reflexivity | assumption].
      * right. exists t. split; assumption.
Qed.

Lemma optimize_fields (e : SubstitutionEngine.t) (recipe : Recipe)
    (targets : list (string * Q)) (restrictions allergies : list string) :
  let r := optimize_recipe_nutrition e recipe targets restrictions allergies in
  let final :=
    fold_left (optimize_step e recipe restrictions allergies) targets ([], []) in
  suggestions r = fst final
  /\ nutrient_analysis r = snd final
  /\ optimization_score r
     = _calculate_optimization_score (nutritional_info recipe) targets.
Proof.
  cbn zeta. unfold optimize_recipe_nutrition.
  destruct (fold_left _ targets ([], [])) as [found analysis]. simpl.
  repeat split.
Qed.

Lemma nodup_keys_unique {V : Type} (d : list (string * V)) (k : string) (v v' : V) :
  NoDup (map fst d) -> In (k, v) d -> In (k, v') d -> v = v'.
Proof.
  induction d as [|[k0 v0] d IH]; simpl; intros Hnd Hin Hin'; [contradiction|].
  apply NoDup_cons in Hnd as [Hnotin Hnd].
  destruct Hin as [Heq | Hin], Hin' as [Heq' | Hin'].
  - congruence.
  - inversion Heq; subst. exfalso. apply Hnotin.
    apply list_elem_of_In. apply (in_map fst) in Hin'. exact Hin'.
  - inversion Heq'; subst. exfalso. apply Hnotin.
    apply list_elem_of_In. apply (in_map fst) in Hin. exact Hin.
  - now apply IH.
Qed.

(** The boost search finds something as soon as the database holds one
    ingredient that carries the nutrient and is compatible above 0.7. *)
Lemma boost_suggestions_nonempty (e : SubstitutionEngine.t) (recipe : Recipe)
    (nutrient : string) (deficit : Q) (restrictions allergies : list string)
    (ingredient_name : string) (data : IngredientData) :
  In (ingredient_name, data) (ingredients e) ->
  0 < nutrition_value data nutrient ->
  0.7 < _calculate_substitution_compatibility e ingredient_name restrictions allergies ->
  _find_nutrient_boost_suggestions e recipe nutrient deficit restrictions allergies
  <> [].
Proof.
  intros Hin Hval Hcompat. unfold _find_nutrient_boost_suggestions.
  apply slice_to_nonempty; [lia|].
  intros Hnil. apply (f_equal (@length _)) in Hnil.
  rewrite sort_desc_length in Hnil. apply length_zero_iff_nil in Hnil.
  induction (ingredients e) as [|[name0 data0] l IH]; [contradiction|].
  simpl in Hnil. apply app_eq_nil in Hnil as [Hhead Htail].
  destruct Hin as [Heq | Hin]; [|now apply IH].
  inversion Heq; subst.
  apply Qlt_bool_iff in Hval. apply Qlt_bool_iff in Hcompat.
  rewrite Hval, Hcompat in Hhead. discriminate.
Qed.

(** C8: the optimisation score is the mean of the bands 1.0 / 0.7 / 0.3
    over the targets with a positive value (1 when there is none), the band
    of a nutrient being 1.0 when its current value is at least
    [0.8 x target], 0.7 when it is at least [0.5 x target] and 0.3
    otherwise; the suggestion search of a nutrient runs exactly when the
    absolute gap [target - current] exceeds 0.1 (a boost search for a
    deficit, a reduction search for an excess), and its outcome is recorded
    under the nutrient's key; and with the single target protein = 50 and a
    current value of 45 the score is 1 while boost suggestions are produced
    as soon as the database holds a compatible ingredient that carries
    protein.  The products and the gap are the float operations of the
    source ([spec_band], [gap]). *)
Theorem optimization_bands_and_trigger (e : SubstitutionEngine.t) (recipe : Recipe)
    (targets : list (string * Q)) (restrictions allergies : list string) :
  NoDup (map fst targets) ->
  let r := optimize_recipe_nutrition e recipe targets restrictions allergies in
  optimization_score r = spec_optimization_score recipe targets
  /\ suggestions r
     = flat_map (spec_suggestions_for e recipe restrictions allergies) targets
  /\ (forall nutrient target, In (nutrient, target) targets ->
        (is_Some (dict_get nutrient (nutrient_analysis r))
         <-> triggered recipe nutrient target))
  /\ (forall current,
        targets = [("protein", 50)] ->
        nutritional_info recipe !! "protein" = Some current ->
        current == 45 ->
        (exists ingredient_name data,
            In (ingredient_name, data) (ingredients e)
            /\ 0 < nutrition_value data "protein"
            /\ 0.7 < _calculate_substitution_compatibility e ingredient_name
                       restrictions allergies) ->
        optimization_score r == 1
        /\ spec_band current 50 = 1
        /\ gap recipe "protein" 50 == 5
        /\ triggered recipe "protein" 50
        /\ suggestions r
           = _find_nutrient_boost_suggestions e recipe "protein"
               (gap recipe "protein" 50) restrictions allergies
        /\ suggestions r <> []).
Proof.
  intros Hnd r.
  destruct (optimize_fields e recipe targets restrictions allergies)
    as (Hsug & Hana & Hscore).
  fold r in Hsug, Hana, Hscore.
  assert (Hsug' : suggestions r
            = flat_map (spec_suggestions_for e recipe restrictions allergies) targets).
  { rewrite Hsug, optimize_loop_suggestions. reflexivity. }
  split; [|split; [|split]].
  - rewrite Hscore. apply optimization_score_spec.
  - exact Hsug'.
  - intros nutrient target Hin. rewrite Hana, optimize_loop_keys. split.
    + intros [[x Hx] | (t & Hin' & Ht)]; [discriminate|].
      now rewrite (nodup_keys_unique targets nutrient target t Hnd Hin Hin').
    + intros Ht. right. exists target. split; assumption.
  - intros current Htargets Hcur H45 (ingredient_name & data & Hin & Hval & Hcompat).
    pose proof (Float64Facts.round64_proper current 45 H45) as Hround.
    assert (Hband : spec_band current 50 = 1).
    { unfold spec_band, Float64.leb. rewrite Hround. reflexivity. }
    assert (Hgap : gap recipe "protein" 50 = Float64.sub 50 45).
    { unfold gap, current_of. rewrite Hcur. cbn [from_option].
      unfold Float64.sub. now rewrite Hround. }
    assert (Htriggered : triggered recipe "protein" 50).
    { unfold triggered. rewrite Hgap. reflexivity. }
    assert (Hboost : suggestions r
              = _find_nutrient_boost_suggestions e recipe "protein"
                  (gap recipe "protein" 50) restrictions allergies).
    { rewrite Hsug', Htargets. cbn [flat_map]. rewrite app_nil_r.
      unfold spec_suggestions_for. cbn zeta. unfold triggered in Htriggered.
      rewrite Htriggered, Hgap.
      assert (Hpos : Float64.ltb 0 (Float64.sub 50 45) = true) by reflexivity.
      now rewrite Hpos. }
    split; [|split; [exact Hband|split; [|split; [exact Htriggered|split;
      [exact Hboost|]]]]].
    + rewrite Hscore, optimization_score_spec, Htargets.
      unfold spec_optimization_score. cbn [List.filter].
      assert (Hpos : Float64.ltb 0 50 = true) by reflexivity.
      rewrite Hpos. cbn [map].
      unfold current_of. rewrite Hcur. cbn [from_option]. rewrite Hband.
      reflexivity.
    + rewrite Hgap. reflexivity.
    + rewrite Hboost.
      now apply (boost_suggestions_nonempty e recipe "protein"
                   (gap recipe "protein" 50) restrictions allergies
                   ingredient_name data).
Qed.

Lemma optimization_bands_and_trigger_witness :
  let r := optimize_recipe_nutrition protein_engine protein_recipe
             [("protein", 50)] [] [] in
  optimization_score r == 1 /\ suggestions r <> []
  /\ is_Some (dict_get "protein" (nutrient_analysis r)).
Proof.
  assert (Hnd : NoDup (map fst [("protein", 50)])).
  { simpl. apply NoDup_cons. split; [apply not_elem_of_nil | apply NoDup_nil_2]. }
  destruct (optimization_bands_and_trigger protein_engine protein_recipe
              [("protein", 50)] [] [] Hnd) as (_ & _ & Hkeys & Hscenario).
  destruct (Hscenario 45) as (Hscore & _ & _ & _ & _ & Hne).
  - reflexivity.
  - reflexivity.
  - reflexivity.
  - exists "lentils", {| ing_dietary_tags := Some ["vegan"];
                         ing_nutrition := Some {[ "protein" := 9; "fiber" := 8 ]};
                         ing_top := ∅ |}.
    split; [now left|]. split; reflexivity.
  - split; [exact Hscore|]. split; [exact Hne|].
    apply (Hkeys "protein" 50); [now left|]. reflexivity.
Defined.

(** At the thresholds themselves the float operations decide: a current
    value of 2.4 for a target of 3 is below [3 * 0.8] and gets the band
    0.7, and a gap of [45.1 - 45] is above 0.1 and triggers the search. *)
Example bands_and_trigger_at_the_thresholds :
  spec_band 2.4 3 = 0.7
  /\ _calculate_optimization_score {[ "protein" := 2.4 ]} [("protein", 3)] == 0.7
  /\ Float64.ltb 0.1 (Qabs (Float64.sub 45.1 45)) = true
  /\ is_Some (dict_get "protein"
                (nutrient_analysis
                   (optimize_recipe_nutrition protein_engine protein_recipe
                      [("protein", 45.1)] [] []))).
Proof. vm_compute. repeat split; eauto. Qed.

End EngineFacts.

(** ** The vector store's filters *)

Module StoreFacts.

Import SimpleVectorStore Samples.

(** A [$contains] constraint on a scalar string field is the substring
    test. *)
Lemma contains_on_string_field (x field_value : string) :
  constraint_holds (MScalar (SStr field_value)) (Ops {[ "$contains" := OStr x ]})
  = Ok (contains x field_value).
Proof. reflexivity. Qed.

(** On a list field the operand is iterated: a string operand is taken
    apart into its characters, and the constraint holds when one of them is
    an element of the list. *)
Lemma contains_on_list_field (x : string) (field_value : list scalar) :
  constraint_holds (MList field_value) (Ops {[ "$contains" := OStr x ]})
  = Ok (existsb (fun c => in_list (SStr (String c EmptyString)) field_value)
          (list_ascii_of_string x)).
Proof.
  change (constraint_holds (MList field_value) (Ops {[ "$contains" := OStr x ]}))
    with (Ok (existsb (fun filter_val => in_list filter_val field_value)
                (iterate (OStr x)))).
  f_equal. unfold iterate.
  induction (list_ascii_of_string x) as [|c l IH]; simpl; [reflexivity|].
  now rewrite IH.
Qed.

(** C9 (code defect): with the string "vegan" as the operand of
    [$contains], an entry whose list field has "vegan" among its elements is
    not matched, and an entry whose list field is ["v"] is matched although
    "vegan" is not one of its elements; on a scalar string field the
    operator is the substring test. *)
Theorem contains_operator_splits_string_operand :
  in_list (SStr "vegan") [SStr "vegan"; SStr "gluten-free"] = true
  /\ _apply_filters vegan_store
       [("dietary_tags", Ops {[ "$contains" := OStr "vegan" ]})] = Ok []
  /\ in_list (SStr "vegan") [SStr "v"] = false
  /\ constraint_holds (MList [SStr "v"]) (Ops {[ "$contains" := OStr "vegan" ]})
     = Ok true
  /\ _apply_filters vegan_store
       [("title", Ops {[ "$contains" := OStr "Soup" ]})] = Ok [0%nat].
Proof. vm_compute. repeat split; reflexivity. Qed.

(** An entry passes a filter only if its metadata has every constrained
    field. *)
Lemma entry_matches_needs_every_key (metadata : gmap string meta_value)
    (filter_dict : list (string * constraint)) :
  entry_matches metadata filter_dict = Ok true ->
  forall key value, In (key, value) filter_dict -> is_Some (metadata !! key).
Proof.
  induction filter_dict as [|[k v] rest IH]; intros Hm key value Hin;
    [contradiction|].
  simpl in Hm. destruct (metadata !! k) as [mv|] eqn:Hk; [|discriminate].
  destruct (constraint_holds mv v) as [[|]|err|nonfinite]; simpl in Hm; try discriminate.
  destruct Hin as [Heq | Hin].
  - inversion Heq; subst. rewrite Hk. eauto.
  - now apply (IH Hm key value).
Qed.

(** A missing field ends the evaluation with "no match", whatever the
    operator and whatever follows. *)
Lemma entry_matches_missing_key (metadata : gmap string meta_value)
    (key : string) (value : constraint) (rest : list (string * constraint)) :
  metadata !! key = None ->
  entry_matches metadata ((key, value) :: rest) = Ok false.
Proof. intros Hk. simpl. now rewrite Hk. Qed.

Lemma apply_filters_loop_none (A : Type) (filter_dict : list (string * constraint))
    (items : list (nat * gmap string meta_value)) (acc : list nat) :
  Forall (fun item => entry_matches (snd item) filter_dict = Ok false) items ->
  for_each (fun matching_indices '(i, metadata) =>
              do b <- entry_matches metadata filter_dict;
              Ok (if b then matching_indices +++ [i] else matching_indices))
           items acc = Ok acc.
Proof.
  induction 1 as [|[i metadata] items Hhead _ IH]; simpl; [reflexivity|].
  simpl in Hhead. rewrite Hhead. simpl. exact IH.
Qed.

Lemma Forall_enumerate {A : Type} (P : A -> Prop) (l : list A) :
  Forall P l -> Forall (fun item => P (snd item)) (enumerate l).
Proof.
  unfold enumerate. generalize 0%nat.
  induction l as [|x l IH]; intros n Hall; simpl; [constructor|].
  inversion Hall; subst. constructor; [assumption|]. now apply IH.
Qed.

(** When no entry passes the filter, the search returns nothing. *)
Lemma search_with_unmatched_filter {E : Type} `{Embedder E} (store : t E)
    (query : string) (n_results : Z) (c : string * constraint)
    (cs : list (string * constraint)) :
  Forall (fun metadata => entry_matches metadata (c :: cs) = Ok false)
    (metadatas store) ->
  search_recipes store query n_results (Some (c :: cs))
  = Ok {| res_ids := []; res_documents := []; res_metadatas := [];
          res_distances := [] |}.
Proof.
  intros Hall. unfold search_recipes, _apply_filters.
  rewrite (apply_filters_loop_none nat (c :: cs) _ []
             (Forall_enumerate _ _ Hall)).
  cbn [bind].
  assert (Hnone : forall l : list (nat * Q),
             List.filter (fun '(i, _) => bool_decide (i ∈ @nil nat)) l = []).
  { induction l as [|[i s] l IH]; cbn [List.filter]; [reflexivity|].
    rewrite bool_decide_eq_false_2; [exact IH | apply not_elem_of_nil]. }
  rewrite Hnone.
  assert (Hslice : slice_to n_results (@nil (nat * Q)) = []).
  { unfold slice_to. destruct (0 <=? n_results)%Z; now rewrite take_nil. }
  rewrite Hslice. reflexivity.
Qed.

End StoreFacts.

(** ** The orchestrator *)

Module PipelineFacts.

Import SimpleVectorStore RAGPipeline Spec.

Section Dedup.

Lemma unique_loop_acc (rs acc : list SearchResult) (seen : gset string) :
  unique_loop rs acc seen = acc +++ unique_loop rs [] seen.
Proof.
  revert acc seen. induction rs as [|r rest IH]; intros acc seen; simpl.
  - now rewrite app_nil_r.
  - destruct (bool_decide (title (recipe r) ∈ seen)); [apply IH|].
    rewrite (IH (acc +++ [r])), (IH ([] +++ [r])).
    now rewrite <- app_assoc.
Qed.

Lemma unique_loop_seen (r : SearchResult) (rest : list SearchResult)
    (seen : gset string) :
  title_of r ∈ seen ->
  unique_loop (r :: rest) [] seen = unique_loop rest [] seen.
Proof.
  intros Hin. simpl. unfold title_of in Hin.
  now rewrite bool_decide_eq_true_2.
Qed.

Lemma unique_loop_fresh (r : SearchResult) (rest : list SearchResult)
    (seen : gset string) :
  title_of r ∉ seen ->
  unique_loop (r :: rest) [] seen
  = r :: unique_loop rest [] ({[ title_of r ]} ∪ seen).
Proof.
  intros Hnot. simpl. unfold title_of in *.
  rewrite bool_decide_eq_false_2 by assumption.
  now rewrite unique_loop_acc.
Qed.

(** An entry that is kept is the first one of its title, and its title had
    not been seen before. *)
Lemma unique_loop_first (rs : list SearchResult) (seen : gset string)
    (e : SearchResult) :
  In e (unique_loop rs [] seen) ->
  (title_of e ∉ seen)
  /\ exists l1 l2, rs = l1 +++ (e :: l2)
                   /\ forall x, In x l1 -> title_of x <> title_of e.
Proof.
  revert seen. induction rs as [|r rest IH]; intros seen Hin; [contradiction|].
  destruct (decide (title_of r ∈ seen)) as [Hseen | Hfresh].
  - rewrite unique_loop_seen in Hin by assumption.
    destruct (IH seen Hin) as (Hnot & l1 & l2 & Heq & Hl1).
    split; [assumption|]. exists (r :: l1), l2. split; [now rewrite Heq|].
    intros x [Hx | Hx].
    + subst x. intros Heq'. apply Hnot. now rewrite <- Heq'.
    + now apply Hl1.
  - rewrite unique_loop_fresh in Hin by assumption.
    destruct Hin as [Hhead | Hin].
    + subst e. split; [assumption|]. exists [], rest. split; [reflexivity|].
      intros x [].
    + destruct (IH _ Hin) as (Hnot & l1 & l2 & Heq & Hl1).
      apply not_elem_of_union in Hnot as [Hne Hnot].
      apply not_elem_of_singleton in Hne.
      split; [assumption|]. exists (r :: l1), l2. split; [now rewrite Heq|].
      intros x [Hx | Hx]; [subst x; congruence | now apply Hl1].
Qed.

Lemma unique_loop_nodup (rs : list SearchResult) (seen : gset string) :
  NoDup (map title_of (unique_loop rs [] seen)).
Proof.
  revert seen. induction rs as [|r rest IH]; intros seen; [apply NoDup_nil_2|].
  destruct (decide (title_of r ∈ seen)) as [Hseen | Hfresh].
  - rewrite unique_loop_seen by assumption. apply IH.
  - rewrite unique_loop_fresh by assumption. simpl.
    apply NoDup_cons. split; [|apply IH].
    intros Hin. apply list_elem_of_In, in_map_iff in Hin as (x & Hx & Hin).
    apply unique_loop_first in Hin as [Hnot _].
    apply Hnot. rewrite Hx. apply elem_of_union_l. now apply elem_of_singleton.
Qed.

Lemma unique_loop_incl (rs : list SearchResult) (seen : gset string)
    (e : SearchResult) :
  In e (unique_loop rs [] seen) -> In e rs.
Proof.
  intros Hin. apply unique_loop_first in Hin as (_ & l1 & l2 & Heq & _).
  rewrite Heq. apply in_or_app. right. now left.
Qed.

Lemma find_first_of_title (l1 l2 : list SearchResult) (e : SearchResult) :
  (forall x, In x l1 -> title_of x <> title_of e) ->
  find (fun x => String.eqb (title_of x) (title_of e)) (l1 +++ (e :: l2)) = Some e.
Proof.
  induction l1 as [|y l1 IH]; intros Hl1; simpl.
  - now rewrite String.eqb_refl.
  - destruct (String.eqb (title_of y) (title_of e)) eqn:Hy.
    + apply String.eqb_eq in Hy. exfalso. apply (Hl1 y); [now left | assumption].
    + apply IH. intros x Hx. apply Hl1. now right.
Qed.

Lemma sorted_after {A : Type} (R : A -> A -> Prop) (l1 l2 : list A) (e : A) :
  StronglySorted R (l1 +++ (e :: l2)) -> Forall (R e) l2.
Proof.
  induction l1 as [|y l1 IH]; simpl; intros Hs;
    inversion Hs; subst; [assumption | now apply IH].
Qed.

End Dedup.

Section Orchestrator.

Context {E : Type} `{Embedder E} `{RecipeIntegrator}.

Variable p : RAGPipeline.t E.
Variable query : string.
Variables dietary_restrictions allergies health_conditions : list string.
Variable n_results : Z.
Variable include_dynamic : bool.

Lemma search_recipes_inv (resp : SearchResponse) :
  search_recipes p query dietary_restrictions allergies health_conditions
    n_results include_dynamic = Ok resp ->
  exists merged,
    analyzed_results p query dietary_restrictions allergies health_conditions
      n_results include_dynamic = Ok merged
    /\ results resp
       = slice_to n_results (unique_loop (sort_desc overall_score merged) [] ∅)
    /\ total_found resp
       = length (unique_loop (sort_desc overall_score merged) [] ∅).
Proof.
  unfold search_recipes. intros Hs.
  destruct (analyzed_results _ _ _ _ _ _ _) as [merged|err|nonfinite]; [|discriminate..].
  simpl in Hs. inversion Hs; subst. exists merged. repeat split.
Qed.

(** C6: the returned entries have pairwise different titles; each of them
    is the first entry of its title in the list of merged candidates sorted
    by descending overall score, and no merged candidate of the same title
    has a larger overall score. *)
Theorem search_results_deduplicated (resp : SearchResponse) :
  search_recipes p query dietary_restrictions allergies health_conditions
    n_results include_dynamic = Ok resp ->
  NoDup (map title_of (results resp))
  /\ exists merged,
       analyzed_results p query dietary_restrictions allergies health_conditions
         n_results include_dynamic = Ok merged
       /\ forall e, In e (results resp) ->
            In e merged
            /\ find (fun x => String.eqb (title_of x) (title_of e))
                 (sort_desc overall_score merged) = Some e
            /\ forall c, In c merged -> title_of c = title_of e ->
                 overall_score c <= overall_score e.
Proof.
  intros Hs. destruct (search_recipes_inv resp Hs) as (merged & Hm & Hres & _).
  split.
  - rewrite Hres. unfold slice_to.
    destruct (0 <=? n_results)%Z; apply nodup_map_take, unique_loop_nodup.
  - exists merged. split; [exact Hm|]. intros e He.
    rewrite Hres in He. apply slice_to_incl in He.
    pose proof (sort_desc_perm overall_score merged) as Hperm.
    pose proof (sort_desc_sorted overall_score merged) as Hsorted.
    destruct (unique_loop_first _ _ _ He) as (_ & l1 & l2 & Heq & Hl1).
    split; [|split].
    + eapply Permutation_in; [exact Hperm|]. now apply unique_loop_incl in He.
    + rewrite Heq. now apply find_first_of_title.
    + intros c Hc Htitle.
      apply (Permutation_in _ (Permutation_sym Hperm)) in Hc.
      rewrite Heq in Hc, Hsorted.
      apply in_app_or in Hc as [Hc | [Hc | Hc]].
      * exfalso. now apply (Hl1 c).
      * subst c. apply Qle_refl.
      * apply sorted_after in Hsorted.
        rewrite Forall_forall in Hsorted. apply Hsorted.
        now apply list_elem_of_In.
Qed.

(** C7: for a non-negative [n_results] the response holds at most
    [n_results] entries, and never more than [total_found]. *)
Theorem search_results_bounded (resp : SearchResponse) :
  (0 <= n_results)%Z ->
  search_recipes p query dietary_restrictions allergies health_conditions
    n_results include_dynamic = Ok resp ->
  (Z.of_nat (length (results resp)) <= n_results)%Z
  /\ (length (results resp) <= total_found resp)%nat.
Proof.
  intros Hn Hs. destruct (search_recipes_inv resp Hs) as (merged & _ & Hres & Htot).
  rewrite Hres, Htot. split.
  - now apply slice_to_length.
  - apply slice_to_length_le.
Qed.

(** *** Scores of the returned entries *)

Lemma static_result_entry (distances : list Q)
    (hit : string * string * gmap string meta_value * Q) (e : SearchResult) :
  In (snd hit) distances ->
  static_result p dietary_restrictions allergies health_conditions distances hit
  = Ok (Some e) ->
  static_entry distances e.
Proof.
  destruct hit as [[[doc_id document] hit_metadata] hit_distance].
  unfold static_result. cbn [snd]. intros Hin Hres.
  destruct (_find_recipe_by_text _ document) as [found|]; [|discriminate].
  destruct (max distances) as [largest|err|nonfinite] eqn:Hmax; [|discriminate..].
  cbn [bind] in Hres. unfold np_div in Hres.
  destruct (Qeq_bool largest 0) eqn:Hzero;
    [destruct (Qeq_bool hit_distance 0); discriminate|].
  cbn [np_map] in Hres. inversion Hres; subst e. clear Hres.
  exists largest. cbn [distance search_score overall_score compatibility].
  split; [exact Hmax|]. split.
  - intros Heq. apply Qeq_bool_iff in Heq. congruence.
  - split; [assumption|]. split; [reflexivity|].
    unfold _calculate_overall_score. reflexivity.
Qed.

Lemma static_results_loop (distances : list Q)
    (hits : list (string * string * gmap string meta_value * Q))
    (acc res : list SearchResult) :
  Forall (fun hit => In (snd hit) distances) hits ->
  for_each (fun analyzed hit =>
              do entry <- static_result p dietary_restrictions allergies
                            health_conditions distances hit;
              Ok (match entry with
                  | Some e => analyzed +++ [e]
                  | None => analyzed
                  end)) hits acc = Ok res ->
  exists es, res = acc +++ es /\ Forall (static_entry distances) es.
Proof.
  intros Hhits. revert acc. induction Hhits as [|hit hits Hhit _ IH];
    intros acc Hloop; simpl in Hloop.
  - inversion Hloop; subst. exists []. split; [now rewrite app_nil_r | constructor].
  - destruct (static_result _ _ _ _ distances hit) as [entry|err|nonfinite] eqn:Hentry;
      [|discriminate..].
    cbn [bind] in Hloop. destruct (IH _ Hloop) as (es & Heq & Hes).
    destruct entry as [e|].
    + exists (e :: es). split; [now rewrite Heq, <- app_assoc|].
      constructor; [|assumption]. now apply (static_result_entry distances hit).
    + exists es. split; assumption.
Qed.

Lemma hits_distances (sr : SearchResults) :
  Forall (fun hit => In (snd hit) (res_distances sr)) (hits_of sr).
Proof.
  apply Forall_forall. intros [h d] Hin. apply list_elem_of_In in Hin.
  unfold hits_of in Hin. apply in_combine_r in Hin. exact Hin.
Qed.

Lemma dynamic_results_entries :
  Forall (synthetic_entry query dietary_restrictions allergies health_conditions
            n_results)
    (dynamic_results p query dietary_restrictions allergies health_conditions
       n_results include_dynamic).
Proof.
  unfold dynamic_results. destruct include_dynamic; [|constructor].
  apply Forall_forall. intros e Hin.
  apply list_elem_of_In, in_map_iff in Hin as (r & Hr & Hin). subst e.
  unfold synthetic_entry. cbn [recipe search_score overall_score compatibility].
  split; [assumption|]. split; reflexivity.
Qed.

Lemma results_in_merged (resp : SearchResponse) (merged : list SearchResult) :
  results resp
  = slice_to n_results (unique_loop (sort_desc overall_score merged) [] ∅) ->
  forall e, In e (results resp) -> In e merged.
Proof.
  intros Hres e He. rewrite Hres in He.
  apply slice_to_incl, unique_loop_incl in He.
  eapply Permutation_in; [apply sort_desc_perm | exact He].
Qed.

(** C3 (amended): an entry returned for a statically indexed hit has
    [search_score = 1 - distance / max(distances)] and
    [overall_score = search_score * 0.6 + compatibility * 0.4]; an entry
    returned for a generated recipe has [search_score = 0.8] and
    [overall_score = compatibility * 0.8]. *)
Theorem search_scores_by_provenance (resp : SearchResponse) :
  search_recipes p query dietary_restrictions allergies health_conditions
    n_results include_dynamic = Ok resp ->
  exists hits,
    SimpleVectorStore.search_recipes (vector_store p) query (n_results * 2)
      (_build_filter_dict (data_processor p) dietary_restrictions allergies
         health_conditions) = Ok hits
    /\ forall e, In e (results resp) ->
         static_entry (res_distances hits) e
         \/ synthetic_entry query dietary_restrictions allergies
              health_conditions n_results e.
Proof.
  intros Hs. destruct (search_recipes_inv resp Hs) as (merged & Hm & Hres & _).
  unfold analyzed_results in Hm.
  destruct (SimpleVectorStore.search_recipes _ _ _ _) as [hits|err|nonfinite];
    [|discriminate..].
  cbn [bind] in Hm. exists hits. split; [reflexivity|].
  destruct (static_results _ _ _ _ hits) as [static|err|nonfinite] eqn:Hstatic;
    [|discriminate..].
  cbn [bind] in Hm. inversion Hm; subst merged. clear Hm.
  unfold static_results in Hstatic.
  apply (static_results_loop (res_distances hits)) in Hstatic
    as (es & Heq & Hes); [|apply hits_distances].
  simpl in Heq. subst static.
  intros e He. apply (results_in_merged resp _ Hres) in He.
  apply in_app_or in He as [He | He].
  - left. rewrite Forall_forall in Hes. apply Hes. now apply list_elem_of_In.
  - right. pose proof dynamic_results_entries as Hdyn.
    rewrite Forall_forall in Hdyn. apply Hdyn. now apply list_elem_of_In.
Qed.

(** *** The division by the largest distance *)

(** With a largest distance of 0 the quotient of the first hit that
    resolves is not a number: nan for a distance of 0, an infinity
    otherwise. *)
Lemma static_results_zero_divisor
    (hits : list (string * string * gmap string meta_value * Q))
    (distances : list Q) (largest : Q) (acc : list SearchResult) :
  max distances = Ok largest ->
  largest == 0 ->
  Exists (resolves (data_processor p)) hits ->
  exists score,
    for_each (fun analyzed hit =>
                do entry <- static_result p dietary_restrictions allergies
                              health_conditions distances hit;
                Ok (match entry with
                    | Some e => analyzed +++ [e]
                    | None => analyzed
                    end)) hits acc = NonFinite score
    /\ (score = NaN \/ score = Infinite).
Proof.
  intros Hmax Hzero Hex. apply Qeq_bool_iff in Hzero.
  induction hits as [|[[[doc_id document] hit_metadata] hit_distance] hits IH];
    [inversion Hex|].
  cbn [for_each]. unfold static_result at 1.
  destruct (_find_recipe_by_text (data_processor p) document) as [found|] eqn:Hfind.
  - rewrite Hmax. cbn [bind]. unfold np_div. rewrite Hzero.
    destruct (Qeq_bool hit_distance 0); cbn [np_map bind]; eauto.
  - cbn [bind]. apply IH. inversion Hex as [? ? Hres | ? ? Hrest]; subst.
    + unfold resolves in Hres. cbn [fst snd] in Hres. rewrite Hfind in Hres.
      destruct Hres as [x Hx]. discriminate.
    + assumption.
Qed.

(** Whenever the vector search returns hits whose largest distance is 0 and
    one of them resolves to a recipe, a search score that is nan or an
    infinity is produced; nothing is raised and no default takes its
    place. *)
Lemma search_score_not_finite_on_zero_largest_distance (hits : SearchResults)
    (largest : Q) :
  SimpleVectorStore.search_recipes (vector_store p) query (n_results * 2)
    (_build_filter_dict (data_processor p) dietary_restrictions allergies
       health_conditions) = Ok hits ->
  max (res_distances hits) = Ok largest ->
  largest == 0 ->
  Exists (resolves (data_processor p)) (hits_of hits) ->
  exists score,
    search_recipes p query dietary_restrictions allergies health_conditions
      n_results include_dynamic = NonFinite score
    /\ (score = NaN \/ score = Infinite).
Proof.
  intros Hsearch Hmax Hzero Hex.
  unfold search_recipes, analyzed_results. rewrite Hsearch. cbn [bind].
  unfold static_results.
  destruct (static_results_zero_divisor (hits_of hits) (res_distances hits)
              largest [] Hmax Hzero Hex) as (score & -> & Hscore).
  exists score. split; [reflexivity | exact Hscore].
Qed.

(** *** The allergy filter against the indexed metadata *)

Lemma recipe_metadata_no_ingredients (r : Recipe) :
  recipe_metadata r !! "ingredients" = None.
Proof.
  unfold recipe_metadata.
  repeat (rewrite lookup_insert_ne by discriminate).
  apply lookup_empty.
Qed.

Lemma recipe_metadata_dietary_tags (r : Recipe) :
  recipe_metadata r !! "dietary_tags" = Some (MList (map SStr (dietary_tags r))).
Proof.
  unfold recipe_metadata.
  repeat (rewrite lookup_insert_ne by discriminate).
  apply lookup_insert_eq.
Qed.

(** With a non-empty exclusion list the filter constrains the field
    ['ingredients'], right after the optional constraint on
    ['dietary_tags']. *)
Lemma build_filter_dict_ingredients :
  allergy_exclusions (data_processor p) allergies <> [] ->
  exists prefix rest,
    _build_filter_dict (data_processor p) dietary_restrictions allergies
      health_conditions
    = Some (prefix +++
            ("ingredients",
             Ops {[ "$not_contains" :=
                      OList (map SStr (allergy_exclusions (data_processor p)
                                         allergies)) ]}) :: rest)
    /\ (prefix = []
        \/ prefix = [("dietary_tags",
                      Ops {[ "$in" := OList (map SStr dietary_restrictions) ]})]).
Proof.
  intros Hne. unfold _build_filter_dict.
  destruct (allergy_exclusions (data_processor p) allergies) as [|x xs] eqn:Hex;
    [congruence|].
  destruct dietary_restrictions as [|d ds]; cbn [app].
  - eexists [], _. split; [reflexivity | now left].
  - eexists [_], _. split; [reflexivity | now right].
Qed.

Lemma recipe_metadata_fails_filter (r : Recipe) (prefix rest : list (string * constraint))
    (value : constraint) :
  prefix = []
  \/ prefix = [("dietary_tags",
                Ops {[ "$in" := OList (map SStr dietary_restrictions) ]})] ->
  entry_matches (recipe_metadata r) (prefix +++ ("ingredients", value) :: rest)
  = Ok false.
Proof.
  intros [-> | ->]; cbn [app entry_matches].
  - now rewrite recipe_metadata_no_ingredients.
  - rewrite recipe_metadata_dietary_tags.
    unfold constraint_holds. rewrite lookup_singleton_eq. cbn [bind].
    destruct (existsb _ _); [|reflexivity].
    now rewrite recipe_metadata_no_ingredients.
Qed.

(** C10: an entry whose metadata lacks a constrained field passes no
    filter; the metadata built for the indexed recipes has no
    ['ingredients'] field, so whenever the allergy list yields a non-empty
    exclusion list the vector search returns no hit and the merged
    candidates, hence the returned results, are the synthetic ones only. *)
Theorem allergy_filter_drops_indexed_recipes :
  Forall (fun metadata => exists r, metadata = recipe_metadata r)
    (metadatas (vector_store p)) ->
  allergy_exclusions (data_processor p) allergies <> [] ->
  (forall metadata filter_dict,
      entry_matches metadata filter_dict = Ok true ->
      forall key value, In (key, value) filter_dict -> is_Some (metadata !! key))
  /\ (forall r, recipe_metadata r !! "ingredients" = None)
  /\ (exists filter_dict,
        _build_filter_dict (data_processor p) dietary_restrictions allergies
          health_conditions = Some filter_dict
        /\ In ("ingredients",
               Ops {[ "$not_contains" :=
                        OList (map SStr (allergy_exclusions (data_processor p)
                                           allergies)) ]}) filter_dict)
  /\ SimpleVectorStore.search_recipes (vector_store p) query (n_results * 2)
       (_build_filter_dict (data_processor p) dietary_restrictions allergies
          health_conditions)
     = Ok {| res_ids := []; res_documents := []; res_metadatas := [];
             res_distances := [] |}
  /\ analyzed_results p query dietary_restrictions allergies health_conditions
       n_results include_dynamic
     = Ok (dynamic_results p query dietary_restrictions allergies
             health_conditions n_results include_dynamic)
  /\ exists resp,
       search_recipes p query dietary_restrictions allergies health_conditions
         n_results include_dynamic = Ok resp
       /\ forall e, In e (results resp) ->
            synthetic_entry query dietary_restrictions allergies
              health_conditions n_results e.
Proof.
  intros Hmeta Hne.
  destruct (build_filter_dict_ingredients Hne) as (prefix & rest & Hfd & Hprefix).
  assert (Hsearch :
    SimpleVectorStore.search_recipes (vector_store p) query (n_results * 2)
      (_build_filter_dict (data_processor p) dietary_restrictions allergies
         health_conditions)
    = Ok {| res_ids := []; res_documents := []; res_metadatas := [];
            res_distances := [] |}).
  { rewrite Hfd.
    destruct (prefix +++ _ :: rest) as [|c cs] eqn:Hlist.
    { destruct prefix; discriminate. }
    apply StoreFacts.search_with_unmatched_filter.
    eapply Forall_impl; [exact Hmeta|].
    intros metadata [r ->]. rewrite <- Hlist.
    now apply recipe_metadata_fails_filter. }
  assert (Hmerged :
    analyzed_results p query dietary_restrictions allergies health_conditions
      n_results include_dynamic
    = Ok (dynamic_results p query dietary_restrictions allergies
            health_conditions n_results include_dynamic)).
  { unfold analyzed_results. rewrite Hsearch. reflexivity. }
  split; [exact StoreFacts.entry_matches_needs_every_key|].
  split; [exact recipe_metadata_no_ingredients|].
  split.
  { eexists. split; [exact Hfd|]. apply in_or_app. right. now left. }
  split; [exact Hsearch|]. split; [exact Hmerged|].
  unfold search_recipes. rewrite Hmerged. cbn [bind].
  eexists. split; [reflexivity|]. cbn [results].
  intros e He. apply slice_to_incl, unique_loop_incl in He.
  apply (Permutation_in _ (sort_desc_perm overall_score _)) in He.
  pose proof dynamic_results_entries as Hdyn.
  rewrite Forall_forall in Hdyn. apply Hdyn. now apply list_elem_of_In.
Qed.

End Orchestrator.

End PipelineFacts.

(** ** The orchestrator on the sample pipeline *)

Module Demo.

Import SimpleVectorStore RAGPipeline Spec Samples PipelineFacts.

Example vegetarian_search :
  match run_search indexed "tofu dinner" ["vegetarian"] [] [] 3 true with
  | Ok resp => (map summary (results resp), total_found resp)
  | _ => ([], 0%nat)
  end
  = ([ ("Lunch Tofu Indian Style", 4 # 5, 4 # 5);
       ("Dinner Tofu Thai Style", 4 # 5, 4 # 5);
       ("Tofu Rice Bowl", 3 # 5, 19 # 25) ], 4%nat).
Proof. vm_compute. reflexivity. Qed.

(** C3 (as stated it fails): the search returns an entry for a generated
    recipe with search score 0.8 and compatibility 1 whose overall score is
    0.8 and not 0.8 * 0.6 + 1 * 0.4 = 0.88. *)
Lemma synthetic_overall_score_not_fused :
  exists resp e,
    run_search indexed "tofu dinner" ["vegetarian"] [] [] 3 true = Ok resp
    /\ In e (results resp)
    /\ search_score e == 0.8
    /\ DietaryAnalyzer.overall_score (compatibility e) == 1
    /\ overall_score e == 0.8
    /\ ~ overall_score e
          == search_score e * 0.6
             + DietaryAnalyzer.overall_score (compatibility e) * 0.4.
Proof.
  destruct (run_search indexed "tofu dinner" ["vegetarian"] [] [] 3 true)
    as [resp|err|nonfinite] eqn:Hs; [|vm_compute in Hs; discriminate..].
  assert (Hcheck :
    existsb (fun e =>
               Qeq_bool (search_score e) 0.8
               && Qeq_bool (DietaryAnalyzer.overall_score (compatibility e)) 1
               && Qeq_bool (overall_score e) 0.8)%bool (results resp) = true).
  { vm_compute in Hs. inversion Hs; subst resp. vm_compute. reflexivity. }
  apply existsb_exists in Hcheck as (e & He & Hprops).
  apply andb_prop in Hprops as [Hprops Hoverall].
  apply andb_prop in Hprops as [Hscore Hcompat].
  apply Qeq_bool_iff in Hscore, Hcompat, Hoverall.
  exists resp, e. repeat (split; [first [reflexivity | assumption]|]).
  intros Hfused. rewrite Hscore, Hcompat, Hoverall in Hfused.
  vm_compute in Hfused. discriminate.
Qed.

Lemma search_scores_by_provenance_witness :
  exists resp,
    run_search indexed "tofu dinner" ["vegetarian"] [] [] 3 true = Ok resp
    /\ exists hits,
         forall e, In e (results resp) ->
           static_entry (res_distances hits) e
           \/ synthetic_entry (integrator := fixed_integrator) "tofu dinner"
                ["vegetarian"] [] [] 3 e.
Proof.
  destruct (run_search indexed "tofu dinner" ["vegetarian"] [] [] 3 true)
    as [resp|err|nonfinite] eqn:Hs; [|vm_compute in Hs; discriminate..].
  exists resp. split; [reflexivity|].
  destruct (search_scores_by_provenance (H := similarity_embedder)
              (H0 := fixed_integrator) (pipeline_with indexed) "tofu dinner"
              ["vegetarian"] [] [] 3 true resp Hs) as (hits & _ & Hall).
  exists hits. exact Hall.
Defined.

Lemma search_results_deduplicated_witness :
  exists resp,
    run_search indexed "tofu dinner" ["vegetarian"] [] [] 3 true = Ok resp
    /\ NoDup (map title_of (results resp)).
Proof.
  destruct (run_search indexed "tofu dinner" ["vegetarian"] [] [] 3 true)
    as [resp|err|nonfinite] eqn:Hs; [|vm_compute in Hs; discriminate..].
  exists resp. split; [reflexivity|].
  exact (proj1 (search_results_deduplicated (H := similarity_embedder)
                  (H0 := fixed_integrator) (pipeline_with indexed) "tofu dinner"
                  ["vegetarian"] [] [] 3 true resp Hs)).
Defined.

Lemma search_results_bounded_witness :
  exists resp,
    run_search indexed "tofu dinner" ["vegetarian"] [] [] 3 true = Ok resp
    /\ (Z.of_nat (length (results resp)) <= 3)%Z
    /\ (length (results resp) <= total_found resp)%nat.
Proof.
  destruct (run_search indexed "tofu dinner" ["vegetarian"] [] [] 3 true)
    as [resp|err|nonfinite] eqn:Hs; [|vm_compute in Hs; discriminate..].
  exists resp. split; [reflexivity|].
  apply (search_results_bounded (H := similarity_embedder)
           (H0 := fixed_integrator) (pipeline_with indexed) "tofu dinner"
           ["vegetarian"] [] [] 3 true resp); [lia | exact Hs].
Defined.

Lemma allergy_filter_drops_indexed_recipes_witness :
  SimpleVectorStore.search_recipes (H := similarity_embedder) indexed
    "tofu dinner" (3 * 2)
    (_build_filter_dict processor ["vegetarian"] ["soy"] [])
  = Ok {| res_ids := []; res_documents := []; res_metadatas := [];
          res_distances := [] |}
  /\ exists resp,
       run_search indexed "tofu dinner" ["vegetarian"] ["soy"] [] 3 true = Ok resp
       /\ forall e, In e (results resp) ->
            synthetic_entry (integrator := fixed_integrator) "tofu dinner"
              ["vegetarian"] ["soy"] [] 3 e.
Proof.
  destruct (allergy_filter_drops_indexed_recipes (H := similarity_embedder)
              (H0 := fixed_integrator) (pipeline_with indexed) "tofu dinner"
              ["vegetarian"] ["soy"] [] 3 true)
    as (_ & _ & _ & Hsearch & _ & Hresp).
  - apply Forall_forall. intros metadata Hin.
    apply list_elem_of_In in Hin. simpl in Hin.
    destruct Hin as [<- | [<- | []]]; eexists; reflexivity.
  - vm_compute. discriminate.
  - split; [exact Hsearch | exact Hresp].
Defined.

(** C5 (code defect): both returned hits have distance 0, so the largest
    distance is 0 and the quotient [distance / max(distances)] is evaluated
    with a zero divisor.  No guard and no default stands in for it: the
    operands are numpy scalars, the quotient is nan, and so is the search
    score [1 - nan] of the entry the loop builds for the first hit; the
    search goes on with nan scores, with and without generated recipes. *)
Theorem search_score_division_unguarded :
  SimpleVectorStore.search_recipes (H := similarity_embedder) exact_match
    "tofu bowl" (1 * 2) None
  = Ok {| res_ids := ["uuid-1"; "uuid-3"];
          res_documents := ["Title: Tofu Rice Bowl | Description: quick bowl";
                            "Title: Tofu Rice Bowl | Description: quick bowl"];
          res_metadatas := [recipe_metadata tofu_bowl; recipe_metadata tofu_bowl];
          res_distances := [1 - 1; 1 - 1] |}
  /\ _find_recipe_by_text processor
       "Title: Tofu Rice Bowl | Description: quick bowl" = Some tofu_bowl
  /\ max [1 - 1; 1 - 1] = Ok (1 - 1)
  /\ np_div (1 - 1) (1 - 1) = NaN
  /\ np_map (fun quotient => 1 - quotient) (np_div (1 - 1) (1 - 1)) = NaN
  /\ static_result (pipeline_with exact_match) [] [] []
       [1 - 1; 1 - 1]
       ("uuid-1", "Title: Tofu Rice Bowl | Description: quick bowl",
        recipe_metadata tofu_bowl, 1 - 1)
     = NonFinite NaN
  /\ run_search exact_match "tofu bowl" [] [] [] 1 true = NonFinite NaN
  /\ run_search exact_match "tofu bowl" [] [] [] 1 false = NonFinite NaN.
Proof. vm_compute. repeat split; reflexivity. Qed.

End Demo.

(* ===================================================================== *)
(** * Further properties of the code                                      *)
(* ===================================================================== *)

(** ** The compatibility analyzer *)

Module AnalyzerMore.

Import DietaryAnalyzer Samples AnalyzerFacts.

(** *** Matching *)

Lemma existsb_swap {A B : Type} (f : A -> B -> bool) (l1 : list A) (l2 : list B) :
  existsb (fun x => existsb (fun y => f x y) l2) l1
  = existsb (fun y => existsb (fun x => f x y) l1) l2.
Proof.
  induction l1 as [|x l1 IH]; simpl.
  - induction l2 as [|y l2 IH2]; simpl; [reflexivity | exact IH2].
  - rewrite IH. clear IH. induction l2 as [|y l2 IH2]; simpl; [reflexivity|].
    rewrite <- IH2. destruct (f x y), (existsb (f x) l2),
      (existsb (fun x0 => f x0 y) l1); reflexivity.
Qed.

Lemma existsb_pointwise {A : Type} (f g : A -> bool) (l : list A) :
  (forall x, f x = g x) -> existsb f l = existsb g l.
Proof.
  intros Hfg. induction l as [|x l IH]; simpl; [reflexivity|].
  now rewrite Hfg, IH.
Qed.

(** X1: the fuzzy match is symmetric in its two arguments, and every string
    matches itself. *)
Theorem ingredient_matches_symmetric (pattern ingredient : string) :
  _ingredient_matches pattern ingredient = _ingredient_matches ingredient pattern
  /\ _ingredient_matches pattern pattern = true.
Proof.
  split.
  - unfold _ingredient_matches.
    rewrite (String.eqb_sym ingredient pattern).
    rewrite (existsb_swap
               (fun pattern_word ingredient_word =>
                  (contains pattern_word ingredient_word
                   || contains ingredient_word pattern_word)%bool)
               (split pattern) (split ingredient)).
    assert (Hwords :
      existsb (fun y => existsb (fun x => (contains x y || contains y x)%bool)
                          (split pattern)) (split ingredient)
      = existsb (fun y => existsb (fun x => (contains y x || contains x y)%bool)
                            (split pattern)) (split ingredient)).
    { apply existsb_pointwise. intros y. apply existsb_pointwise. intros x.
      apply orb_comm. }
    rewrite Hwords.
    destruct (String.eqb pattern ingredient), (contains pattern ingredient),
      (contains ingredient pattern); reflexivity.
  - unfold _ingredient_matches. now rewrite String.eqb_refl.
Qed.

(** *** Score ranges *)

Lemma inject_succ (n : nat) :
  inject_Z (Z.of_nat (S n)) == inject_Z (Z.of_nat n) + 1.
Proof. rewrite Nat2Z.inj_succ. unfold Z.succ. rewrite inject_Z_plus. reflexivity. Qed.

Lemma inject_length_pos {A : Type} (x : A) (l : list A) :
  0 < inject_Z (Z.of_nat (length (x :: l))).
Proof. change 0 with (inject_Z 0). rewrite <- Zlt_Qlt. simpl length. lia. Qed.

Lemma sum_within (lo hi : Q) (xs : list Q) :
  Forall (fun x => lo <= x <= hi) xs ->
  lo * inject_Z (Z.of_nat (length xs)) <= sum xs
  /\ sum xs <= hi * inject_Z (Z.of_nat (length xs)).
Proof.
  intros Hall. unfold sum. rewrite sum_from.
  induction Hall as [|x xs [Hlo Hhi] _ [IHlo IHhi]].
  - simpl. change (inject_Z (Z.of_nat 0)) with 0. split; lra.
  - cbn [fold_right length]. rewrite inject_succ. split; lra.
Qed.

(** A mean of values between [lo] and [hi] lies between [lo] and [hi]. *)
Lemma mean_score_within {R : Type} (score : R -> Q) (lo hi : Q)
    (d : list (string * R)) :
  d <> [] ->
  Forall (fun v => lo <= score v <= hi) (dict_values d) ->
  lo <= mean_score score d <= hi.
Proof.
  intros Hne Hall. unfold mean_score. destruct d as [|item d]; [congruence|].
  pose proof (inject_length_pos item d) as Hn.
  assert (Hmap : Forall (fun x => lo <= x <= hi)
                   (map score (dict_values (item :: d)))).
  { apply Forall_forall. intros x Hx.
    apply list_elem_of_In, in_map_iff in Hx as (v & <- & Hv).
    rewrite Forall_forall in Hall. apply Hall. now apply list_elem_of_In. }
  destruct (sum_within lo hi _ Hmap) as [Hlo Hhi].
  unfold dict_values in Hlo, Hhi. rewrite !length_map in Hlo, Hhi.
  split.
  - apply Qle_shift_div_l; assumption.
  - apply Qle_shift_div_r; assumption.
Qed.

(** The values of the dictionary a check builds are results of the per-key
    check, and the dictionary is not empty when keys are listed. *)
Lemma built_dict {V : Type} (check : string -> V) (keys : list string) :
  let d := fold_left (fun d key => dict_set key (check key) d) keys [] in
  Forall (fun v => exists k, In k keys /\ v = check k) (dict_values d)
  /\ (keys <> [] -> d <> []).
Proof.
  cbn zeta. destruct (results_dict check keys []) as (Hfrom & Hkeys & _).
  split.
  - apply Forall_forall. intros v Hv.
    apply list_elem_of_In, in_map_iff in Hv as ([k v'] & Heq & Hin).
    simpl in Heq. subst v'. destruct (Hfrom k v Hin) as [[] | [Hk Hv]].
    now exists k.
  - intros Hne Hnil. destruct keys as [|k ks]; [congruence|].
    destruct (Hkeys k) as (v & Hin); [now left|].
    rewrite Hnil in Hin. contradiction.
Qed.

Lemma dimension_within {V : Type} (check : string -> V) (score : V -> Q)
    (lo hi : Q) (keys : list string) :
  keys <> [] ->
  (forall k, lo <= score (check k) <= hi) ->
  lo <= mean_score score
          (fold_left (fun d key => dict_set key (check key) d) keys []) <= hi.
Proof.
  intros Hne Hcheck. destruct (built_dict check keys) as [Hvals Hd].
  apply mean_score_within; [now apply Hd|].
  eapply Forall_impl; [exact Hvals|].
  intros v (k & _ & ->). apply Hcheck.
Qed.

Lemma restriction_score_range (a : DietaryAnalyzer.t) (recipe : Recipe)
    (restriction : string) :
  0 <= r_score (check_restriction a recipe restriction) <= 1.
Proof.
  unfold check_restriction. cbn [r_score].
  destruct (conflicting _ _); [|lra].
  destruct (mem restriction (dietary_tags recipe)); simpl; lra.
Qed.

Lemma allergy_score_range (a : DietaryAnalyzer.t) (recipe : Recipe)
    (allergy : string) :
  0 <= a_score (check_allergy a recipe allergy) <= 1.
Proof.
  unfold check_allergy. cbn [a_score]. destruct (length _ =? 0)%nat; lra.
Qed.

Lemma nutritional_content_range (info : gmap string Q)
    (recommended avoid : list string) :
  0 <= _analyze_nutritional_content info recommended avoid <= 1.
Proof.
  unfold _analyze_nutritional_content. cbn zeta. split.
  - apply Q.le_max_l.
  - apply Q.max_lub; [lra | apply Q.le_min_l].
Qed.

Lemma condition_score_range (a : DietaryAnalyzer.t) (recipe : Recipe)
    (condition : string) :
  0 <= h_score (check_condition a recipe condition) <= 1.
Proof.
  unfold check_condition. cbn [h_score].
  pose proof (nutritional_content_range (nutritional_info recipe)
                (from_option recommended_nutrients [] (health_conditions a !! condition))
                (from_option avoid_nutrients [] (health_conditions a !! condition)))
    as [Hlo Hhi].
  destruct (existsb _ _); unfold of_bool; lra.
Qed.

Lemma restriction_dimension_range (a : DietaryAnalyzer.t) (recipe : Recipe)
    (user_restrictions : list string) :
  0 <= compatibility_score (_check_dietary_restrictions a recipe user_restrictions)
  <= 1.
Proof.
  unfold _check_dietary_restrictions.
  destruct user_restrictions as [|first others] eqn:Hlist; [simpl; lra|].
  rewrite <- Hlist. cbn [compatibility_score].
  apply (dimension_within (check_restriction a recipe) r_score 0 1);
    [subst; discriminate | apply restriction_score_range].
Qed.

Lemma allergy_dimension_range (a : DietaryAnalyzer.t) (recipe : Recipe)
    (user_allergies : list string) :
  0 <= compatibility_score (_check_allergies a recipe user_allergies) <= 1.
Proof.
  unfold _check_allergies.
  destruct user_allergies as [|first others] eqn:Hlist; [simpl; lra|].
  rewrite <- Hlist. cbn [compatibility_score].
  apply (dimension_within (check_allergy a recipe) a_score 0 1);
    [subst; discriminate | apply allergy_score_range].
Qed.

Lemma health_dimension_range (a : DietaryAnalyzer.t) (recipe : Recipe)
    (user_health_conditions : list string) :
  0 <= compatibility_score (_check_health_conditions a recipe user_health_conditions)
  <= 1.
Proof.
  unfold _check_health_conditions.
  destruct user_health_conditions as [|first others] eqn:Hlist; [simpl; lra|].
  rewrite <- Hlist. cbn [compatibility_score].
  apply (dimension_within (check_condition a recipe) h_score 0 1);
    [subst; discriminate | apply condition_score_range].
Qed.

Lemma overall_score_range (a : DietaryAnalyzer.t) (recipe : Recipe)
    (user_restrictions user_allergies user_health_conditions : list string) :
  0 <= overall_score (analyze_recipe_compatibility a recipe user_restrictions
                        user_allergies user_health_conditions) <= 1.
Proof.
  unfold analyze_recipe_compatibility. cbn [overall_score].
  unfold _calculate_compatibility_score.
  pose proof (restriction_dimension_range a recipe user_restrictions).
  pose proof (allergy_dimension_range a recipe user_allergies).
  pose proof (health_dimension_range a recipe user_health_conditions).
  destruct (Qeq_bool _ 0); [lra|]. destruct (Qeq_bool _ 0); lra.
Qed.

(** X2: for every recipe and profile the three dimension scores and the
    overall score lie between 0 and 1. *)
Theorem compatibility_scores_in_unit_interval (a : DietaryAnalyzer.t)
    (recipe : Recipe)
    (user_restrictions user_allergies user_health_conditions : list string) :
  let r := analyze_recipe_compatibility a recipe user_restrictions
             user_allergies user_health_conditions in
  0 <= compatibility_score (restriction_compatibility r) <= 1
  /\ 0 <= compatibility_score (allergy_compatibility r) <= 1
  /\ 0 <= compatibility_score (health_compatibility r) <= 1
  /\ 0 <= overall_score r <= 1.
Proof.
  cbn zeta. split; [|split; [|split]].
  - apply restriction_dimension_range.
  - apply allergy_dimension_range.
  - apply health_dimension_range.
  - apply overall_score_range.
Qed.

(** *** Keys the guidelines do not know *)

Lemma sum_const (c : Q) (xs : list Q) :
  Forall (fun x => x == c) xs ->
  sum xs == c * inject_Z (Z.of_nat (length xs)).
Proof.
  intros Hall.
  assert (Hin : Forall (fun x => c <= x <= c) xs).
  { eapply Forall_impl; [exact Hall|]. intros x Hx. simpl in Hx. lra. }
  destruct (sum_within c c xs Hin). lra.
Qed.

Lemma dimension_const {V : Type} (check : string -> V) (score : V -> Q)
    (c : Q) (keys : list string) :
  keys <> [] ->
  (forall k, In k keys -> score (check k) == c) ->
  mean_score score (fold_left (fun d key => dict_set key (check key) d) keys [])
  == c.
Proof.
  intros Hne Hcheck. destruct (built_dict check keys) as [Hvals Hd].
  assert (Hwithin : c <= mean_score score
                           (fold_left (fun d key => dict_set key (check key) d) keys [])
                    <= c).
  { apply mean_score_within; [now apply Hd|].
    eapply Forall_impl; [exact Hvals|].
    intros v (k & Hk & ->). specialize (Hcheck k Hk). lra. }
  lra.
Qed.

Lemma conflicting_none (recipe_ingredients : list string) :
  conflicting [] recipe_ingredients = [].
Proof.
  unfold conflicting. induction recipe_ingredients as [|x l IH]; simpl;
    [reflexivity | exact IH].
Qed.

(** X3: keys that the guidelines do not list are not neutral throughout.
    Unknown allergies leave the allergy score at 1; an unknown restriction
    scores 1 when the recipe carries its tag and 0.5 otherwise; unknown
    health conditions give the health score 0.4.  The overall score is then
    [restriction * 0.4 + 0.4 + health * 0.2], at least 0.68. *)
Theorem unknown_keys_scores (a : DietaryAnalyzer.t) (recipe : Recipe)
    (user_restrictions user_allergies user_health_conditions : list string) :
  (forall k, In k user_restrictions -> restrictions a !! k = None) ->
  (forall k, In k user_allergies -> allergies a !! k = None) ->
  (forall k, In k user_health_conditions -> health_conditions a !! k = None) ->
  let r := analyze_recipe_compatibility a recipe user_restrictions
             user_allergies user_health_conditions in
  compatibility_score (allergy_compatibility r) == 1
  /\ 0.5 <= compatibility_score (restriction_compatibility r) <= 1
  /\ (user_health_conditions <> [] ->
      compatibility_score (health_compatibility r) == 0.4
      /\ dim_compatible (health_compatibility r) = false)
  /\ overall_score r
     == compatibility_score (restriction_compatibility r) * 0.4 + 0.4
        + compatibility_score (health_compatibility r) * 0.2
  /\ 0.68 <= overall_score r.
Proof.
  intros Hr Ha Hh. cbn zeta.
  unfold analyze_recipe_compatibility.
  cbn [allergy_compatibility restriction_compatibility health_compatibility
       overall_score].
  assert (Hallergy :
    compatibility_score (_check_allergies a recipe user_allergies) == 1).
  { unfold _check_allergies.
    destruct user_allergies as [|first others] eqn:Hlist; [reflexivity|].
    rewrite <- Hlist in *. cbn [compatibility_score].
    apply (dimension_const (check_allergy a recipe) a_score 1);
      [subst; discriminate|].
    intros k Hk. unfold check_allergy. rewrite (Ha k Hk). cbn [from_option].
    rewrite conflicting_none. reflexivity. }
  assert (Hrestriction :
    0.5 <= compatibility_score
             (_check_dietary_restrictions a recipe user_restrictions) <= 1).
  { unfold _check_dietary_restrictions.
    destruct user_restrictions as [|first others] eqn:Hlist; [simpl; lra|].
    rewrite <- Hlist in *. cbn [compatibility_score].
    destruct (built_dict (check_restriction a recipe) user_restrictions)
      as [Hvals Hd].
    apply mean_score_within; [apply Hd; subst; discriminate|].
    eapply Forall_impl; [exact Hvals|].
    intros v (k & Hk & ->). unfold check_restriction. rewrite (Hr k Hk).
    cbn [from_option r_score]. rewrite conflicting_none.
    destruct (mem k (dietary_tags recipe)); simpl; lra. }
  assert (Hcondition : forall k, In k user_health_conditions ->
            h_score (check_condition a recipe k) == 0.4).
  { intros k Hk. unfold check_condition. rewrite (Hh k Hk). reflexivity. }
  assert (Hhealth :
    user_health_conditions <> [] ->
    compatibility_score
      (_check_health_conditions a recipe user_health_conditions) == 0.4
    /\ dim_compatible
         (_check_health_conditions a recipe user_health_conditions) = false).
  { intros Hne. unfold _check_health_conditions.
    destruct user_health_conditions as [|first others] eqn:Hlist; [congruence|].
    rewrite <- Hlist in *. cbn [compatibility_score dim_compatible].
    pose proof (dimension_const (check_condition a recipe) h_score 0.4
                  user_health_conditions Hne Hcondition) as Hmean.
    split; [exact Hmean|].
    destruct (Qle_bool 0.6 _) eqn:Hb; [|reflexivity].
    apply Qle_bool_iff in Hb. exfalso. lra. }
  assert (Hhealth_low :
    0.4 <= compatibility_score
             (_check_health_conditions a recipe user_health_conditions)).
  { destruct user_health_conditions as [|first others] eqn:Hlist; [simpl; lra|].
    rewrite <- Hlist in *.
    destruct Hhealth as [Hmean _]; [subst; discriminate | lra]. }
  assert (Hoverall :
    _calculate_compatibility_score
      (_check_dietary_restrictions a recipe user_restrictions)
      (_check_allergies a recipe user_allergies)
      (_check_health_conditions a recipe user_health_conditions)
    == compatibility_score
         (_check_dietary_restrictions a recipe user_restrictions) * 0.4 + 0.4
       + compatibility_score
           (_check_health_conditions a recipe user_health_conditions) * 0.2).
  { unfold _calculate_compatibility_score.
    destruct (Qeq_bool (compatibility_score (_check_allergies _ _ _)) 0) eqn:Hza.
    { apply Qeq_bool_iff in Hza. exfalso. lra. }
    destruct (Qeq_bool (compatibility_score (_check_dietary_restrictions _ _ _)) 0)
      eqn:Hzr.
    { apply Qeq_bool_iff in Hzr. exfalso. lra. }
    rewrite Hallergy. lra. }
  split; [exact Hallergy|]. split; [exact Hrestriction|].
  split; [exact Hhealth|]. split; [exact Hoverall|].
  rewrite Hoverall. lra.
Qed.

Lemma unknown_keys_scores_at_sample :
  let r := analyze_recipe_compatibility sample_analyzer tofu_bowl
             ["paleo"] ["sesame"] ["gout"] in
  compatibility_score (allergy_compatibility r) == 1
  /\ compatibility_score (health_compatibility r) == 0.4
  /\ overall_score r == 0.68
  /\ overall_compatible r = false.
Proof.
  destruct (unknown_keys_scores sample_analyzer tofu_bowl
              ["paleo"] ["sesame"] ["gout"])
    as (Hallergy & _ & Hhealth & _ & _).
  - intros k [<- | []]. reflexivity.
  - intros k [<- | []]. reflexivity.
  - intros k [<- | []]. reflexivity.
  - split; [exact Hallergy|]. split; [apply Hhealth; discriminate|].
    split; vm_compute; reflexivity.
Defined.

(** *** Issues and suggestions *)

Lemma flat_map_length_pointwise {A B C : Type} (f : A -> list B) (g : A -> list C)
    (l : list A) :
  (forall x, length (f x) = length (g x)) ->
  length (flat_map f l) = length (flat_map g l).
Proof.
  intros Hfg. induction l as [|x l IH]; simpl; [reflexivity|].
  now rewrite !length_app, Hfg, IH.
Qed.

(** X4: the analysis returns exactly one suggestion per issue. *)
Theorem one_suggestion_per_issue (a : DietaryAnalyzer.t) (recipe : Recipe)
    (user_restrictions user_allergies user_health_conditions : list string) :
  let r := analyze_recipe_compatibility a recipe user_restrictions
             user_allergies user_health_conditions in
  length (suggestions r) = length (issues r).
Proof.
  cbn zeta. unfold analyze_recipe_compatibility. cbn [suggestions issues].
  unfold _generate_suggestions, _identify_issues.
  rewrite !length_app.
  f_equal; [|f_equal]; apply flat_map_length_pointwise.
  - intros [restriction result]. destruct (r_compatible result); [reflexivity|].
    destruct (r_conflicting_ingredients result); [|reflexivity].
    destruct (negb (r_has_restriction_tag result)); reflexivity.
  - intros [allergy result]. destruct (a_compatible result); [reflexivity|].
    destruct (a_conflicting_ingredients result); reflexivity.
  - intros [condition result]. destruct (h_compatible result); [reflexivity|].
    destruct (negb (h_has_recommended_benefits result)),
      (Qlt_bool (h_nutritional_score result) 0.5); reflexivity.
Qed.

(** *** Selecting the compatible recipes *)

(** X5: [get_compatible_recipes] returns, sorted by descending overall
    score, the analyses of exactly the recipes whose overall score reaches
    [min_score]. *)
Theorem compatible_recipes_selected_and_sorted (a : DietaryAnalyzer.t)
    (recipes : list Recipe)
    (user_restrictions user_allergies user_health_conditions : list string)
    (min_score : Q) :
  let analyse recipe :=
    analyze_recipe_compatibility a recipe user_restrictions user_allergies
      user_health_conditions in
  let out :=
    get_compatible_recipes a recipes user_restrictions user_allergies
      user_health_conditions min_score in
  StronglySorted (desc (fun x => overall_score (cr_compatibility x))) out
  /\ Permutation (map cr_recipe out)
       (List.filter (fun recipe => Qle_bool min_score (overall_score (analyse recipe)))
          recipes)
  /\ Forall (fun x => cr_compatibility x = analyse (cr_recipe x)
                      /\ min_score <= overall_score (cr_compatibility x)) out.
Proof.
  cbn zeta. unfold get_compatible_recipes.
  set (selected := flat_map _ recipes).
  split; [apply sort_desc_sorted|].
  assert (Hsel : map cr_recipe selected
                 = List.filter (fun recipe =>
                     Qle_bool min_score
                       (overall_score
                          (analyze_recipe_compatibility a recipe user_restrictions
                             user_allergies user_health_conditions))) recipes
                 /\ Forall (fun x =>
                      cr_compatibility x
                      = analyze_recipe_compatibility a (cr_recipe x)
                          user_restrictions user_allergies user_health_conditions
                      /\ min_score <= overall_score (cr_compatibility x)) selected).
  { unfold selected. clear selected.
    induction recipes as [|recipe l [IHmap IHall]];
      cbn [flat_map List.filter]; [split; [reflexivity|constructor]|].
    destruct (Qle_bool min_score _) eqn:Hmin; cbn [app map cr_recipe].
    - split; [now rewrite IHmap|]. constructor; [|exact IHall].
      cbn [cr_compatibility cr_recipe].
      split; [reflexivity | now apply Qle_bool_iff].
    - split; assumption. }
  destruct Hsel as [Hmap Hall]. split.
  - rewrite <- Hmap. apply Permutation_map, sort_desc_perm.
  - eapply Permutation_Forall; [|exact Hall].
    symmetry. apply sort_desc_perm.
Qed.

(** *** The allergy veto *)

(** X6: with at least one allergy listed, the allergy score is 0 exactly
    when every listed allergy conflicts with the recipe; in that case the
    overall score is 0 and the recipe is not compatible; the dimension's
    own flag is already false when one listed allergy conflicts. *)
Theorem allergy_veto_needs_every_allergy (a : DietaryAnalyzer.t) (recipe : Recipe)
    (user_restrictions user_allergies user_health_conditions : list string) :
  user_allergies <> [] ->
  let r := analyze_recipe_compatibility a recipe user_restrictions
             user_allergies user_health_conditions in
  (compatibility_score (allergy_compatibility r) == 0
   <-> forall allergy, In allergy user_allergies ->
         a_compatible (check_allergy a recipe allergy) = false)
  /\ ((forall allergy, In allergy user_allergies ->
         a_compatible (check_allergy a recipe allergy) = false) ->
      overall_score r == 0 /\ overall_compatible r = false).
Proof.
  intros Hne. cbn zeta. split.
  - apply (allergy_score_zero_iff a recipe user_allergies Hne).
  - now apply veto_when_every_allergy_conflicts.
Qed.

Lemma allergy_veto_needs_every_allergy_at_sample :
  let r := analyze_recipe_compatibility sample_analyzer tofu_bowl
             ["vegetarian"] ["soy"; "peanut"] [] in
  (compatibility_score (allergy_compatibility r) == 0
   <-> forall allergy, In allergy ["soy"; "peanut"] ->
         a_compatible (check_allergy sample_analyzer tofu_bowl allergy) = false)
  /\ ((forall allergy, In allergy ["soy"; "peanut"] ->
         a_compatible (check_allergy sample_analyzer tofu_bowl allergy) = false) ->
      overall_score r == 0 /\ overall_compatible r = false).
Proof.
  apply (allergy_veto_needs_every_allergy sample_analyzer tofu_bowl
           ["vegetarian"] ["soy"; "peanut"] []).
  discriminate.
Defined.

End AnalyzerMore.

(** ** The substitution engine *)

Module EngineMore.

Import SubstitutionEngine Spec Samples EngineFacts Float64Facts SimilarityFacts.

(** *** Compatibility of a substitute *)

Lemma substitution_compatibility_range (e : SubstitutionEngine.t)
    (substitute : string) (restrictions allergies : list string) :
  0 <= _calculate_substitution_compatibility e substitute restrictions allergies
  <= 1.
Proof.
  unfold _calculate_substitution_compatibility.
  destruct restrictions, allergies; try (split; lra);
    (split; [apply Q.le_max_l | apply Q.max_lub; [lra | apply Q.le_min_l]]).
Qed.

Lemma allergen_compatibility_zero (e : SubstitutionEngine.t)
    (substitute : string) (restrictions allergies : list string) :
  is_allergen e allergies substitute ->
  _calculate_substitution_compatibility e substitute restrictions allergies == 0.
Proof.
  intros (allergy & Hin & Hmem).
  unfold _calculate_substitution_compatibility.
  assert (Hhit : existsb (fun allergy0 =>
            mem (lower substitute)
              (map lower
                 (from_option incompatible_ingredients []
                    (Data.allergies (dietary_guidelines e) !! allergy0))))
            allergies = true).
  { apply existsb_exists. exists allergy. split; assumption. }
  destruct restrictions, allergies; try contradiction;
    cbn zeta; rewrite Hhit; reflexivity.
Qed.

Lemma dict_get_listed {V : Type} (d : list (string * V)) (k : string) (v : V) :
  In (k, v) d -> is_Some (dict_get k d).
Proof.
  induction d as [|[k0 v0] l IH]; intros Hin; [contradiction|].
  simpl. destruct (String.eqb k k0) eqn:Hk; [eauto|].
  destruct Hin as [Heq | Hin]; [|now apply IH].
  inversion Heq; subst. rewrite String.eqb_refl in Hk. discriminate.
Qed.

Lemma ingredient_based_options (e : SubstitutionEngine.t) (ingredient : string)
    (restrictions allergies : list string) :
  Forall (fun o =>
            original_ingredient o = ingredient
            /\ substitute_name o <> ingredient
            /\ is_Some (dict_get (substitute_name o) (ingredients e))
            /\ compatibility_score o
               = _calculate_substitution_compatibility e (substitute_name o)
                   restrictions allergies
            /\ 0.5 < compatibility_score o
            /\ 0.3 < nutritional_similarity o
            /\ ratio o = "1:1")
    (_find_ingredient_based_substitutions e ingredient restrictions allergies).
Proof.
  unfold _find_ingredient_based_substitutions.
  pose proof (dict_get_listed (ingredients e)) as Hkeys.
  apply Forall_forall. intros o Ho.
  apply list_elem_of_In, in_flat_map in Ho as ([substitute data] & Hin & Ho).
  destruct (String.eqb substitute ingredient) eqn:Hsame; [contradiction|].
  destruct (Qlt_bool 0.5 _) eqn:Hcompat; [|contradiction].
  destruct (Float64.ltb 0.3 _) eqn:Hsim; [|contradiction].
  destruct Ho as [<- | []]. cbn.
  apply String.eqb_neq in Hsame. apply Qlt_bool_iff in Hcompat.
  apply Float64Facts.ltb_representable in Hsim;
    [|apply nutritional_similarity_representable].
  repeat split; try assumption. now apply (Hkeys substitute data).
Qed.

Lemma boost_candidates (e : SubstitutionEngine.t) (recipe : Recipe)
    (nutrient : string) (deficit : Q) (restrictions allergies : list string) :
  Forall (fun s =>
            exists ingredient_name value compatibility text,
              s = add_ingredient ingredient_name nutrient value compatibility text
              /\ is_Some (dict_get ingredient_name (ingredients e))
              /\ 0 < value
              /\ compatibility
                 = _calculate_substitution_compatibility e ingredient_name
                     restrictions allergies
              /\ 0.7 < compatibility)
    (_find_nutrient_boost_suggestions e recipe nutrient deficit restrictions
       allergies).
Proof.
  unfold _find_nutrient_boost_suggestions.
  pose proof (dict_get_listed (ingredients e)) as Hkeys.
  apply Forall_forall. intros s Hs.
  apply list_elem_of_In, slice_to_incl in Hs.
  apply (Permutation_in _ (sort_desc_perm nutrient_value_of _)) in Hs.
  apply in_flat_map in Hs as ([ingredient_name data] & Hin & Hs).
  destruct (Qlt_bool 0 _) eqn:Hvalue; [|contradiction].
  destruct (Qlt_bool 0.7 _) eqn:Hcompat; [|contradiction].
  destruct Hs as [<- | []].
  apply Qlt_bool_iff in Hvalue, Hcompat.
  eexists _, _, _, _. split; [reflexivity|].
  split; [now apply (Hkeys ingredient_name data)|].
  repeat split; assumption.
Qed.

(** X7: an ingredient that the guidelines list as incompatible with one of
    the user's allergies has compatibility 0; it is never among the
    substitutions drawn from the nutrient database and never among the
    ingredients suggested to boost a nutrient. *)
Theorem allergens_never_proposed (e : SubstitutionEngine.t)
    (restrictions allergies : list string) (allergen : string) :
  is_allergen e allergies allergen ->
  _calculate_substitution_compatibility e allergen restrictions allergies == 0
  /\ (forall ingredient o,
        In o (_find_ingredient_based_substitutions e ingredient restrictions
                allergies) ->
        substitute_name o <> allergen)
  /\ (forall recipe nutrient deficit s,
        In s (_find_nutrient_boost_suggestions e recipe nutrient deficit
                restrictions allergies) ->
        suggested_ingredient s <> allergen).
Proof.
  intros Hallergen.
  pose proof (allergen_compatibility_zero e allergen restrictions allergies
                Hallergen) as Hzero.
  split; [exact Hzero|]. split.
  - intros ingredient o Ho Hname.
    pose proof (ingredient_based_options e ingredient restrictions allergies)
      as Hall.
    rewrite Forall_forall in Hall. apply list_elem_of_In in Ho.
    destruct (Hall o Ho) as (_ & _ & _ & Hcompat & Hhalf & _).
    rewrite Hcompat, Hname in Hhalf. lra.
  - intros recipe nutrient deficit s Hs Hname.
    pose proof (boost_candidates e recipe nutrient deficit restrictions allergies)
      as Hall.
    rewrite Forall_forall in Hall. apply list_elem_of_In in Hs.
    destruct (Hall s Hs) as (name0 & value & compat & text & -> & _ & _ & Hcompat & Hhigh).
    simpl in Hname. subst name0. rewrite Hcompat in Hhigh. lra.
Qed.

Lemma allergens_never_proposed_at_sample :
  _calculate_substitution_compatibility soy_engine "tofu" ["vegan"] ["soy"] == 0
  /\ (forall ingredient o,
        In o (_find_ingredient_based_substitutions soy_engine ingredient ["vegan"]
                ["soy"]) ->
        substitute_name o <> "tofu")
  /\ (forall recipe nutrient deficit s,
        In s (_find_nutrient_boost_suggestions soy_engine recipe nutrient deficit
                ["vegan"] ["soy"]) ->
        suggested_ingredient s <> "tofu").
Proof.
  apply (allergens_never_proposed soy_engine ["vegan"] ["soy"] "tofu").
  exists "soy". split; [now left | reflexivity].
Defined.

(** *** Nutritional similarity *)

(** X8: the nutritional similarity of two database entries lies between 0
    and 1 and does not depend on the order of its arguments. *)
Theorem nutritional_similarity_range_and_symmetry
    (nutrition1 nutrition2 : IngredientData) :
  0 <= _calculate_nutritional_similarity nutrition1 nutrition2 <= 1
  /\ _calculate_nutritional_similarity nutrition1 nutrition2
     == _calculate_nutritional_similarity nutrition2 nutrition1.
Proof.
  unfold _calculate_nutritional_similarity. split.
  - destruct (negb (ing_truthy nutrition1) || negb (ing_truthy nutrition2))%bool;
      [split; lra|].
    set (similarities := flat_map _ nutrients).
    assert (Hall : Forall (fun x => 0 <= x <= 1) similarities).
    { apply Forall_forall. intros x Hx.
      apply list_elem_of_In, in_flat_map in Hx as (nutrient & _ & Hx).
      cbn zeta in Hx.
      destruct (Float64.ltb 0 _) eqn:H1; [|contradiction].
      destruct (Float64.ltb 0 (from_option _ 0 (ing_top nutrition2 !! nutrient)))
        eqn:H2; [|contradiction].
      destruct Hx as [<- | []]. now apply similarity_term_range. }
    assert (Hlen : (length similarities <= 5)%nat).
    { subst similarities. apply (flat_map_length_le _ nutrients). intros nutrient.
      cbv zeta. destruct (_ && _)%bool; cbn; lia. }
    destruct similarities as [|x xs] eqn:Hlist; [split; lra|].
    rewrite <- Hlist in *. apply mean_range; try assumption.
    + rewrite Hlist. discriminate.
    + change (2 ^ 53)%Z with 9007199254740992%Z. lia.
  - rewrite (orb_comm (negb (ing_truthy nutrition2))).
    destruct (negb (ing_truthy nutrition1) || negb (ing_truthy nutrition2))%bool;
      [reflexivity|].
    set (similarities1 := flat_map _ nutrients).
    set (similarities2 := flat_map _ nutrients).
    assert (Hterms : similarities1 = similarities2).
    { subst similarities1 similarities2.
      induction nutrients as [|nutrient others IH]; cbn [flat_map];
        [reflexivity|].
      cbv zeta. rewrite IH, similarity_term_sym.
      now rewrite (andb_comm (Float64.ltb 0 (from_option _ 0 (ing_top nutrition1 !! nutrient)))). }
    rewrite Hterms. reflexivity.
Qed.

(** *** Direct substitutions *)

(** A candidate at the threshold: [1 - 7 / 10] is 0.30000000000000004 as
    a float, above 0.3, and the entry is offered. *)
Example candidate_at_the_similarity_threshold :
  _calculate_nutritional_similarity (ingredient_entry threshold_engine "rice")
    (ingredient_entry threshold_engine "oats")
  == 5404319552844596 # 18014398509481984
  /\ 0.3 < _calculate_nutritional_similarity
             (ingredient_entry threshold_engine "rice")
             (ingredient_entry threshold_engine "oats")
  /\ map substitute_name (find_substitutions threshold_engine "rice" [] [])
     = ["oats"].
Proof. vm_compute. repeat split; reflexivity. Qed.

(** X9: every substitute that the guidelines list for the normalised
    ingredient is among the returned options, whatever its scores, and the
    returned list is a permutation of these options followed by the
    options that [_find_ingredient_based_substitutions] returns for the
    normalised name. *)
Theorem direct_substitutes_always_offered (e : SubstitutionEngine.t)
    (ingredient : string) (restrictions allergies : list string)
    (direct : list SubstituteInfo) (substitute : SubstituteInfo) :
  substitutions e !! _normalize_ingredient_name ingredient = Some direct ->
  In substitute direct ->
  In (_create_substitution_option e ingredient substitute restrictions allergies)
     (find_substitutions e ingredient restrictions allergies)
  /\ Permutation (find_substitutions e ingredient restrictions allergies)
       (map (fun listed =>
               _create_substitution_option e ingredient listed restrictions
                 allergies) direct
        +++ _find_ingredient_based_substitutions e
              (_normalize_ingredient_name ingredient) restrictions allergies).
Proof.
  intros Hdirect Hin. unfold find_substitutions. rewrite Hdirect. cbn zeta.
  cbn [from_option]. split.
  - apply (Permutation_in _ (Permutation_sym (sort_desc_perm compatibility_score _))).
    apply in_or_app. left. apply in_map_iff. exists substitute.
    split; [reflexivity | assumption].
  - apply sort_desc_perm.
Qed.

Lemma direct_substitutes_always_offered_at_sample :
  In (_create_substitution_option soy_engine "2 cup fresh Chicken"
        {| sub_name := "tofu"; sub_ratio := "1:1"; sub_notes := "press first" |}
        [] ["soy"])
     (find_substitutions soy_engine "2 cup fresh Chicken" [] ["soy"])
  /\ Permutation (find_substitutions soy_engine "2 cup fresh Chicken" [] ["soy"])
       (map (fun listed =>
               _create_substitution_option soy_engine "2 cup fresh Chicken"
                 listed [] ["soy"])
            [ {| sub_name := "tofu"; sub_ratio := "1:1";
                 sub_notes := "press first" |} ]
        +++ _find_ingredient_based_substitutions soy_engine
              (_normalize_ingredient_name "2 cup fresh Chicken") [] ["soy"]).
Proof.
  apply (direct_substitutes_always_offered soy_engine "2 cup fresh Chicken"
           [] ["soy"]).
  - reflexivity.
  - now left.
Defined.

(** *** Suggestions of the nutrition optimisation *)

Lemma strongly_sorted_take {A : Type} (R : A -> A -> Prop) (n : nat) (l : list A) :
  StronglySorted R l -> StronglySorted R (take n l).
Proof.
  revert n. induction l as [|x l IH]; intros [|n] Hs; simpl; try constructor.
  - inversion Hs; subst. now apply IH.
  - inversion Hs as [|? ? _ Hall]; subst.
    apply Forall_forall. intros y Hy. rewrite Forall_forall in Hall.
    apply Hall. eapply subseteq_take. exact Hy.
Qed.

Lemma strongly_sorted_slice {A : Type} (R : A -> A -> Prop) (n : Z) (l : list A) :
  StronglySorted R l -> StronglySorted R (slice_to n l).
Proof.
  intros Hs. unfold slice_to. destruct (0 <=? n)%Z; now apply strongly_sorted_take.
Qed.

Lemma slice_to_three {A : Type} (l : list A) : (length (slice_to 3 l) <= 3)%nat.
Proof. pose proof (slice_to_length 3 l). lia. Qed.

(** X10: the boost search returns at most three suggestions, in
    non-increasing order of the nutrient value; each one adds an ingredient
    of the database that carries the nutrient and is compatible above 0.7;
    the recipe and the size of the deficit play no part. *)
Theorem boost_suggestions_shape (e : SubstitutionEngine.t) (recipe : Recipe)
    (nutrient : string) (deficit : Q) (restrictions allergies : list string) :
  let found :=
    _find_nutrient_boost_suggestions e recipe nutrient deficit restrictions
      allergies in
  (length found <= 3)%nat
  /\ StronglySorted (desc nutrient_value_of) found
  /\ Forall (fun s =>
       exists ingredient_name value compatibility text,
         s = add_ingredient ingredient_name nutrient value compatibility text
         /\ is_Some (dict_get ingredient_name (ingredients e))
         /\ 0 < value
         /\ 0.7 < compatibility) found
  /\ (forall other_recipe other_deficit,
        _find_nutrient_boost_suggestions e other_recipe nutrient other_deficit
          restrictions allergies = found).
Proof.
  cbn zeta. split; [|split; [|split]].
  - apply slice_to_three.
  - apply strongly_sorted_slice, sort_desc_sorted.
  - pose proof (boost_candidates e recipe nutrient deficit restrictions allergies)
      as Hall.
    eapply Forall_impl; [exact Hall|].
    intros s (ingredient_name & value & compatibility & text & Hs & Hkey & Hvalue
              & _ & Hcompat).
    exists ingredient_name, value, compatibility, text. repeat split; assumption.
  - reflexivity.
Qed.

(** X11: the reduction search returns at most three suggestions, in
    non-increasing order of the reduction; each one replaces an ingredient
    of the recipe by one of the first two options of [find_substitutions]
    for it, carries that option's compatibility, and reduces the nutrient
    by a positive amount, the gap between the two database values. *)
Theorem reduction_suggestions_shape (e : SubstitutionEngine.t) (recipe : Recipe)
    (nutrient : string) (excess : Q) (restrictions allergies : list string) :
  let found :=
    _find_nutrient_reduction_suggestions e recipe nutrient excess restrictions
      allergies in
  (length found <= 3)%nat
  /\ StronglySorted (desc reduction_of) found
  /\ Forall (fun s =>
       exists ingredient option text,
         s = substitute_ingredient (name ingredient) (substitute_name option)
               nutrient
               (nutrition_value (ingredient_entry e (name ingredient)) nutrient
                - nutrition_value (ingredient_entry e (substitute_name option))
                    nutrient)
               (compatibility_score option) text
         /\ In ingredient (Data.ingredients recipe)
         /\ In option
              (slice_to 2
                 (find_substitutions e (name ingredient) restrictions allergies))
         /\ 0 < reduction_of s) found.
Proof.
  cbn zeta. split; [|split].
  - apply slice_to_three.
  - apply strongly_sorted_slice, sort_desc_sorted.
  - apply Forall_forall. intros s Hs.
    unfold _find_nutrient_reduction_suggestions in Hs.
    apply list_elem_of_In, slice_to_incl in Hs.
    apply (Permutation_in _ (sort_desc_perm reduction_of _)) in Hs.
    apply in_flat_map in Hs as (ingredient & Hin & Hs). cbn zeta in Hs.
    destruct (Qlt_bool 0 _) eqn:Hvalue; [|contradiction].
    apply in_flat_map in Hs as (option & Hoption & Hs).
    destruct (Qlt_bool _ _) eqn:Hless in Hs; [|contradiction].
    destruct Hs as [<- | []]. apply Qlt_bool_iff in Hless.
    eexists ingredient, option, _. split; [reflexivity|].
    repeat split; try assumption. cbn [reduction_of]. lra.
Qed.




End EngineMore.

(** ** The vector store *)

Module StoreMore.

Import SimpleVectorStore Spec Samples StoreFacts.

(** *** Indexing and enumeration *)

Lemma map_r_index_spec {A : Type} (l : list A) (indices : list nat) (out : list A) :
  map_r (index l) indices = Ok out
  <-> Forall2 (fun i x => l !! i = Some x) indices out.
Proof.
  revert out. induction indices as [|i indices IH]; intros out; simpl.
  - split.
    + intros [= <-]. constructor.
    + intros Hall. inversion Hall. reflexivity.
  - unfold index at 1. destruct (l !! i) as [x|] eqn:Hx; simpl.
    + destruct (map_r (index l) indices) as [ys|err|nonfinite] eqn:Hys; simpl.
      * split.
        -- intros [= <-]. constructor; [assumption|]. now apply IH.
        -- intros Hall. inversion Hall as [|? y ? ys' Hy Hrest]; subst.
           apply IH in Hrest. congruence.
      * split; [discriminate|].
        intros Hall. inversion Hall as [|? y ? ys' Hy Hrest]; subst.
        apply IH in Hrest. congruence.
      * split; [discriminate|].
        intros Hall. inversion Hall as [|? y ? ys' Hy Hrest]; subst.
        apply IH in Hrest. congruence.
    + split; [discriminate|].
      intros Hall. inversion Hall; subst. congruence.
Qed.

Lemma enumerate_from {A : Type} (l : list A) (n i : nat) (x : A) :
  In (i, x) (combine (seq n (length l)) l)
  <-> (n <= i)%nat /\ l !! (i - n)%nat = Some x.
Proof.
  revert n. induction l as [|a l IH]; intros n; simpl.
  - split; [contradiction | intros [_ Hl]; discriminate].
  - rewrite IH. split.
    + intros [Heq | [Hle Hl]].
      * inversion Heq; subst. split; [lia|]. now rewrite Nat.sub_diag.
      * split; [lia|]. replace (i - n)%nat with (S (i - S n)) by lia. exact Hl.
    + intros [Hle Hl]. destruct (decide (i = n)) as [->|Hne].
      * left. rewrite Nat.sub_diag in Hl. simpl in Hl. congruence.
      * right. split; [lia|].
        replace (i - n)%nat with (S (i - S n)) in Hl by lia. exact Hl.
Qed.

Lemma enumerate_lookup {A : Type} (l : list A) (i : nat) (x : A) :
  In (i, x) (enumerate l) <-> l !! i = Some x.
Proof.
  unfold enumerate. rewrite enumerate_from, Nat.sub_0_r. split.
  - now intros [_ Hl].
  - intros Hl. split; [lia | assumption].
Qed.

Lemma enumerate_fst {A : Type} (l : list A) :
  map fst (enumerate l) = seq 0 (length l).
Proof.
  unfold enumerate. generalize 0%nat.
  induction l as [|a l IH]; intros n; simpl; [reflexivity|]. now rewrite IH.
Qed.

Lemma nodup_map_filter {A B : Type} (f : A -> B) (p : A -> bool) (l : list A) :
  NoDup (map f l) -> NoDup (map f (List.filter p l)).
Proof.
  induction l as [|x l IH]; simpl; intros Hnd; [constructor|].
  apply NoDup_cons in Hnd as [Hnotin Hnd].
  destruct (p x); [|now apply IH]. simpl. apply NoDup_cons. split; [|now apply IH].
  intros Hin. apply Hnotin.
  apply list_elem_of_In, in_map_iff in Hin as (y & Hy & Hin).
  apply filter_In in Hin as [Hin _].
  apply list_elem_of_In, in_map_iff. now exists y.
Qed.

Lemma strongly_sorted_filter {A : Type} (R : A -> A -> Prop) (p : A -> bool)
    (l : list A) :
  StronglySorted R l -> StronglySorted R (List.filter p l).
Proof.
  induction 1 as [|x l _ IH Hall]; simpl; [constructor|].
  destruct (p x); [|exact IH]. constructor; [exact IH|].
  apply Forall_forall. intros y Hy. rewrite Forall_forall in Hall.
  apply Hall. apply list_elem_of_In in Hy. apply filter_In in Hy as [Hy _].
  now apply list_elem_of_In.
Qed.

Lemma distances_ascending (top : list (nat * Q)) :
  StronglySorted (desc snd) top ->
  StronglySorted Qle (map (fun '(_, sim) => 1 - sim) top).
Proof.
  induction 1 as [|[i s] l _ IH Hall]; simpl; constructor; [exact IH|].
  apply Forall_forall. intros d Hd.
  apply list_elem_of_In, in_map_iff in Hd as ([j s'] & <- & Hin).
  rewrite Forall_forall in Hall. apply list_elem_of_In in Hin.
  specialize (Hall _ Hin). unfold desc in Hall. simpl in Hall. lra.
Qed.

(** *** The filter loop *)

Lemma apply_filters_loop_sound (filter_dict : list (string * constraint))
    (items : list (nat * gmap string meta_value)) (acc out : list nat) :
  for_each (fun matching_indices '(i, metadata) =>
              do b <- entry_matches metadata filter_dict;
              Ok (if b then matching_indices +++ [i] else matching_indices))
           items acc = Ok out ->
  forall i, i ∈ out <->
    i ∈ acc \/ exists metadata,
                 In (i, metadata) items
                 /\ entry_matches metadata filter_dict = Ok true.
Proof.
  revert acc. induction items as [|[j m] items IH]; intros acc Hloop i; simpl in Hloop.
  - inversion Hloop; subst. split; [now left|].
    intros [Hacc | (m & [] & _)]. exact Hacc.
  - destruct (entry_matches m filter_dict) as [b|err|nonfinite] eqn:Hm; simpl in Hloop;
      [|discriminate..].
    rewrite (IH _ Hloop i). split.
    + intros [Hacc | (m' & Hin & Hm')].
      * destruct b; [|now left].
        apply elem_of_app in Hacc as [Hacc | Hlast]; [now left|].
        apply list_elem_of_singleton in Hlast. subst j.
        right. exists m. split; [now left | assumption].
      * right. exists m'. split; [now right | assumption].
    + intros [Hacc | (m' & [Heq | Hin] & Hm')].
      * left. destruct b; [|assumption]. apply elem_of_app. now left.
      * inversion Heq; subst. rewrite Hm' in Hm. inversion Hm; subst.
        left. apply elem_of_app. right. now apply list_elem_of_singleton.
      * right. exists m'. split; assumption.
Qed.

Lemma apply_filters_sound {E : Type} (store : t E)
    (filter_dict : list (string * constraint)) (out : list nat) :
  _apply_filters store filter_dict = Ok out ->
  forall i, i ∈ out <->
    exists metadata,
      metadatas store !! i = Some metadata
      /\ entry_matches metadata filter_dict = Ok true.
Proof.
  intros Hloop i. unfold _apply_filters in Hloop.
  rewrite (apply_filters_loop_sound _ _ _ _ Hloop i). split.
  - intros [Hnil | (m & Hin & Hm)]; [now apply not_elem_of_nil in Hnil|].
    exists m. split; [now apply enumerate_lookup | assumption].
  - intros (m & Hin & Hm). right. exists m.
    split; [now apply enumerate_lookup | assumption].
Qed.

(** *** What a search returns *)

(** The hits of a search are rows of the store: [top] lists the row numbers
    with their similarities, best first and no row twice. *)
Lemma search_recipes_rows {E : Type} `{Embedder E} (store : t E) (query : string)
    (n_results : Z) (filter_dict : option (list (string * constraint)))
    (sr : SearchResults) :
  search_recipes store query n_results filter_dict = Ok sr ->
  exists candidates : list (nat * Q),
    let top := slice_to n_results candidates in
    StronglySorted (desc snd) candidates
    /\ NoDup (map fst candidates)
    /\ (forall i sim, In (i, sim) candidates ->
          exists e,
            embeddings store !! i = Some e
            /\ sim = _cosine_similarity (_text_to_simple_embedding query) e)
    /\ (forall c cs, filter_dict = Some (c :: cs) ->
          forall i sim, In (i, sim) candidates ->
            exists metadata,
              metadatas store !! i = Some metadata
              /\ entry_matches metadata (c :: cs) = Ok true)
    /\ (forall i e,
          embeddings store !! i = Some e ->
          (forall c cs, filter_dict = Some (c :: cs) ->
             exists metadata,
               metadatas store !! i = Some metadata
               /\ entry_matches metadata (c :: cs) = Ok true) ->
          In (i, _cosine_similarity (_text_to_simple_embedding query) e)
             candidates)
    /\ Forall2 (fun i x => ids store !! i = Some x) (map fst top) (res_ids sr)
    /\ Forall2 (fun i x => documents store !! i = Some x) (map fst top)
         (res_documents sr)
    /\ Forall2 (fun i x => metadatas store !! i = Some x) (map fst top)
         (res_metadatas sr)
    /\ res_distances sr = map (fun '(_, sim) => 1 - sim) top.
Proof.
  unfold search_recipes. cbn zeta.
  set (scored := map _ (enumerate (embeddings store))).
  assert (Hfst : map fst scored = seq 0 (length (embeddings store))).
  { unfold scored. rewrite map_map, <- enumerate_fst.
    apply map_ext. now intros [i e]. }
  assert (Hscored : forall i sim, In (i, sim) scored ->
            exists e, embeddings store !! i = Some e
              /\ sim = _cosine_similarity (_text_to_simple_embedding query) e).
  { intros i sim Hin. apply in_map_iff in Hin as ([j e] & Heq & Hin).
    inversion Heq; subst. exists e. split; [now apply enumerate_lookup | reflexivity]. }
  assert (Hback : forall i e, embeddings store !! i = Some e ->
            In (i, _cosine_similarity (_text_to_simple_embedding query) e) scored).
  { intros i e He. apply in_map_iff. exists (i, e).
    split; [reflexivity | now apply enumerate_lookup]. }
  pose proof (sort_desc_perm snd scored) as Hperm.
  pose proof (sort_desc_sorted snd scored) as Hsorted.
  set (sorted := sort_desc snd scored) in *.
  assert (Hnodup : NoDup (map fst sorted)).
  { apply (Permutation_map fst) in Hperm. rewrite Hperm, Hfst. apply NoDup_seq. }
  intros Hsearch.
  destruct (match filter_dict with
            | Some (c :: cs) =>
                do filtered_indices <- _apply_filters store (c :: cs);
                Ok (List.filter
                      (fun '(i, _) => bool_decide (i ∈ filtered_indices)) sorted)
            | _ => Ok sorted
            end) as [candidates|err|nonfinite] eqn:Hcandidates; [|discriminate..].
  cbn [bind] in Hsearch.
  destruct (map_r (index (ids store)) _) as [r_ids|err|nonfinite] eqn:Hids; [|discriminate..].
  destruct (map_r (index (documents store)) _) as [r_documents|err|nonfinite] eqn:Hdocuments;
    [|discriminate..].
  destruct (map_r (index (metadatas store)) _) as [r_metadatas|err|nonfinite] eqn:Hmetadatas;
    [|discriminate..].
  cbn [bind] in Hsearch. inversion Hsearch; subst sr; clear Hsearch.
  cbn [res_ids res_documents res_metadatas res_distances].
  apply map_r_index_spec in Hids, Hdocuments, Hmetadatas.
  exists candidates. cbn zeta.
  assert (Hsub : (exists filtered_indices,
                    filter_dict <> None
                    /\ (forall c cs, filter_dict = Some (c :: cs) ->
                          _apply_filters store (c :: cs) = Ok filtered_indices)
                    /\ candidates
                       = List.filter
                           (fun '(i, _) => bool_decide (i ∈ filtered_indices))
                           sorted
                    /\ exists c cs, filter_dict = Some (c :: cs))
                 \/ (candidates = sorted
                     /\ forall c cs, filter_dict <> Some (c :: cs))).
  { destruct filter_dict as [[|c cs]|].
    - right. inversion Hcandidates. split; [reflexivity | congruence].
    - left. destruct (_apply_filters store (c :: cs)) as [found|err|nonfinite] eqn:Hfound;
        [|discriminate..].
      cbn [bind] in Hcandidates. inversion Hcandidates.
      exists found. split; [congruence|]. split; [|split; [reflexivity | eauto]].
      intros c' cs' Heq. inversion Heq; subst. exact Hfound.
    - right. inversion Hcandidates. split; [reflexivity | congruence]. }
  destruct Hsub as [(found & _ & Hfound & -> & c0 & cs0 & Hfilter) | [-> Hnone]].
  - split; [now apply strongly_sorted_filter|].
    split; [now apply nodup_map_filter|].
    split.
    { intros i sim Hin. apply filter_In in Hin as [Hin _].
      apply (Hscored i sim). apply (Permutation_in _ Hperm). exact Hin. }
    split.
    { intros c cs Heq i sim Hin. apply filter_In in Hin as [_ Hin].
      apply bool_decide_eq_true_1 in Hin.
      now apply (apply_filters_sound store (c :: cs) found (Hfound c cs Heq)). }
    split.
    { intros i e He Hpass. apply filter_In. split.
      - apply (Permutation_in _ (Permutation_sym Hperm)). now apply Hback.
      - apply bool_decide_eq_true_2.
        apply (apply_filters_sound store (c0 :: cs0) found (Hfound c0 cs0 Hfilter)).
        now apply Hpass. }
    repeat split; assumption.
  - split; [assumption|]. split; [assumption|].
    split.
    { intros i sim Hin. apply (Hscored i sim).
      apply (Permutation_in _ Hperm). exact Hin. }
    split.
    { intros c cs Heq. now destruct (Hnone c cs). }
    split.
    { intros i e He _.
      apply (Permutation_in _ (Permutation_sym Hperm)). now apply Hback. }
    repeat split; assumption.
Qed.

Lemma forall2_in_left {A B : Type} (P : A -> B -> Prop) (l1 : list A)
    (l2 : list B) (a : A) :
  Forall2 P l1 l2 -> In a l1 -> exists b, In b l2 /\ P a b.
Proof.
  induction 1 as [|x y l1 l2 Hxy _ IH]; intros Hin; [contradiction|].
  destruct Hin as [<- | Hin].
  - exists y. split; [now left | assumption].
  - destruct (IH Hin) as (b & Hb & Hab). exists b. split; [now right | assumption].
Qed.

Lemma forall2_in_right {A B : Type} (P : A -> B -> Prop) (l1 : list A)
    (l2 : list B) (b : B) :
  Forall2 P l1 l2 -> In b l2 -> exists a, In a l1 /\ P a b.
Proof.
  induction 1 as [|x y l1 l2 Hxy _ IH]; intros Hin; [contradiction|].
  destruct Hin as [<- | Hin].
  - exists x. split; [now left | assumption].
  - destruct (IH Hin) as (a & Ha & Hab). exists a. split; [now right | assumption].
Qed.

Lemma forall2_distances {E : Type} `{Embedder E} (store : t E) (query : string)
    (top : list (nat * Q)) :
  (forall i sim, In (i, sim) top ->
     exists e, embeddings store !! i = Some e
       /\ sim = _cosine_similarity (_text_to_simple_embedding query) e) ->
  Forall2 (fun i distance =>
             exists e, embeddings store !! i = Some e
               /\ distance
                  = 1 - _cosine_similarity (_text_to_simple_embedding query) e)
          (map fst top) (map (fun '(_, sim) => 1 - sim) top).
Proof.
  induction top as [|[i sim] top IH]; intros Hall; simpl; constructor.
  - destruct (Hall i sim) as (e & He & ->); [now left|]. now exists e.
  - apply IH. intros j s Hin. apply (Hall j s). now right.
Qed.

(** X13: when a search returns, its four lists describe distinct rows of
    the store, position by position: the id, the document and the
    metadata of the row, and one minus the similarity of its embedding
    with the query; the distances are in non-decreasing order and, for a
    non-negative [n_results], at most [n_results] rows are returned. *)
Theorem search_hits_are_rows {E : Type} `{Embedder E} (store : t E)
    (query : string) (n_results : Z)
    (filter_dict : option (list (string * constraint))) (sr : SearchResults) :
  search_recipes store query n_results filter_dict = Ok sr ->
  exists rows : list nat,
    NoDup rows
    /\ Forall2 (fun i x => ids store !! i = Some x) rows (res_ids sr)
    /\ Forall2 (fun i x => documents store !! i = Some x) rows (res_documents sr)
    /\ Forall2 (fun i x => metadatas store !! i = Some x) rows (res_metadatas sr)
    /\ Forall2 (fun i distance =>
                  exists e, embeddings store !! i = Some e
                    /\ distance
                       = 1 - _cosine_similarity (_text_to_simple_embedding query) e)
               rows (res_distances sr)
    /\ StronglySorted Qle (res_distances sr)
    /\ ((0 <= n_results)%Z -> (Z.of_nat (length rows) <= n_results)%Z).
Proof.
  intros Hsearch.
  destruct (search_recipes_rows store query n_results filter_dict sr Hsearch)
    as (candidates & Hsorted & Hnodup & Hrows & _ & _ & Hids & Hdocuments
        & Hmetadatas & Hdistances).
  cbn zeta in *. exists (map fst (slice_to n_results candidates)).
  split.
  { unfold slice_to. destruct (0 <=? n_results)%Z; now apply nodup_map_take. }
  repeat (split; [assumption|]). rewrite Hdistances. split; [|split].
  - apply forall2_distances. intros i sim Hin. apply (Hrows i sim).
    now apply slice_to_incl in Hin.
  - apply distances_ascending. now apply EngineMore.strongly_sorted_slice.
  - intros Hn. rewrite length_map. now apply slice_to_length.
Qed.

Lemma search_hits_are_rows_at_sample :
  exists sr,
    search_recipes (H := similarity_embedder) exact_match "tofu" 3 None = Ok sr
    /\ exists rows : list nat,
         NoDup rows
         /\ Forall2 (fun i x => ids exact_match !! i = Some x) rows (res_ids sr)
         /\ Forall2 (fun i x => documents exact_match !! i = Some x) rows
              (res_documents sr)
         /\ Forall2 (fun i x => metadatas exact_match !! i = Some x) rows
              (res_metadatas sr)
         /\ Forall2 (fun i distance =>
                       exists e, embeddings exact_match !! i = Some e
                         /\ distance
                            = 1 - _cosine_similarity (Embedder := similarity_embedder)
                                    (_text_to_simple_embedding
                                       (Embedder := similarity_embedder) "tofu")
                                    e)
                    rows (res_distances sr)
         /\ StronglySorted Qle (res_distances sr)
         /\ ((0 <= 3)%Z -> (Z.of_nat (length rows) <= 3)%Z).
Proof.
  destruct (search_recipes (H := similarity_embedder) exact_match "tofu" 3 None)
    as [sr|err|nonfinite] eqn:Hs; [|vm_compute in Hs; discriminate..].
  exists sr. split; [reflexivity|].
  apply (search_hits_are_rows (H := similarity_embedder) exact_match "tofu" 3 None
           sr Hs).
Defined.

Lemma filtered_hits_pass {E : Type} `{Embedder E} (store : t E)
    (query : string) (n_results : Z) (c : string * constraint)
    (cs : list (string * constraint)) (sr : SearchResults) :
  search_recipes store query n_results (Some (c :: cs)) = Ok sr ->
  Forall (fun metadata => entry_matches metadata (c :: cs) = Ok true)
    (res_metadatas sr).
Proof.
  intros Hsearch.
  destruct (search_recipes_rows store query n_results (Some (c :: cs)) sr Hsearch)
    as (candidates & _ & _ & _ & Hpass & _ & _ & _ & Hmetadatas & _).
  cbn zeta in *.
  apply Forall_forall. intros metadata Hin. apply list_elem_of_In in Hin.
  destruct (forall2_in_right _ _ _ _ Hmetadatas Hin) as (i & Hi & Hrow).
  apply in_map_iff in Hi as ([j sim] & Hj & Htop). simpl in Hj. subst j.
  apply slice_to_incl in Htop.
  destruct (Hpass c cs eq_refl i sim Htop) as (m & Hm & Hok). congruence.
Qed.

Lemma passing_rows_returned {E : Type} `{Embedder E} (store : t E)
    (query : string) (n_results : Z) (c : string * constraint)
    (cs : list (string * constraint)) (sr : SearchResults) (i : nat)
    (metadata : gmap string meta_value) :
  search_recipes store query n_results (Some (c :: cs)) = Ok sr ->
  (Z.of_nat (length (embeddings store)) <= n_results)%Z ->
  (i < length (embeddings store))%nat ->
  metadatas store !! i = Some metadata ->
  entry_matches metadata (c :: cs) = Ok true ->
  In metadata (res_metadatas sr).
Proof.
  intros Hsearch Hn Hi Hrow Hok.
  destruct (search_recipes_rows store query n_results (Some (c :: cs)) sr Hsearch)
    as (candidates & _ & Hnodup & Hrows & _ & Hall & _ & _ & Hmetadatas & _).
  cbn zeta in *.
  apply lookup_lt_is_Some_2 in Hi as (e & He).
  assert (Hin : In (i, _cosine_similarity (_text_to_simple_embedding query) e)
                   candidates).
  { apply (Hall i e He). intros c' cs' Heq. inversion Heq; subst.
    now exists metadata. }
  assert (Hshort : (length candidates <= length (embeddings store))%nat).
  { rewrite <- (length_map fst candidates),
      <- (length_seq (length (embeddings store)) 0).
    apply NoDup_incl_length; [now apply NoDup_ListNoDup|].
    intros j Hj. apply in_map_iff in Hj as ([j' sim] & Heq & Hj).
    simpl in Heq. subst j'. destruct (Hrows j sim Hj) as (e' & He' & _).
    apply in_seq. apply lookup_lt_Some in He'. lia. }
  assert (Htop : slice_to n_results candidates = candidates).
  { unfold slice_to. destruct (0 <=? n_results)%Z eqn:Hb;
      [|apply Z.leb_gt in Hb; lia].
    apply take_ge. lia. }
  rewrite Htop in Hmetadatas.
  destruct (forall2_in_left _ _ _ i Hmetadatas) as (m & Hm & Hrow').
  { apply in_map_iff.
    now exists (i, _cosine_similarity (_text_to_simple_embedding query) e). }
  congruence.
Qed.

(** X14: every metadata dictionary returned by a filtered search passes
    the filter, and when [n_results] is at least the size of the store
    every row that passes the filter is returned. *)
Theorem filtered_search_sound_and_complete {E : Type} `{Embedder E} (store : t E)
    (query : string) (n_results : Z) (c : string * constraint)
    (cs : list (string * constraint)) (sr : SearchResults) :
  search_recipes store query n_results (Some (c :: cs)) = Ok sr ->
  Forall (fun metadata => entry_matches metadata (c :: cs) = Ok true)
    (res_metadatas sr)
  /\ ((Z.of_nat (length (embeddings store)) <= n_results)%Z ->
      forall i metadata,
        (i < length (embeddings store))%nat ->
        metadatas store !! i = Some metadata ->
        entry_matches metadata (c :: cs) = Ok true ->
        In metadata (res_metadatas sr)).
Proof.
  intros Hsearch. split.
  - now apply (filtered_hits_pass store query n_results c cs).
  - intros Hn i metadata Hi Hrow Hok.
    now apply (passing_rows_returned store query n_results c cs sr i).
Qed.

Lemma filtered_search_sound_and_complete_at_sample :
  exists sr,
    search_recipes (H := similarity_embedder) indexed "soup" 5
      (Some [("title", Ops {[ "$contains" := OStr "Soup" ]})]) = Ok sr
    /\ Forall (fun metadata =>
                 entry_matches metadata
                   [("title", Ops {[ "$contains" := OStr "Soup" ]})] = Ok true)
         (res_metadatas sr)
    /\ ((Z.of_nat (length (embeddings indexed)) <= 5)%Z ->
        forall i metadata,
          (i < length (embeddings indexed))%nat ->
          metadatas indexed !! i = Some metadata ->
          entry_matches metadata
            [("title", Ops {[ "$contains" := OStr "Soup" ]})] = Ok true ->
          In metadata (res_metadatas sr)).
Proof.
  destruct (search_recipes (H := similarity_embedder) indexed "soup" 5
              (Some [("title", Ops {[ "$contains" := OStr "Soup" ]})]))
    as [sr|err|nonfinite] eqn:Hs; [|vm_compute in Hs; discriminate..].
  exists sr. split; [reflexivity|].
  apply (filtered_search_sound_and_complete (H := similarity_embedder) indexed
           "soup" 5 ("title", Ops {[ "$contains" := OStr "Soup" ]}) [] sr Hs).
Defined.

(** *** Searches that cannot fail *)

Lemma apply_filters_loop_total (filter_dict : list (string * constraint))
    (items : list (nat * gmap string meta_value)) (acc : list nat) :
  Forall (fun item => exists b, entry_matches (snd item) filter_dict = Ok b) items ->
  exists out,
    for_each (fun matching_indices '(i, metadata) =>
                do b <- entry_matches metadata filter_dict;
                Ok (if b then matching_indices +++ [i] else matching_indices))
             items acc = Ok out.
Proof.
  intros Hall. revert acc.
  induction Hall as [|[i m] items (b & Hb) _ IH]; intros acc; simpl; [eauto|].
  simpl in Hb. rewrite Hb. simpl. apply IH.
Qed.

Lemma apply_filters_total {E : Type} (store : t E)
    (filter_dict : list (string * constraint)) :
  Forall (fun metadata => exists b, entry_matches metadata filter_dict = Ok b)
    (metadatas store) ->
  exists out, _apply_filters store filter_dict = Ok out.
Proof.
  intros Hall. unfold _apply_filters. apply apply_filters_loop_total.
  now apply (Forall_enumerate
               (fun metadata => exists b, entry_matches metadata filter_dict = Ok b)).
Qed.

(** X15: when a search without a filter returns, then for a non-negative
    [n_results] it holds [min(n_results, number of stored embeddings)]
    hits, and its four lists have one length. *)
Theorem unfiltered_search_size {E : Type} `{Embedder E} (store : t E)
    (query : string) (n_results : Z) (sr : SearchResults) :
  (0 <= n_results)%Z ->
  search_recipes store query n_results None = Ok sr ->
  length (res_ids sr)
  = Nat.min (Z.to_nat n_results) (length (embeddings store))
  /\ length (res_documents sr) = length (res_ids sr)
  /\ length (res_metadatas sr) = length (res_ids sr)
  /\ length (res_distances sr) = length (res_ids sr).
Proof.
  intros Hn Hsearch. unfold search_recipes in Hsearch.
  cbn zeta in Hsearch. cbn [bind] in Hsearch.
  set (top := slice_to n_results _) in Hsearch.
  assert (Htop : length top
                 = Nat.min (Z.to_nat n_results) (length (embeddings store))).
  { subst top. unfold slice_to.
    destruct (0 <=? n_results)%Z eqn:Hb; [|apply Z.leb_gt in Hb; lia].
    rewrite length_take, sort_desc_length, length_map. unfold enumerate.
    rewrite length_combine, (length_seq (length (embeddings store)) 0). lia. }
  destruct (map_r (index (ids store)) (map fst top))
    as [r_ids|err|nonfinite] eqn:Hr_ids; [|discriminate..].
  destruct (map_r (index (documents store)) (map fst top))
    as [r_documents|err|nonfinite] eqn:Hr_documents; [|discriminate..].
  destruct (map_r (index (metadatas store)) (map fst top))
    as [r_metadatas|err|nonfinite] eqn:Hr_metadatas; [|discriminate..].
  cbn [bind] in Hsearch. inversion Hsearch; subst sr; clear Hsearch.
  cbn [res_ids res_documents res_metadatas res_distances].
  apply map_r_index_spec, Forall2_length in Hr_ids, Hr_documents, Hr_metadatas.
  rewrite length_map in Hr_ids, Hr_documents, Hr_metadatas.
  rewrite length_map. lia.
Qed.

Lemma unfiltered_search_size_at_sample :
  exists sr,
    search_recipes (H := similarity_embedder) exact_match "tofu" 3 None = Ok sr
    /\ length (res_ids sr) = Nat.min (Z.to_nat 3) (length (embeddings exact_match))
    /\ length (res_documents sr) = length (res_ids sr)
    /\ length (res_metadatas sr) = length (res_ids sr)
    /\ length (res_distances sr) = length (res_ids sr).
Proof.
  destruct (search_recipes (H := similarity_embedder) exact_match "tofu" 3 None)
    as [sr|err|nonfinite] eqn:Hs; [|vm_compute in Hs; discriminate..].
  exists sr. split; [reflexivity|].
  apply (unfiltered_search_size (H := similarity_embedder) exact_match "tofu" 3 sr);
    [lia | exact Hs].
Defined.

(** *** Filters by tag *)

Lemma in_filter_is_tagged (key value : string) (metadata : gmap string meta_value) :
  entry_matches metadata [(key, Ops {[ "$in" := OList [SStr value] ]})]
  = Ok (tagged key value metadata).
Proof.
  unfold tagged. cbn [entry_matches].
  destruct (metadata !! key) as [[v|l]|]; [| |reflexivity];
    unfold constraint_holds; rewrite lookup_singleton;
    rewrite decide_True by reflexivity; cbn.
  - unfold in_list. cbn. rewrite orb_false_r. now destruct (scalar_eqb _ _).
  - rewrite orb_false_r. now destruct (in_list _ _).
Qed.

(** The filter of the two tag searches evaluates on every metadata
    dictionary, so [_apply_filters] returns with it, and it selects the
    tagged rows. *)
Lemma tag_filter_rows {E : Type} (store : t E) (key value : string) :
  exists out,
    _apply_filters store [(key, Ops {[ "$in" := OList [SStr value] ]})] = Ok out
    /\ forall i, i ∈ out <->
         exists metadata,
           metadatas store !! i = Some metadata
           /\ tagged key value metadata = true.
Proof.
  destruct (apply_filters_total store
              [(key, Ops {[ "$in" := OList [SStr value] ]})]) as (out & Hout).
  { apply Forall_forall. intros metadata _. rewrite in_filter_is_tagged. eauto. }
  exists out. split; [assumption|]. intros i.
  rewrite (apply_filters_sound store _ out Hout i).
  split; intros (metadata & Hrow & Hok); exists metadata; (split; [assumption|]).
  - rewrite in_filter_is_tagged in Hok. congruence.
  - rewrite in_filter_is_tagged. now rewrite Hok.
Qed.

Lemma tag_search {E : Type} `{Embedder E} (store : t E) (key value : string)
    (n_results : Z) (sr : SearchResults) :
  search_recipes store "" n_results
    (Some [(key, Ops {[ "$in" := OList [SStr value] ]})]) = Ok sr ->
  Forall (fun metadata => tagged key value metadata = true) (res_metadatas sr)
  /\ ((Z.of_nat (length (embeddings store)) <= n_results)%Z ->
      forall i metadata,
        (i < length (embeddings store))%nat ->
        metadatas store !! i = Some metadata ->
        tagged key value metadata = true ->
        In metadata (res_metadatas sr)).
Proof.
  intros Hsearch.
  pose proof (filtered_hits_pass store "" n_results _ _ sr Hsearch) as Hsound.
  split.
  - eapply Forall_impl; [exact Hsound|]. intros metadata Hok. cbv beta in Hok.
    pose proof (in_filter_is_tagged key value metadata) as Htagged.
    congruence.
  - intros Hn i metadata Hi Hrow Htagged.
    apply (passing_rows_returned store "" n_results _ _ sr i metadata Hsearch);
      try assumption.
    rewrite in_filter_is_tagged. now rewrite Htagged.
Qed.

(** X16: the filter that [filter_by_dietary_restriction] and
    [filter_by_health_condition] build evaluates on every store and selects
    the rows whose ['dietary_tags'] (['health_benefits']) field holds the
    given value; when the two searches return, they return only such rows,
    and every such row that has an embedding when [n_results] is at least
    the number of embeddings. *)
Theorem tag_filters_select_tagged_rows {E : Type} `{Embedder E} (store : t E)
    (value : string) (n_results : Z) (by_tag by_benefit : SearchResults) :
  filter_by_dietary_restriction store value n_results = Ok by_tag ->
  filter_by_health_condition store value n_results = Ok by_benefit ->
  (forall key,
     exists out,
       _apply_filters store [(key, Ops {[ "$in" := OList [SStr value] ]})] = Ok out
       /\ forall i, i ∈ out <->
            exists metadata,
              metadatas store !! i = Some metadata
              /\ tagged key value metadata = true)
  /\ Forall (fun metadata => tagged "dietary_tags" value metadata = true)
       (res_metadatas by_tag)
  /\ Forall (fun metadata => tagged "health_benefits" value metadata = true)
       (res_metadatas by_benefit)
  /\ ((Z.of_nat (length (embeddings store)) <= n_results)%Z ->
      forall i metadata,
        (i < length (embeddings store))%nat ->
        metadatas store !! i = Some metadata ->
        (tagged "dietary_tags" value metadata = true ->
         In metadata (res_metadatas by_tag))
        /\ (tagged "health_benefits" value metadata = true ->
            In metadata (res_metadatas by_benefit))).
Proof.
  intros Htag Hbenefit.
  destruct (tag_search store "dietary_tags" value n_results by_tag Htag)
    as [Hsound1 Hall1].
  destruct (tag_search store "health_benefits" value n_results by_benefit Hbenefit)
    as [Hsound2 Hall2].
  split; [intros key; apply tag_filter_rows|].
  split; [assumption|]. split; [assumption|].
  intros Hn i metadata Hi Hrow. split; intros Htagged.
  - now apply (Hall1 Hn i).
  - now apply (Hall2 Hn i).
Qed.

Lemma tag_filters_select_tagged_rows_at_sample :
  exists by_tag by_benefit,
    filter_by_dietary_restriction (H := similarity_embedder) indexed "vegan" 5
    = Ok by_tag
    /\ filter_by_health_condition (H := similarity_embedder) indexed "vegan" 5
       = Ok by_benefit
    /\ (forall key,
          exists out,
            _apply_filters indexed [(key, Ops {[ "$in" := OList [SStr "vegan"] ]})]
            = Ok out
            /\ forall i, i ∈ out <->
                 exists metadata,
                   metadatas indexed !! i = Some metadata
                   /\ tagged key "vegan" metadata = true)
    /\ Forall (fun metadata => tagged "dietary_tags" "vegan" metadata = true)
         (res_metadatas by_tag)
    /\ Forall (fun metadata => tagged "health_benefits" "vegan" metadata = true)
         (res_metadatas by_benefit)
    /\ ((Z.of_nat (length (embeddings indexed)) <= 5)%Z ->
        forall i metadata,
          (i < length (embeddings indexed))%nat ->
          metadatas indexed !! i = Some metadata ->
          (tagged "dietary_tags" "vegan" metadata = true ->
           In metadata (res_metadatas by_tag))
          /\ (tagged "health_benefits" "vegan" metadata = true ->
              In metadata (res_metadatas by_benefit))).
Proof.
  destruct (filter_by_dietary_restriction (H := similarity_embedder) indexed
              "vegan" 5) as [by_tag|err|nonfinite] eqn:Htag;
    [|vm_compute in Htag; discriminate..].
  destruct (filter_by_health_condition (H := similarity_embedder) indexed
              "vegan" 5) as [by_benefit|err|nonfinite] eqn:Hbenefit;
    [|vm_compute in Hbenefit; discriminate..].
  exists by_tag, by_benefit. split; [reflexivity|]. split; [reflexivity|].
  apply (tag_filters_select_tagged_rows (H := similarity_embedder) indexed
           "vegan" 5 by_tag by_benefit Htag Hbenefit).
Defined.

(** *** Adding and looking up *)

Lemma index_of_absent (x : string) (l : list string) :
  ~ In x l -> index_of x l = Raise ValueError.
Proof.
  induction l as [|y l IH]; simpl; intros Hnotin; [reflexivity|].
  destruct (String.eqb y x) eqn:Hyx.
  - apply String.eqb_eq in Hyx. subst. exfalso. apply Hnotin. now left.
  - rewrite IH; [reflexivity|]. intros Hin. apply Hnotin. now right.
Qed.

Lemma index_of_first (x : string) (l1 l2 : list string) :
  ~ In x l1 -> index_of x (l1 +++ x :: l2) = Ok (length l1).
Proof.
  induction l1 as [|y l1 IH]; simpl; intros Hnotin.
  - now rewrite String.eqb_refl.
  - destruct (String.eqb y x) eqn:Hyx.
    + apply String.eqb_eq in Hyx. subst. exfalso. apply Hnotin. now left.
    + rewrite IH; [reflexivity|]. intros Hin. apply Hnotin. now right.
Qed.

Lemma index_of_found (x : string) (l : list string) :
  In x l -> exists i, index_of x l = Ok i /\ l !! i = Some x.
Proof.
  induction l as [|y l IH]; [contradiction|]. simpl.
  destruct (String.eqb y x) eqn:Hyx.
  - intros _. apply String.eqb_eq in Hyx. subst. now exists 0%nat.
  - intros [Heq | Hin]; [subst; rewrite String.eqb_refl in Hyx; discriminate|].
    destruct (IH Hin) as (i & -> & Hi). now exists (S i).
Qed.

Lemma index_of_app_l (x : string) (l1 l2 : list string) :
  In x l1 -> index_of x (l1 +++ l2) = index_of x l1.
Proof.
  induction l1 as [|y l1 IH]; [contradiction|]. simpl.
  destruct (String.eqb y x) eqn:Hyx; [reflexivity|].
  intros [Heq | Hin]; [subst; rewrite String.eqb_refl in Hyx; discriminate|].
  now rewrite IH.
Qed.

(** X17: after [add_recipes] on a store whose lists have one length, with
    ids that are new and distinct, [get_recipe_by_id] finds under each new
    id the text and the metadata added at the same position; what an
    earlier id returns is unchanged; an id that was never given out returns
    [None]. *)
Theorem added_recipes_are_found_by_id {E : Type} `{Embedder E} (store : t E)
    (recipe_texts : list string)
    (recipe_metadata : option (list (gmap string meta_value)))
    (new_embeddings : option (list E)) (doc_ids : list string) :
  aligned store ->
  NoDup (ids store +++ doc_ids) ->
  let added :=
    add_recipes store recipe_texts recipe_metadata new_embeddings doc_ids in
  let new_metadata :=
    match recipe_metadata with
    | Some m => m
    | None => map (fun text => {[ "text" := MScalar (SStr text) ]}) recipe_texts
    end in
  (forall k doc_id text metadata,
     doc_ids !! k = Some doc_id ->
     recipe_texts !! k = Some text ->
     new_metadata !! k = Some metadata ->
     get_recipe_by_id added doc_id
     = Ok (Some {| sr_id := doc_id; sr_document := text;
                   sr_metadata := metadata |}))
  /\ (forall doc_id,
        In doc_id (ids store) ->
        get_recipe_by_id added doc_id = get_recipe_by_id store doc_id)
  /\ (forall doc_id,
        ~ In doc_id (ids store +++ doc_ids) ->
        get_recipe_by_id added doc_id = Ok None).
Proof.
  intros (Hids & Hmetadatas & _) Hnodup. cbn zeta.
  unfold get_recipe_by_id, add_recipes. cbn [ids documents metadatas].
  split; [|split].
  - intros k doc_id text metadata Hk Htext Hmetadata.
    assert (Hindex : index_of doc_id (ids store +++ doc_ids)
                     = Ok (length (ids store) + k)%nat).
    { pose proof (take_drop_middle doc_ids k doc_id Hk) as Hsplit.
      rewrite <- Hsplit in Hnodup |- *. rewrite app_assoc in Hnodup |- *.
      rewrite index_of_first.
      - rewrite length_app, length_take. apply lookup_lt_Some in Hk.
        f_equal. lia.
      - intros Hin. apply NoDup_app in Hnodup as (_ & Hdisjoint & _).
        apply (Hdisjoint doc_id); [now apply list_elem_of_In | now left]. }
    rewrite Hindex. unfold index.
    rewrite (lookup_app_r (ids store)) by lia.
    rewrite (lookup_app_r (documents store)) by lia.
    rewrite (lookup_app_r (metadatas store)) by lia.
    replace (length (ids store) + k - length (ids store))%nat with k by lia.
    replace (length (ids store) + k - length (documents store))%nat with k by lia.
    replace (length (ids store) + k - length (metadatas store))%nat with k by lia.
    rewrite Hk, Htext, Hmetadata. reflexivity.
  - intros doc_id Hin. rewrite (index_of_app_l _ _ _ Hin).
    destruct (index_of_found doc_id (ids store) Hin) as (i & -> & Hi).
    apply lookup_lt_Some in Hi. unfold index.
    rewrite !lookup_app_l by lia. reflexivity.
  - intros doc_id Hnotin. now rewrite index_of_absent.
Qed.

Lemma added_recipes_are_found_by_id_at_sample :
  let added :=
    add_recipes (H := similarity_embedder) indexed
      ["Title: Bean Stew | Description: slow"] None None ["uuid-3"] in
  let new_metadata :=
    map (fun text => {[ "text" := MScalar (SStr text) ]})
      ["Title: Bean Stew | Description: slow"] in
  (forall k doc_id text metadata,
     ["uuid-3"] !! k = Some doc_id ->
     ["Title: Bean Stew | Description: slow"] !! k = Some text ->
     new_metadata !! k = Some metadata ->
     get_recipe_by_id added doc_id
     = Ok (Some {| sr_id := doc_id; sr_document := text;
                   sr_metadata := metadata |}))
  /\ (forall doc_id,
        In doc_id (ids indexed) ->
        get_recipe_by_id added doc_id = get_recipe_by_id indexed doc_id)
  /\ (forall doc_id,
        ~ In doc_id (ids indexed +++ ["uuid-3"]) ->
        get_recipe_by_id added doc_id = Ok None).
Proof.
  apply (added_recipes_are_found_by_id (H := similarity_embedder) indexed
           ["Title: Bean Stew | Description: slow"] None None ["uuid-3"]).
  - repeat split.
  - apply (bool_decide_unpack _). vm_compute. exact I.
Defined.

(** *** Operators *)

(** X18: on every field [$not_contains] is the negation of [$contains],
    exceptions included; on a list field [$in] and [$contains] are the
    same test; a dictionary with none of the three operators matches
    nothing. *)
Theorem filter_operators_related (metadata_value : meta_value) (op : operand) :
  constraint_holds metadata_value (Ops {[ "$not_contains" := op ]})
  = (do b <- constraint_holds metadata_value (Ops {[ "$contains" := op ]});
     Ok (negb b))
  /\ (forall l,
        constraint_holds (MList l) (Ops {[ "$in" := op ]})
        = constraint_holds (MList l) (Ops {[ "$contains" := op ]}))
  /\ (forall d,
        d !! "$in" = None -> d !! "$contains" = None ->
        d !! "$not_contains" = None ->
        constraint_holds metadata_value (Ops d) = Ok false).
Proof.
  unfold constraint_holds. split; [|split].
  - rewrite !lookup_singleton.
    rewrite (decide_False (P := "$not_contains" = "$in")) by discriminate.
    rewrite (decide_False (P := "$not_contains" = "$contains")) by discriminate.
    rewrite (decide_False (P := "$contains" = "$in")) by discriminate.
    rewrite !decide_True by reflexivity.
    destruct metadata_value; reflexivity.
  - intros l. rewrite !lookup_singleton.
    rewrite (decide_False (P := "$contains" = "$in")) by discriminate.
    rewrite !decide_True by reflexivity. reflexivity.
  - intros d -> -> ->. reflexivity.
Qed.

(** *** Deleting *)

(** X19: after [delete_collection] the store is empty: every search,
    filtered or not, returns four empty lists, and no id is found. *)
Theorem deleted_collection_is_empty {E : Type} `{Embedder E} (store : t E)
    (query : string) (n_results : Z)
    (filter_dict : option (list (string * constraint))) (doc_id : string) :
  search_recipes (delete_collection store) query n_results filter_dict
  = Ok {| res_ids := []; res_documents := []; res_metadatas := [];
          res_distances := [] |}
  /\ get_recipe_by_id (delete_collection store) doc_id = Ok None
  /\ total_documents (delete_collection store) = 0%nat.
Proof.
  split; [|split; reflexivity].
  unfold delete_collection, search_recipes.
  assert (Hslice : slice_to n_results (@nil (nat * Q)) = []).
  { unfold slice_to. destruct (0 <=? n_results)%Z; now rewrite take_nil. }
  destruct filter_dict as [[|c cs]|]; cbn; rewrite Hslice; reflexivity.
Qed.

End StoreMore.

(** ** The corpus and the orchestrator *)

Module PipelineMore.

Import SimpleVectorStore RAGPipeline Spec Samples PipelineFacts.

(** *** Strings *)

Lemma prefix_empty (s : string) : String.prefix "" s = true.
Proof. now destruct s. Qed.

Lemma append_cons (c : ascii) (s t : string) : String c s ++ t = String c (s ++ t).
Proof. reflexivity. Qed.

Lemma append_nil (s : string) : "" ++ s = s.
Proof. reflexivity. Qed.

Lemma split_on_go_absent (sep cur s : string) :
  contains sep s = false -> split_on_go sep 0 cur s = [String.rev_app cur s].
Proof.
  revert cur. induction s as [|c s IH]; intros cur Habsent; [reflexivity|].
  cbn [contains] in Habsent. apply orb_false_iff in Habsent as [Hprefix Hrest].
  cbn [split_on_go]. rewrite Hprefix. now rewrite IH.
Qed.

Lemma split_on_absent (sep s : string) :
  contains sep s = false -> split_on sep s = [s].
Proof. intros Habsent. unfold split_on. now rewrite split_on_go_absent. Qed.

Lemma split_on_go_nonempty (sep : string) (skip : nat) (cur s : string) :
  split_on_go sep skip cur s <> [].
Proof.
  revert skip cur. induction s as [|c s IH]; intros skip cur; [discriminate|].
  cbn [split_on_go]. destruct skip; [|apply IH].
  destruct (String.prefix sep (String c s)); [discriminate | apply IH].
Qed.

Lemma no_bar_cons (c : ascii) (s : string) :
  contains "|" (String c s) = false -> c <> "|"%char /\ contains "|" s = false.
Proof.
  cbn [contains]. intros Habsent.
  apply orb_false_iff in Habsent as [Hprefix Hrest]. split; [|assumption].
  intros ->. cbn in Hprefix. now rewrite prefix_empty in Hprefix.
Qed.

Lemma separator_after_bar_free (before rest : string) :
  contains "|" before = false ->
  before_first " | " (before ++ " | " ++ rest) = before
  /\ contains " | " (before ++ " | " ++ rest) = true.
Proof.
  induction before as [|c before IH]; intros Hfree.
  - rewrite append_nil, !append_cons, append_nil. cbn.
    rewrite prefix_empty. split; reflexivity.
  - apply no_bar_cons in Hfree as [Hc Hfree]. destruct (IH Hfree) as [IHb IHc].
    assert (Hprefix : String.prefix " | " (String c (before ++ " | " ++ rest))
                      = false).
    { cbn [String.prefix]. destruct (ascii_dec " " c) as [<-|]; [|reflexivity].
      destruct before as [|c' before]; [reflexivity|].
      apply no_bar_cons in Hfree as [Hc' _]. rewrite append_cons.
      cbn [String.prefix].
      destruct (ascii_dec "|" c') as [<-|]; [congruence | reflexivity]. }
    rewrite append_cons.
    cbn [before_first contains]. rewrite Hprefix, IHb, IHc. split; reflexivity.
Qed.

Lemma find_by_title (wanted : Recipe) (corpus : list Recipe) :
  In wanted corpus ->
  exists found,
    find (fun recipe => String.eqb (title recipe) (title wanted)) corpus = Some found
    /\ title found = title wanted
    /\ In found corpus
    /\ (NoDup (map title corpus) -> found = wanted).
Proof.
  induction corpus as [|r corpus IH]; [contradiction|]. intros Hin. cbn [find].
  destruct (String.eqb (title r) (title wanted)) eqn:Htitle.
  - apply String.eqb_eq in Htitle. exists r.
    split; [reflexivity|]. split; [assumption|]. split; [now left|].
    intros Hnodup. destruct Hin as [Heq | Hin]; [assumption|].
    cbn [map] in Hnodup. apply NoDup_cons in Hnodup as [Hnotin _].
    exfalso. apply Hnotin. rewrite Htitle.
    apply list_elem_of_In, in_map. exact Hin.
  - destruct Hin as [Heq | Hin];
      [subst; rewrite String.eqb_refl in Htitle; discriminate|].
    destruct (IH Hin) as (found & Hfind & Ht & Hfound & Hunique).
    exists found. split; [assumption|]. split; [assumption|].
    split; [now right|]. intros Hnodup. apply Hunique.
    cbn [map] in Hnodup. now apply NoDup_cons in Hnodup as [_ Hnodup].
Qed.

(** X20: the document text of a recipe of the corpus, which starts with
    [Title: <title> | ], is resolved to the first recipe of the corpus with
    that title, provided the title holds no vertical bar; it is the recipe
    itself when titles are unique. *)
Theorem find_recipe_by_text_round_trip (dp : DataProcessor) (wanted : Recipe)
    (rest : string) :
  In wanted (recipes dp) ->
  contains "|" (title wanted) = false ->
  exists found,
    _find_recipe_by_text dp ("Title: " ++ title wanted ++ " | " ++ rest)
    = Some found
    /\ title found = title wanted
    /\ In found (recipes dp)
    /\ (NoDup (map title (recipes dp)) -> found = wanted).
Proof.
  intros Hin Hfree.
  assert (Hprefix : contains "|" ("Title: " ++ title wanted) = false).
  { rewrite !append_cons, append_nil. cbn. exact Hfree. }
  destruct (separator_after_bar_free ("Title: " ++ title wanted) rest Hprefix)
    as [Hbefore Hcontains].
  change (("Title: " ++ title wanted) ++ " | " ++ rest)
    with ("Title: " ++ title wanted ++ " | " ++ rest) in Hbefore, Hcontains.
  unfold _find_recipe_by_text. rewrite Hcontains, Hbefore. cbn [negb].
  assert (Htitle : String.prefix "Title: " ("Title: " ++ title wanted) = true).
  { rewrite !append_cons, append_nil. cbn. apply prefix_empty. }
  rewrite Htitle. rewrite !append_cons, append_nil. cbn [drop_chars].
  now apply find_by_title.
Qed.

Lemma find_recipe_by_text_round_trip_at_sample :
  exists found,
    _find_recipe_by_text processor
      ("Title: " ++ title lentil_soup ++ " | " ++ "Description: hearty soup")
    = Some found
    /\ title found = title lentil_soup
    /\ In found (recipes processor)
    /\ (NoDup (map title (recipes processor)) -> found = lentil_soup).
Proof.
  apply (find_recipe_by_text_round_trip processor lentil_soup
           "Description: hearty soup").
  - right. now left.
  - reflexivity.
Defined.

(** X21: an issue text without a lower-case occurrence of [contains]
    yields no ingredient, also when it starts with [Contains]. *)
Theorem extract_ingredients_needs_lowercase_marker (issue : string) :
  contains "contains" issue = false ->
  _extract_ingredients_from_issue issue = [].
Proof.
  intros Habsent. unfold _extract_ingredients_from_issue.
  destruct (contains "contains" (lower issue)); [|reflexivity].
  now rewrite (split_on_absent _ _ Habsent).
Qed.

Lemma extract_ingredients_needs_lowercase_marker_at_sample :
  _extract_ingredients_from_issue
    "Contains ingredients that may cause soy reaction: tofu, soy sauce" = [].
Proof.
  apply (extract_ingredients_needs_lowercase_marker
           "Contains ingredients that may cause soy reaction: tofu, soy sauce").
  reflexivity.
Defined.

(** *** Chunks *)

Lemma chunk_step_count (chunk_size : nat) (acc : list string * string)
    (section : string) :
  let count (state : list string * string) :=
    (length (fst state)
     + match snd state with EmptyString => 0 | _ => 1 end)%nat in
  (count (chunk_step chunk_size acc section) <= count acc + 1)%nat.
Proof.
  destruct acc as [chunks current]. cbv beta zeta. unfold chunk_step.
  destruct (chunk_size <? _)%nat.
  - destruct current, section; cbn [fst snd]; rewrite ?length_app; simpl; lia.
  - destruct current, section; cbn [fst snd]; simpl; lia.
Qed.

Lemma chunk_loop_count (chunk_size : nat) (sections : list string)
    (acc : list string * string) :
  let count (state : list string * string) :=
    (length (fst state)
     + match snd state with EmptyString => 0 | _ => 1 end)%nat in
  (count (fold_left (chunk_step chunk_size) sections acc)
   <= count acc + length sections)%nat.
Proof.
  cbv beta zeta. revert acc.
  induction sections as [|section sections IH]; intros acc.
  - simpl. lia.
  - cbn [fold_left length].
    pose proof (IH (chunk_step chunk_size acc section)) as Hrest.
    pose proof (chunk_step_count chunk_size acc section) as Hstep.
    cbv beta zeta in Hstep. lia.
Qed.

(** X22: a text is cut into at most as many chunks as it has sections
    between [ | ] separators; a text longer than [chunk_size] without a
    separator comes back as one chunk, whatever its length. *)
Theorem chunks_follow_sections (chunk_size : nat) (recipe_text : string) :
  (length (chunks_of_text chunk_size recipe_text)
   <= length (split_on " | " recipe_text))%nat
  /\ (contains " | " recipe_text = false ->
      (chunk_size < String.length recipe_text)%nat ->
      chunks_of_text chunk_size recipe_text = [strip recipe_text]).
Proof.
  unfold chunks_of_text. split.
  - destruct (chunk_size <? String.length recipe_text)%nat.
    + pose proof (chunk_loop_count chunk_size (split_on " | " recipe_text)
                    ([], EmptyString)) as Hcount.
      cbv beta zeta in Hcount.
      destruct (fold_left _ _ _) as [chunks current]. cbn [fst snd length] in Hcount.
      destruct current; rewrite ?length_app; simpl; lia.
    + pose proof (split_on_go_nonempty " | " 0 EmptyString recipe_text) as Hne.
      unfold split_on. destruct (split_on_go _ _ _ _); [congruence | simpl; lia].
  - intros Habsent Hlong. apply Nat.ltb_lt in Hlong as Htest. rewrite Htest.
    rewrite (split_on_absent _ _ Habsent). cbn [fold_left chunk_step].
    rewrite append_nil, Htest. destruct recipe_text; [simpl in Hlong; lia | reflexivity].
Qed.

(** *** The corpus and the index agree on tags *)

Lemma recipe_metadata_health_benefits (r : Recipe) :
  recipe_metadata r !! "health_benefits"
  = Some (MList (map SStr (health_benefits r))).
Proof.
  unfold recipe_metadata.
  repeat (rewrite lookup_insert_ne by discriminate).
  apply lookup_insert_eq.
Qed.

Lemma in_list_strings (value : string) (l : list string) :
  in_list (SStr value) (map SStr l) = mem value l.
Proof.
  unfold in_list, mem. induction l as [|x l IH]; [reflexivity|].
  cbn [map existsb scalar_eqb]. now rewrite IH.
Qed.

Lemma map_filter_commute {A B : Type} (f : A -> B) (keep : B -> bool)
    (l : list A) :
  map f (List.filter (fun x => keep (f x)) l) = List.filter keep (map f l).
Proof.
  induction l as [|x l IH]; [reflexivity|]. cbn [List.filter map].
  destruct (keep (f x)); cbn [map]; now rewrite IH.
Qed.

(** X23: the recipes the corpus lists for a dietary tag (a health benefit)
    are those whose metadata dictionary, as [get_recipe_metadata] builds
    it, passes the index's tag test for that value, in the same order. *)
Theorem corpus_lookup_agrees_with_metadata (dp : DataProcessor) (value : string) :
  map recipe_metadata (get_recipes_by_dietary_restriction dp value)
  = List.filter (tagged "dietary_tags" value) (get_recipe_metadata dp)
  /\ map recipe_metadata (get_recipes_by_health_condition dp value)
     = List.filter (tagged "health_benefits" value) (get_recipe_metadata dp).
Proof.
  unfold get_recipes_by_dietary_restriction, get_recipes_by_health_condition,
    get_recipe_metadata.
  split; rewrite <- map_filter_commute; f_equal; apply filter_ext; intros r;
    unfold tagged.
  - now rewrite PipelineFacts.recipe_metadata_dietary_tags, in_list_strings.
  - now rewrite recipe_metadata_health_benefits, in_list_strings.
Qed.

(** *** The filter of the orchestrator *)

(** X24: [_build_filter_dict] returns [None] exactly when there is no
    restriction, no ingredient excluded by the listed allergies and no
    benefit mapped from the listed health conditions; otherwise the filter
    is not empty and its keys are distinct and among [dietary_tags],
    [ingredients] and [health_benefits]. *)
Theorem build_filter_dict_cases (dp : DataProcessor)
    (dietary_restrictions allergies health_conditions : list string) :
  let relevant_benefits :=
    flat_map (fun condition =>
                from_option (fun l => l) []
                  (dict_get condition health_benefits_mapping))
             health_conditions in
  (_build_filter_dict dp dietary_restrictions allergies health_conditions = None
   <-> dietary_restrictions = []
       /\ allergy_exclusions dp allergies = []
       /\ relevant_benefits = [])
  /\ (forall filter_dict,
        _build_filter_dict dp dietary_restrictions allergies health_conditions
        = Some filter_dict ->
        filter_dict <> []
        /\ NoDup (map fst filter_dict)
        /\ incl (map fst filter_dict)
             ["dietary_tags"; "ingredients"; "health_benefits"]).
Proof.
  cbn zeta. unfold _build_filter_dict.
  destruct dietary_restrictions as [|r rs];
    destruct (allergy_exclusions dp allergies) as [|x xs];
    destruct (flat_map _ health_conditions) as [|b bs];
    cbn [app]; (split; [split; [try discriminate; intros _; repeat split
                               | intros (H1 & H2 & H3); try discriminate;
                                 reflexivity]|]);
    intros filter_dict Heq; try discriminate;
    inversion Heq; subst filter_dict; cbn [map fst];
    (split; [discriminate|]);
    (split; [apply (bool_decide_unpack _); vm_compute; exact I|]);
    intros key Hkey; cbn in Hkey |- *; tauto.
Qed.

(** *** Recommendations and the search behind them *)

Lemma slice_to_map {A B : Type} (f : A -> B) (n : Z) (l : list A) :
  slice_to n (map f l) = map f (slice_to n l).
Proof.
  unfold slice_to. rewrite length_map.
  destruct (0 <=? n)%Z; apply firstn_map.
Qed.

Lemma max_from_bounds (x : Q) (xs : list Q) :
  x <= max_from x xs /\ Forall (fun y => y <= max_from x xs) xs.
Proof.
  unfold max_from. revert x. induction xs as [|y ys IH]; intros x; cbn [fold_left].
  - split; [lra | constructor].
  - destruct (Qlt_bool x y) eqn:Hlt.
    + apply Qlt_bool_iff in Hlt. destruct (IH y) as [Hy Hys].
      split; [lra|]. constructor; assumption.
    + apply SimilarityFacts.Qlt_bool_false in Hlt. destruct (IH x) as [Hx Hys].
      split; [assumption|]. constructor; [lra | assumption].
Qed.

Lemma max_bounds (xs : list Q) (largest : Q) :
  max xs = Ok largest -> Forall (fun y => y <= largest) xs.
Proof.
  destruct xs as [|x xs]; [discriminate|]. cbn [max]. intros [= <-].
  destruct (max_from_bounds x xs) as [Hx Hxs]. constructor; assumption.
Qed.

Section OrchestratorMore.

Context {E : Type} `{Embedder E} `{RecipeIntegrator}.

Variable p : RAGPipeline.t E.
Variables dietary_restrictions allergies health_conditions : list string.

Lemma static_results_total (distances : list Q)
    (hits : list (string * string * gmap string meta_value * Q))
    (acc : list SearchResult) :
  Forall (fun hit =>
            resolves (data_processor p) hit ->
            exists largest, max distances = Ok largest /\ ~ largest == 0) hits ->
  exists res,
    for_each (fun analyzed hit =>
                do entry <- static_result p dietary_restrictions allergies
                              health_conditions distances hit;
                Ok (match entry with
                    | Some e => analyzed +++ [e]
                    | None => analyzed
                    end)) hits acc = Ok res.
Proof.
  intros Hall. revert acc.
  induction Hall as [|[[[doc_id document] hit_metadata] hit_distance] hits Hhit _ IH];
    intros acc; cbn [for_each]; [eauto|].
  unfold static_result at 1.
  destruct (_find_recipe_by_text (data_processor p) document) as [found|] eqn:Hfind.
  - destruct Hhit as (largest & Hmax & Hnonzero).
    { unfold resolves. cbn [fst snd]. rewrite Hfind. eauto. }
    rewrite Hmax. cbn [bind]. unfold np_div.
    destruct (Qeq_bool largest 0) eqn:Hzero;
      [apply Qeq_bool_iff in Hzero; contradiction|].
    cbn [np_map bind]. apply IH.
  - cbn [bind]. apply IH.
Qed.

Lemma static_results_analysis (distances : list Q)
    (hits : list (string * string * gmap string meta_value * Q))
    (acc res : list SearchResult) :
  for_each (fun analyzed hit =>
              do entry <- static_result p dietary_restrictions allergies
                            health_conditions distances hit;
              Ok (match entry with
                  | Some e => analyzed +++ [e]
                  | None => analyzed
                  end)) hits acc = Ok res ->
  exists es,
    res = acc +++ es
    /\ Forall (fun e =>
         compatibility e
         = DietaryAnalyzer.analyze_recipe_compatibility (dietary_analyzer p)
             (recipe e) dietary_restrictions allergies health_conditions) es.
Proof.
  revert acc. induction hits as [|[[[doc_id document] hit_metadata] hit_distance] hits IH];
    intros acc Hloop; cbn [for_each] in Hloop.
  - inversion Hloop; subst. exists []. split; [now rewrite app_nil_r | constructor].
  - unfold static_result at 1 in Hloop.
    destruct (_find_recipe_by_text (data_processor p) document) as [found|].
    + destruct (max distances) as [largest|err|nonfinite]; [|discriminate..].
      cbn [bind] in Hloop.
      destruct (np_div hit_distance largest) as [quotient| |];
        cbn [np_map bind] in Hloop; [|discriminate..].
      destruct (IH _ Hloop) as (es & -> & Hes).
      eexists (_ :: es). split; [now rewrite <- app_assoc|].
      constructor; [reflexivity | assumption].
    + cbn [bind] in Hloop. apply (IH _ Hloop).
Qed.

Variable query : string.
Variable n_results : Z.
Variable include_dynamic : bool.

(** X25: once the vector search has returned, the orchestrator's search
    returns a response with rational scores unless some hit resolves to a
    recipe and the largest distance is 0; in that case nothing is raised
    either: the division by the largest distance is not guarded and gives
    a search score that is nan or an infinity. *)
Theorem search_returns_unless_largest_distance_zero (hits : SearchResults) :
  SimpleVectorStore.search_recipes (vector_store p) query (n_results * 2)
    (_build_filter_dict (data_processor p) dietary_restrictions allergies
       health_conditions) = Ok hits ->
  let zero_divisor :=
    Exists (resolves (data_processor p)) (hits_of hits)
    /\ exists largest, max (res_distances hits) = Ok largest /\ largest == 0 in
  (zero_divisor ->
   exists score,
     search_recipes p query dietary_restrictions allergies health_conditions
       n_results include_dynamic = NonFinite score
     /\ (score = NaN \/ score = Infinite))
  /\ (~ zero_divisor ->
      exists resp,
        search_recipes p query dietary_restrictions allergies health_conditions
          n_results include_dynamic = Ok resp).
Proof.
  intros Hsearch. cbn zeta. split.
  - intros (Hresolves & largest & Hmax & Hzero).
    now apply (search_score_not_finite_on_zero_largest_distance p query
                 dietary_restrictions allergies health_conditions n_results
                 include_dynamic hits largest).
  - intros Hnot. unfold search_recipes, analyzed_results. rewrite Hsearch.
    cbn [bind]. unfold static_results.
    destruct (static_results_total (res_distances hits) (hits_of hits) [])
      as (static & ->).
    { apply Forall_forall. intros hit Hhit Hresolves.
      pose proof (hits_distances hits) as Hdistances.
      rewrite Forall_forall in Hdistances. specialize (Hdistances hit Hhit).
      destruct (res_distances hits) as [|d ds] eqn:Hlist; [contradiction|].
      exists (max_from d ds). split; [reflexivity|]. intros Hzero.
      apply Hnot. split.
      - apply Exists_exists. now exists hit.
      - exists (max_from d ds). split; [reflexivity | assumption]. }
    cbn [bind]. eauto.
Qed.

(** X26: when the distances of the vector search are non-negative and not
    all 0, the search returns, and every returned entry carries the
    analysis of its recipe for the given profile, a search score between 0
    and 1 and an overall score between 0 and 1. *)
Theorem search_scores_in_unit_interval (hits : SearchResults) :
  SimpleVectorStore.search_recipes (vector_store p) query (n_results * 2)
    (_build_filter_dict (data_processor p) dietary_restrictions allergies
       health_conditions) = Ok hits ->
  Forall (fun d => 0 <= d) (res_distances hits) ->
  res_distances hits = [] \/ Exists (fun d => 0 < d) (res_distances hits) ->
  exists resp,
    search_recipes p query dietary_restrictions allergies health_conditions
      n_results include_dynamic = Ok resp
    /\ Forall (fun e =>
                 compatibility e
                 = DietaryAnalyzer.analyze_recipe_compatibility
                     (dietary_analyzer p) (recipe e) dietary_restrictions
                     allergies health_conditions
                 /\ 0 <= search_score e <= 1
                 /\ 0 <= overall_score e <= 1) (results resp).
Proof.
  intros Hsearch Hdistances Hpositive.
  assert (Hlargest : forall largest,
            max (res_distances hits) = Ok largest -> 0 < largest).
  { intros largest Hmax. destruct Hpositive as [Hnil | Hex].
    - rewrite Hnil in Hmax. discriminate.
    - apply Exists_exists in Hex as (d & Hd & Hpos).
      pose proof (max_bounds _ _ Hmax) as Hle.
      rewrite Forall_forall in Hle. specialize (Hle d Hd). lra. }
  destruct (static_results_total (res_distances hits) (hits_of hits) [])
    as (static & Hstatic).
  { apply Forall_forall. intros hit Hhit _.
    pose proof (hits_distances hits) as Hin.
    rewrite Forall_forall in Hin. specialize (Hin hit Hhit).
    destruct (res_distances hits) as [|d ds] eqn:Hlist; [contradiction|].
    exists (max_from d ds). split; [reflexivity|].
    specialize (Hlargest (max_from d ds) eq_refl). lra. }
  unfold search_recipes, analyzed_results. rewrite Hsearch. cbn [bind].
  unfold static_results. rewrite Hstatic. cbn [bind].
  eexists. split; [reflexivity|]. cbn [results].
  destruct (static_results_analysis _ _ _ _ Hstatic) as (es & Heq & Hanalysis).
  apply (static_results_loop p dietary_restrictions allergies health_conditions
           (res_distances hits)) in Hstatic as (es' & Heq' & Hentries);
    [|apply hits_distances].
  cbn [app] in Heq, Heq'. subst static. subst es'.
  apply Forall_forall. intros e He. apply list_elem_of_In in He.
  apply slice_to_incl, unique_loop_incl in He.
  apply (Permutation_in _ (sort_desc_perm overall_score _)) in He.
  apply in_app_or in He as [He | He].
  - rewrite Forall_forall in Hanalysis, Hentries.
    apply list_elem_of_In in He.
    pose proof (Hanalysis e He) as Hcompat.
    destruct (Hentries e He) as (largest & Hmax & Hnonzero & Hin & Hscore & Hoverall).
    pose proof (max_bounds _ _ Hmax) as Hle.
    pose proof (Hlargest largest Hmax) as Hpos.
    rewrite Forall_forall in Hle, Hdistances. apply list_elem_of_In in Hin.
    pose proof (Hle _ Hin) as Hd. pose proof (Hdistances _ Hin) as Hd0.
    assert (Hlo : 0 <= distance e / largest).
    { apply Qle_shift_div_l; [assumption | lra]. }
    assert (Hhi : distance e / largest <= 1).
    { apply Qle_shift_div_r; [assumption | lra]. }
    pose proof (AnalyzerMore.overall_score_range (dietary_analyzer p) (recipe e)
                  dietary_restrictions allergies health_conditions) as Hrange.
    rewrite <- Hcompat in Hrange.
    set (x := distance e / largest) in *.
    split; [assumption|]. split; [split; lra | split; lra].
  - unfold dynamic_results in He. destruct include_dynamic; [|contradiction].
    apply in_map_iff in He as (r & <- & _).
    cbn [compatibility recipe search_score overall_score dynamic_result].
    pose proof (AnalyzerMore.overall_score_range (dietary_analyzer p) r
                  dietary_restrictions allergies health_conditions) as Hrange.
    split; [reflexivity|]. split; [split; lra | split; lra].
Qed.

(** X27: for a non-negative [n_recommendations] the recommendations are
    the first [n_recommendations] results of the search for the built
    query with twice that bound; their titles are pairwise different, and
    each carries a nutrition optimisation exactly when the profile has
    nutritional goals. *)
Theorem recommendations_come_from_search (user_profile : UserProfile)
    (n_recommendations : Z) (recs : Recommendations) :
  (0 <= n_recommendations)%Z ->
  get_personalized_recommendations p user_profile n_recommendations
    include_dynamic = Ok recs ->
  (Z.of_nat (length (recommendations recs)) <= n_recommendations)%Z
  /\ NoDup (map (fun r => title_of (rec_result r)) (recommendations recs))
  /\ Forall (fun r =>
       rec_nutrition_optimization r
       = match profile_nutritional_goals user_profile with
         | [] => None
         | goals =>
             Some (SubstitutionEngine.optimize_recipe_nutrition
                     (substitution_engine p) (recipe (rec_result r)) goals
                     (profile_restrictions user_profile)
                     (profile_allergies user_profile))
         end) (recommendations recs)
  /\ exists resp,
       search_recipes p
         (_build_search_query (profile_preferences user_profile)
            (profile_nutritional_goals user_profile))
         (profile_restrictions user_profile) (profile_allergies user_profile)
         (profile_health_conditions user_profile) (n_recommendations * 2)
         include_dynamic = Ok resp
       /\ map rec_result (recommendations recs)
          = slice_to n_recommendations (results resp).
Proof.
  intros Hn Hrecs. unfold get_personalized_recommendations in Hrecs.
  cbn zeta in Hrecs.
  destruct (search_recipes p _ _ _ _ _ _) as [resp|err|nonfinite] eqn:Hsearch;
    [|discriminate..].
  cbn [bind] in Hrecs. inversion Hrecs; subst recs; clear Hrecs.
  cbn [recommendations]. rewrite slice_to_map.
  split; [|split; [|split]].
  - rewrite length_map. now apply slice_to_length.
  - rewrite map_map. cbn [rec_result].
    destruct (search_recipes_inv p _ _ _ _ _ _ resp Hsearch)
      as (merged & _ & Hres & _).
    unfold slice_to. destruct (0 <=? n_recommendations)%Z eqn:Hb;
      [|apply Z.leb_gt in Hb; lia].
    apply nodup_map_take. rewrite Hres.
    unfold slice_to. destruct (0 <=? n_recommendations * 2)%Z;
      apply nodup_map_take, unique_loop_nodup.
  - apply Forall_forall. intros r Hr.
    apply list_elem_of_In, in_map_iff in Hr as (e & <- & _).
    cbn [rec_nutrition_optimization rec_result].
    now destruct (profile_nutritional_goals user_profile).
  - exists resp. split; [reflexivity|].
    rewrite map_map. cbn [rec_result]. now rewrite map_id.
Qed.

End OrchestratorMore.

Lemma search_returns_unless_largest_distance_zero_at_sample :
  exists hits,
    SimpleVectorStore.search_recipes (H := similarity_embedder) exact_match
      "tofu rice bowl" (1 * 2)
      (_build_filter_dict processor [] [] []) = Ok hits
    /\ let zero_divisor :=
         Exists (resolves processor) (hits_of hits)
         /\ exists largest, max (res_distances hits) = Ok largest /\ largest == 0 in
       (zero_divisor ->
        exists score,
          run_search exact_match "tofu rice bowl" [] [] [] 1 true
          = NonFinite score
          /\ (score = NaN \/ score = Infinite))
       /\ (~ zero_divisor ->
           exists resp,
             run_search exact_match "tofu rice bowl" [] [] [] 1 true = Ok resp).
Proof.
  destruct (SimpleVectorStore.search_recipes (H := similarity_embedder) exact_match
              "tofu rice bowl" (1 * 2) (_build_filter_dict processor [] [] []))
    as [hits|err|nonfinite] eqn:Hs; [|vm_compute in Hs; discriminate..].
  exists hits. split; [reflexivity|].
  apply (search_returns_unless_largest_distance_zero (H := similarity_embedder)
           (H0 := fixed_integrator) (pipeline_with exact_match) [] [] []
           "tofu rice bowl" 1 true hits Hs).
Defined.

Lemma search_scores_in_unit_interval_at_sample :
  exists resp,
    run_search indexed "tofu dinner" ["vegetarian"] [] [] 3 true = Ok resp
    /\ Forall (fun e =>
                 compatibility e
                 = DietaryAnalyzer.analyze_recipe_compatibility
                     (dietary_analyzer (pipeline_with indexed))
                     (recipe e) ["vegetarian"] [] []
                 /\ 0 <= search_score e <= 1
                 /\ 0 <= overall_score e <= 1) (results resp).
Proof.
  destruct (SimpleVectorStore.search_recipes (H := similarity_embedder) indexed
              "tofu dinner" (3 * 2)
              (_build_filter_dict processor ["vegetarian"] [] []))
    as [hits|err|nonfinite] eqn:Hs; [|vm_compute in Hs; discriminate..].
  apply (search_scores_in_unit_interval (H := similarity_embedder)
           (H0 := fixed_integrator) (pipeline_with indexed) ["vegetarian"] [] []
           "tofu dinner" 3 true hits Hs);
    vm_compute in Hs; inversion Hs; subst hits; cbn [res_distances].
  - repeat constructor; discriminate.
  - right. apply Exists_cons_hd. reflexivity.
Defined.

Lemma recommendations_come_from_search_at_sample :
  exists recs,
    get_personalized_recommendations (H := similarity_embedder)
      (H0 := fixed_integrator) (pipeline_with indexed) soup_lover 2 true = Ok recs
    /\ (Z.of_nat (length (recommendations recs)) <= 2)%Z
    /\ NoDup (map (fun r => title_of (rec_result r)) (recommendations recs))
    /\ Forall (fun r =>
         rec_nutrition_optimization r
         = match profile_nutritional_goals soup_lover with
           | [] => None
           | goals =>
               Some (SubstitutionEngine.optimize_recipe_nutrition
                       (substitution_engine (pipeline_with indexed))
                       (recipe (rec_result r)) goals
                       (profile_restrictions soup_lover)
                       (profile_allergies soup_lover))
           end) (recommendations recs)
    /\ exists resp,
         search_recipes (H := similarity_embedder) (H0 := fixed_integrator)
           (pipeline_with indexed)
           (_build_search_query (profile_preferences soup_lover)
              (profile_nutritional_goals soup_lover))
           (profile_restrictions soup_lover) (profile_allergies soup_lover)
           (profile_health_conditions soup_lover) (2 * 2) true = Ok resp
         /\ map rec_result (recommendations recs) = slice_to 2 (results resp).
Proof.
  destruct (get_personalized_recommendations (H := similarity_embedder)
              (H0 := fixed_integrator) (pipeline_with indexed) soup_lover 2 true)
    as [recs|err|nonfinite] eqn:Hs; [|vm_compute in Hs; discriminate..].
  exists recs. split; [reflexivity|].
  apply (recommendations_come_from_search (H := similarity_embedder)
           (H0 := fixed_integrator) (pipeline_with indexed) true soup_lover 2 recs);
    [lia | exact Hs].
Defined.

End PipelineMore.
